(** * Contest-entry API server: payment verification and entry persistence

    A shallow embedding of [server/server.js] (the Express application that
    takes entry fees through Stripe and stores contest entries with
    Mongoose), followed by the properties of its handlers.

    Conventions of the embedding.
    - A JavaScript string is a [string]; its characters are read as code
      units below 256.  The text body of an entry, where the class [\s] of
      the regular expression matters, is kept as a list of 16-bit code
      units ([text]).
    - [undefined] is [None]; a field of [req.body] is an [option].
    - Numbers are binary64 floats ([float]): the fees of the calculator and
      the amounts that [parseInt] reads back and the handler adds.  Byte
      counts and times are integers.
    - The parameter [:id] of a route is the text of an ObjectId or some
      other text, which Mongoose cannot cast ([Id]).
    - Stripe is a record of functions handed to the handlers, the Mongoose
      collection is a list of documents in insertion order, and every
      handler takes the collection and returns the response together with
      the new collection.  The driver's generator of ObjectIds is
      abstracted to a counter kept with the collection.  What MongoDB may
      refuse at the time of the write (a document over 16 MiB, a lost
      connection) is outside the embedding: a write that passed validation
      succeeds.

    [server/server.js] holds two applications.  The first is embedded
    route by route; the two other source files are earlier revisions of
    it, without the availability middlewares.  The second application
    (module [Second]) registers its body parsers in another order, has a
    schema without inline files and guards its routes differently; it is
    embedded route by route as well. *)

From Stdlib Require Import ZArith NArith List String Ascii Bool Lia Btauto.
From Stdlib Require Import PrimFloat DecimalString Permutation Sorted.
From Stdlib Require Uint63 SpecFloat FloatOps FloatAxioms.
Import ListNotations.
Local Open Scope string_scope.
Local Open Scope Z_scope.

(** [a === b] on strings. *)
Infix "==" := String.eqb (at level 70, no associativity).

Set Implicit Arguments.

(** ** JavaScript runtime pieces used by the server *)

Module JS.

(** *** Truthiness *)

(** [!!s] for a string that may be [undefined]. *)
Definition truthy (s : option string) : bool :=
  match s with
  | Some s => negb (s == "")
  | None => false
  end.

(** *** Code units and the class [\s] *)

Definition text := list N.

(** WhiteSpace and LineTerminator code units, the class [\s]. *)
Definition is_space (c : N) : bool :=
  ((9 <=? c) && (c <=? 13) || (c =? 32) || (c =? 160) || (c =? 5760)
   || (8192 <=? c) && (c <=? 8202) || (c =? 8232) || (c =? 8233)
   || (c =? 8239) || (c =? 8287) || (c =? 12288) || (c =? 65279))%N.

Definition code_units (s : string) : text :=
  map N_of_ascii (list_ascii_of_string s).

(** *** [String.prototype.split] with a separator [/c+/] *)

Section Split.
Variable A : Type.
Variable sep : A -> bool.

(** The scan of [split]: [cur] is the token being read (reversed),
    [in_sep] tells that the previous unit belonged to a separator run.
    A run of separators ends one token; the token before the first run
    and the one after the last run are produced even when empty. *)
Fixpoint split_scan (in_sep : bool) (cur : list A) (s : list A)
  : list (list A) :=
  match s with
  | [] => [rev cur]
  | c :: s' =>
      if sep c then
        if in_sep then split_scan true [] s'
        else rev cur :: split_scan true [] s'
      else split_scan false (c :: cur) s'
  end.

Definition split (s : list A) : list (list A) := split_scan false [] s.

(** [word => word.length > 0] *)
Definition nonempty (w : list A) : bool := (0 <? List.length w)%nat.

(** Number of maximal runs of non-separators: a unit opens a run when
    it is not a separator and the unit before it, if any, is one. *)
Fixpoint count_runs (in_run : bool) (s : list A) : nat :=
  match s with
  | [] => 0
  | c :: s' =>
      if sep c then count_runs false s'
      else ((if in_run then 0 else 1) + count_runs true s')%nat
  end.

Definition count_tokens (s : list A) : nat := count_runs false s.
End Split.

(** *** [parseInt(s)] with no radix *)

Definition is_space_ascii (a : ascii) : bool := is_space (N_of_ascii a).

Fixpoint trim_start (s : string) : string :=
  match s with
  | String a s' => if is_space_ascii a then trim_start s' else s
  | EmptyString => EmptyString
  end.

Definition digit_value (a : ascii) : option Z :=
  let n := Z.of_N (N_of_ascii a) in
  if (48 <=? n) && (n <=? 57) then Some (n - 48)
  else if (97 <=? n) && (n <=? 122) then Some (n - 87)
  else if (65 <=? n) && (n <=? 90) then Some (n - 55)
  else None.

(** Longest prefix of digits of the radix, read left to right; [None]
    when the prefix is empty. *)
Fixpoint digits (radix : Z) (acc : option Z) (s : string) : option Z :=
  match s with
  | String a s' =>
      match digit_value a with
      | Some d =>
          if d <? radix
          then digits radix (Some (match acc with
                                   | Some n => n * radix + d
                                   | None => d
                                   end)) s'
          else acc
      | None => acc
      end
  | EmptyString => acc
  end.

(** A leading [0x] or [0X] selects radix 16. *)
Definition parse_magnitude (s : string) : option Z :=
  match s with
  | String "0" (String x rest) =>
      if (x =? "x")%char || (x =? "X")%char then digits 16 None rest
      else digits 10 None s
  | _ => digits 10 None s
  end.

(** The Number nearest to the integer [n], ties to even; an infinity
    beyond the largest finite Number. *)
Definition Number_of_Z (n : Z) : float :=
  FloatOps.SF2Prim
    (SpecFloat.binary_normalize FloatOps.prec FloatOps.emax n 0 false).

(** The Number of a sign and of the integer that the digits spell; [NaN]
    when there is no digit, [-0] for a negated zero. *)
Definition signed (negative : bool) (magnitude : option Z) : float :=
  match magnitude with
  | Some n =>
      if negative then PrimFloat.opp (Number_of_Z n) else Number_of_Z n
  | None => nan
  end.

(** [parseInt(undefined)] reads the text [undefined], which has no digit. *)
Definition parseInt (v : option string) : float :=
  match v with
  | None => nan
  | Some s =>
      match trim_start s with
      | String "-" s' => signed true (parse_magnitude s')
      | String "+" s' => signed false (parse_magnitude s')
      | s' => signed false (parse_magnitude s')
      end
  end.

(** *** Values met when a fee is looked up and multiplied *)

(** [JConcat v x] is the string that [v + x] builds when [v] is an
    object: the text of [v] followed by the decimal text of [x]. *)
Inductive value :=
| JUndefined
| JNumber (x : float)
| JFunction (name : string)
| JObject
| JConcat (v : value) (x : float).

Definition is_true (v : value) : bool :=
  match v with
  | JUndefined => false
  | JNumber x => negb (PrimFloat.is_zero x || PrimFloat.is_nan x)
  | JFunction _ | JObject | JConcat _ _ => true
  end.

(** [ToNumber]; the text of a function or of a plain object is never a
    numeric literal, nor is a string that starts with it. *)
Definition ToNumber (v : value) : float :=
  match v with
  | JNumber x => x
  | _ => nan
  end.

Definition mul (a b : value) : float :=
  PrimFloat.mul (ToNumber a) (ToNumber b).

(** [a + x] for a number [x]. *)
Definition add (a : value) (x : float) : value :=
  match a with
  | JNumber y => JNumber (PrimFloat.add y x)
  | JUndefined => JNumber nan
  | _ => JConcat a x
  end.

(** *** [Math.ceil] *)

Definition two52 : float := 0x1p52%float.

(** Below 2^52 in magnitude, adding and removing 2^52 rounds to an
    integer; above, every float is an integer. *)
Definition Math_ceil (x : float) : float :=
  if PrimFloat.is_nan x || PrimFloat.is_infinity x then x
  else if PrimFloat.ltb (PrimFloat.abs x) two52 then
    let r := if PrimFloat.leb zero x
             then PrimFloat.sub (PrimFloat.add x two52) two52
             else PrimFloat.add (PrimFloat.sub x two52) two52 in
    let c := if PrimFloat.ltb r x then PrimFloat.add r one else r in
    if PrimFloat.is_zero c
    then (if PrimFloat.get_sign x then neg_zero else zero)
    else c
  else x.

(** *** Property lookup on an object literal *)

(** What [Object.prototype] gives for a key the literal does not own. *)
Definition Object_prototype_methods : list string :=
  [ "hasOwnProperty"; "isPrototypeOf"; "propertyIsEnumerable";
    "toLocaleString"; "toString"; "valueOf";
    "__defineGetter__"; "__defineSetter__";
    "__lookupGetter__"; "__lookupSetter__" ].

Definition Object_prototype_get (key : string) : value :=
  if key == "constructor" then JFunction "Object"
  else if key == "__proto__" then JObject
  else if existsb (String.eqb key) Object_prototype_methods
       then JFunction key
  else JUndefined.

Fixpoint own_property (A : Type) (o : list (string * A)) (key : string)
  : option A :=
  match o with
  | [] => None
  | (k, v) :: o' => if k == key then Some v else own_property o' key
  end.

(** [o[key]] on a literal of numbers: an own property first, then the
    prototype. *)
Definition get (o : list (string * float)) (key : string) : value :=
  match own_property o key with
  | Some x => JNumber x
  | None => Object_prototype_get key
  end.

(** [!!o[key]] on a literal of strings. *)
Definition has_truthy (o : list (string * string)) (key : string) : bool :=
  match own_property o key with
  | Some s => negb (s == "")
  | None => is_true (Object_prototype_get key)
  end.

End JS.

(** ** Data model *)

(** A call that returns or throws; [message] is [error.message]. *)
Inductive Outcome (A : Type) : Type :=
| Returned (a : A)
| Thrown (message : string).
Arguments Thrown {A} message.

Inductive PaymentStatus := pending | succeeded | failed.
Inductive ReviewStatus := submitted | under_review | finalist | winner | rejected.

(** The parameter [:id] of a route: the text of an ObjectId, which names
    at most one document, or a text that is none. *)
Inductive Id :=
| ObjectId (id : N)
| NotObjectId.
Coercion ObjectId : N >-> Id.
Bind Scope N_scope with Id.

(** A document of the [entries] collection.  [createdAt] and [updatedAt]
    are the two fields that the schema option [timestamps: true] adds. *)
Record Entry := {
  _id : N;
  userId : string;
  category : string;
  entryType : string;
  title : string;
  description : option string;
  textContent : option JS.text;
  fileData : option string;
  fileName : option string;
  fileType : option string;
  fileSize : option Z;
  fileUrl : option string;
  videoUrl : option string;
  entryFee : float;
  stripeFee : float;
  totalAmount : float;
  paymentIntentId : string;
  paymentStatus : PaymentStatus;
  submissionDate : Z;
  status : ReviewStatus;
  createdAt : Z;
  updatedAt : Z
}.

(** The object literal handed to [new Entry(...)]. *)
Record EntryData := {
  d_userId : option string;
  d_category : option string;
  d_entryType : option string;
  d_title : option string;
  d_description : option string;
  d_textContent : option JS.text;
  d_fileData : option string;
  d_fileName : option string;
  d_fileType : option string;
  d_fileSize : option Z;
  d_fileUrl : option string;
  d_videoUrl : option string;
  d_entryFee : float;
  d_stripeFee : float;
  d_totalAmount : float;
  d_paymentIntentId : option string;
  d_paymentStatus : option string;
  d_status : option string
}.

(** [req.file] as multer's memory storage leaves it; [base64] is
    [buffer.toString('base64')]. *)
Record File := {
  originalname : string;
  mimetype : string;
  size : Z;
  base64 : string
}.

(** *** The payment gateway *)

Record Metadata := {
  m_category : option string;
  m_entryType : option string;
  m_entryFee : option string;
  m_stripeFee : option string
}.

Record PaymentIntent := {
  pi_id : string;
  pi_status : string;
  client_secret : string;
  metadata : Metadata
}.

(** Argument of [paymentIntents.create].  [cp_entryFee] and [cp_stripeFee]
    are the values whose [toString()] goes into the metadata. *)
Record CreateParams := {
  amount : float;
  currency : string;
  cp_category : string;
  cp_entryType : string;
  cp_entryFee : JS.value;
  cp_stripeFee : float
}.

(** [event.type] and [event.data.object.id]. *)
Record Event := {
  ev_type : string;
  ev_object_id : string
}.

(** [webhooks_constructEvent] is the check of the library on the text of
    a request: the signature of the header is compared with the one that
    the secret gives for that text, and the text is parsed. *)
Record Stripe := {
  paymentIntents_create : CreateParams -> Outcome PaymentIntent;
  paymentIntents_retrieve : string -> Outcome PaymentIntent;
  webhooks_constructEvent : string -> option string -> string -> Outcome Event
}.

(** What [req.body] holds when a handler runs: the bytes of the request,
    when [express.raw] read them, or an object, when [express.json] parsed
    them or no parser took the request. *)
Inductive Payload :=
| RawBody (text : string)
| ParsedBody.

(** [stripe.webhooks.constructEvent(payload, header, secret)]: the library
    needs the bytes that were signed and throws on an object, whose text
    is no JSON; the message, which depends on the header and on the
    version of the library, is given by its start. *)
Definition constructEvent (st : Stripe) (payload : Payload)
           (header : option string) (secret : string) : Outcome Event :=
  match payload with
  | RawBody text => webhooks_constructEvent st text header secret
  | ParsedBody =>
      Thrown "Webhook payload must be provided as a string or a Buffer"
  end.

(** *** Process state read by the handlers *)

Record Env := {
  stripe : option Stripe;              (* [undefined] until initialised *)
  readyState : Z;                      (* [mongoose.connection.readyState] *)
  STRIPE_WEBHOOK_SECRET : option string;
  isVercelServerless : bool
}.

(** *** Responses *)

Inductive Body :=
| Failure (error : string) (detail : option string)
| Message (message : string)
| Submitted (entryId : N)
| TestEntry (id : N) (title : string)
| TestEntries (entries : list (N * string * ReviewStatus))
| ClientSecret (clientSecret : string) (entryFee : JS.value)
               (stripeFee : float) (totalAmount : JS.value)
| Entries (entries : list Entry)
| OneEntry (entry : Entry)
| FileContent (contentType fileName : option string) (contentLength : option Z)
              (content : string)
| Plain (text : string)
| Received.

Record Response := {
  code : Z;
  body : Body
}.

Definition json (b : Body) : Response := {| code := 200; body := b |}.
Definition status_json (c : Z) (b : Body) : Response :=
  {| code := c; body := b |}.

(** ** The schema and its validators *)

(** [v === literal] *)
Definition strict_eq (v : option string) (literal : string) : bool :=
  match v with
  | Some s => s == literal
  | None => false
  end.

Module Schema.

Definition categories : list string :=
  [ "business"; "creative"; "technology"; "social-impact" ].
Definition entryTypes : list string := [ "text"; "pitch-deck"; "video" ].

Definition includes (l : list string) (s : string) : bool :=
  existsb (String.eqb s) l.

(** [v ? v.split(/\s+/).filter(word => word.length > 0).length : 0] *)
Definition wordCount (v : option JS.text) : nat :=
  match v with
  | None | Some [] => 0
  | Some s => List.length (filter (@JS.nonempty N) (JS.split JS.is_space s))
  end.

Definition textContent_validator (this : EntryData) (v : option JS.text)
  : bool :=
  if strict_eq (d_entryType this) "text" then
    let wordCount := wordCount v in
    (100 <=? wordCount)%nat && (wordCount <=? 2000)%nat
  else true.

Definition fileData_validator (this : EntryData) (v : option string)
  : bool :=
  if strict_eq (d_entryType this) "pitch-deck"
  then JS.truthy v || JS.truthy (d_fileUrl this)
  else true.

Definition fileUrl_validator (this : EntryData) (v : option string)
  : bool :=
  if strict_eq (d_entryType this) "pitch-deck"
  then JS.truthy v || JS.truthy (d_fileData this)
  else true.

(** [/^(https?:\/\/)?(www\.)?(youtube\.com|youtu\.be|vimeo\.com)/i] *)
Definition lower (a : ascii) : ascii :=
  let n := N_of_ascii a in
  if ((65 <=? n) && (n <=? 90))%N then ascii_of_N (n + 32) else a.

Fixpoint lowercase (s : string) : string :=
  match s with
  | String a s' => String (lower a) (lowercase s')
  | EmptyString => EmptyString
  end.

Definition strip (p s : string) : option string :=
  if prefix p s
  then Some (substring (String.length p) (String.length s - String.length p) s)
  else None.

Definition optional (ps : list string) (s : string) : list string :=
  (flat_map (fun p => match strip p s with Some r => [r] | None => [] end) ps
   ++ [s])%list.

Definition urlPattern_test (v : string) : bool :=
  existsb (fun r => existsb (fun h => prefix h r)
                      [ "youtube.com"; "youtu.be"; "vimeo.com" ])
          (flat_map (optional [ "www." ])
                    (optional [ "https://"; "http://" ] (lowercase v))).

Definition videoUrl_validator (this : EntryData) (v : option string)
  : bool :=
  if strict_eq (d_entryType this) "video" && JS.truthy v then
    match v with
    | Some s => urlPattern_test s
    | None => false
    end
  else negb (strict_eq (d_entryType this) "video") || JS.truthy v.

Definition paymentStatus_of (v : option string) : option PaymentStatus :=
  match v with
  | None => Some pending
  | Some s =>
      if s == "pending" then Some pending
      else if s == "succeeded" then Some succeeded
      else if s == "failed" then Some failed
      else None
  end.

Definition status_of (v : option string) : option ReviewStatus :=
  match v with
  | None => Some submitted
  | Some s =>
      if s == "submitted" then Some submitted
      else if s == "under-review" then Some under_review
      else if s == "finalist" then Some finalist
      else if s == "winner" then Some winner
      else if s == "rejected" then Some rejected
      else None
  end.

(** Mongoose runs the validators of a path only when the path holds a
    value; [required] is checked on its own. *)
Definition when_set (A : Type) (validator : option A -> bool)
           (v : option A) : bool :=
  match v with
  | Some _ => validator v
  | None => true
  end.

Definition maxlength (n : nat) (v : option string) : bool :=
  match v with
  | Some s => (String.length s <=? n)%nat
  | None => true
  end.

Definition minlength (n : nat) (v : option string) : bool :=
  match v with
  | Some s => (n <=? String.length s)%nat
  | None => true
  end.

Definition enum (l : list string) (v : option string) : bool :=
  match v with
  | Some s => includes l s
  | None => true
  end.

(** The checks of the schema other than the presence of the required
    number fields, which [document] below makes when it reads them. *)
Definition valid (d : EntryData) : bool :=
  JS.truthy (d_userId d)
  && JS.truthy (d_category d) && enum categories (d_category d)
  && JS.truthy (d_entryType d) && enum entryTypes (d_entryType d)
  && JS.truthy (d_title d)
  && minlength 5 (d_title d) && maxlength 100 (d_title d)
  && maxlength 1000 (d_description d)
  && when_set (textContent_validator d) (d_textContent d)
  && when_set (fileData_validator d) (d_fileData d)
  && when_set (fileUrl_validator d) (d_fileUrl d)
  && when_set (videoUrl_validator d) (d_videoUrl d)
  && JS.truthy (d_paymentIntentId d).

(** The cast of a path of type [Number]: every Number but [NaN]. *)
Definition castNumber (x : float) : bool := negb (PrimFloat.is_nan x).

(** The document that [new Entry(d)] stores at time [now] under a fresh
    [_id]: defaults filled in, enumerations read; [None] when a required
    path is missing, a number is [NaN] or a status is outside its
    enumeration. *)
Definition document (id : N) (now : Z) (d : EntryData) : option Entry :=
  match d_userId d, d_category d, d_entryType d, d_title d,
        d_paymentIntentId d with
  | Some u, Some c, Some t, Some ti, Some p =>
      match paymentStatus_of (d_paymentStatus d), status_of (d_status d) with
      | Some ps, Some st =>
          if castNumber (d_entryFee d) && castNumber (d_stripeFee d)
             && castNumber (d_totalAmount d)
          then
            Some {| _id := id; userId := u; category := c; entryType := t;
                    title := ti; description := d_description d;
                    textContent := d_textContent d;
                    fileData := d_fileData d; fileName := d_fileName d;
                    fileType := d_fileType d; fileSize := d_fileSize d;
                    fileUrl := d_fileUrl d; videoUrl := d_videoUrl d;
                    entryFee := d_entryFee d; stripeFee := d_stripeFee d;
                    totalAmount := d_totalAmount d;
                    paymentIntentId := p; paymentStatus := ps;
                    submissionDate := now; status := st;
                    createdAt := now; updatedAt := now |}
          else None
      | _, _ => None
      end
  | _, _, _, _, _ => None
  end.

End Schema.

(** ** The [Entry] model: the collection and the Mongoose calls used *)

(** [next_id] stands for the generator of ObjectIds of the driver: the
    [_id] that the next new document gets. *)
Record DB := {
  docs : list Entry;       (* documents, oldest insertion first *)
  next_id : N              (* source of fresh [_id]s *)
}.

Definition empty_db : DB := {| docs := []; next_id := 0 |}.

Module Model.

(** [new Entry(d).save()] *)
Definition save (now : Z) (db : DB) (d : EntryData) : Outcome (Entry * DB) :=
  if Schema.valid d then
    match Schema.document (next_id db) now d with
    | Some e => Returned (e, {| docs := (docs db ++ [e])%list;
                                next_id := (next_id db + 1)%N |})
    | None => Thrown "Entry validation failed"
    end
  else Thrown "Entry validation failed".

(** [Entry.insertMany(ds)]: every document is validated before any is
    written. *)
Fixpoint documents (id : N) (now : Z) (ds : list EntryData)
  : option (list Entry) :=
  match ds with
  | [] => Some []
  | d :: ds' =>
      if Schema.valid d then
        match Schema.document id now d, documents (id + 1)%N now ds' with
        | Some e, Some es => Some (e :: es)
        | _, _ => None
        end
      else None
  end.

Definition insertMany (now : Z) (db : DB) (ds : list EntryData)
  : Outcome (list Entry * DB) :=
  match documents (next_id db) now ds with
  | Some es => Returned (es, {| docs := (docs db ++ es)%list;
                                next_id := (next_id db
                                            + N.of_nat (List.length es))%N |})
  | None => Thrown "Entry validation failed"
  end.

(** The query [{ _id: id }] for an ObjectId. *)
Definition find_id (id : N) (db : DB) : option Entry :=
  find (fun e => (_id e =? id)%N) (docs db).

(** The start of the message of the [CastError]. *)
Definition cast_error : string := "Cast to ObjectId failed".

(** [Entry.findById(id)]: the text is cast to an ObjectId first, and the
    query is rejected when it cannot be. *)
Definition findById (id : Id) (db : DB) : Outcome (option Entry) :=
  match id with
  | ObjectId n => Returned (find_id n db)
  | NotObjectId => Thrown cast_error
  end.

(** [Entry.findOne({ paymentIntentId })] *)
Definition findOne (pid : string) (db : DB) : option Entry :=
  find (fun e => paymentIntentId e == pid) (docs db).

(** The collection without the document of an ObjectId; an [_id] is
    unique in a collection, so the document removed is every document that
    carries it. *)
Definition delete_id (id : N) (db : DB) : DB :=
  {| docs := filter (fun e => negb (_id e =? id)%N) (docs db);
     next_id := next_id db |}.

(** [Entry.findByIdAndDelete(id)] *)
Definition findByIdAndDelete (id : Id) (db : DB) : Outcome DB :=
  match id with
  | ObjectId n => Returned (delete_id n db)
  | NotObjectId => Thrown cast_error
  end.

(** [Entry.find({ userId }).sort({ createdAt: -1 })] *)
Fixpoint insert_desc (e : Entry) (l : list Entry) : list Entry :=
  match l with
  | [] => [e]
  | x :: l' =>
      if createdAt x <=? createdAt e then e :: l
      else x :: insert_desc e l'
  end.

Definition sort_desc (l : list Entry) : list Entry :=
  fold_right insert_desc [] l.

Definition find_sorted (user : string) (db : DB) : list Entry :=
  sort_desc (filter (fun e => userId e == user) (docs db)).

(** The update [{ paymentStatus: 'failed' }] on a schema with
    timestamps: the status is set and [updatedAt] is refreshed. *)
Definition set_failed (now : Z) (e : Entry) : Entry :=
  {| _id := _id e; userId := userId e; category := category e;
     entryType := entryType e; title := title e;
     description := description e; textContent := textContent e;
     fileData := fileData e; fileName := fileName e;
     fileType := fileType e; fileSize := fileSize e;
     fileUrl := fileUrl e; videoUrl := videoUrl e;
     entryFee := entryFee e; stripeFee := stripeFee e;
     totalAmount := totalAmount e;
     paymentIntentId := paymentIntentId e;
     paymentStatus := failed;
     submissionDate := submissionDate e; status := status e;
     createdAt := createdAt e; updatedAt := now |}.

Fixpoint update_first (p : Entry -> bool) (f : Entry -> Entry)
         (l : list Entry) : list Entry :=
  match l with
  | [] => []
  | e :: l' => if p e then f e :: l' else e :: update_first p f l'
  end.

(** [Entry.findOneAndUpdate({ paymentIntentId }, { paymentStatus: 'failed' })] *)
Definition findOneAndUpdate_failed (now : Z) (pid : string) (db : DB) : DB :=
  {| docs := update_first (fun e => paymentIntentId e == pid)
                          (set_failed now) (docs db);
     next_id := next_id db |}.

End Model.

(** ** Upload middleware and fee helper *)

Definition allowedTypes_of_filter : list (string * string) :=
  [ ("application/pdf", ".pdf");
    ("application/vnd.ms-powerpoint", ".ppt");
    ("application/vnd.openxmlformats-officedocument.presentationml.presentation",
     ".pptx") ].

(** [fileFilter]: [true] accepts the file. *)
Definition fileFilter (file : File) : bool :=
  JS.has_truthy allowedTypes_of_filter (mimetype file).

Definition MB : Z := 1024 * 1024.

Definition fileSize_limit (env : Env) : Z :=
  if isVercelServerless env then 4 * MB else 25 * MB.

(** [multer({ storage, limits, fileFilter }).single('file')]: the filter is
    asked when the part starts; the limit is handed to busboy, which stops
    reading a file once [fileSize] bytes of it have come, so that a file of
    the limit itself is refused as a longer one is. *)
Definition upload (env : Env) (part : option File) : Outcome (option File) :=
  match part with
  | None => Returned None
  | Some file =>
      if fileFilter file then
        if fileSize_limit env <=? size file then Thrown "File too large"
        else Returned (Some file)
      else Thrown "Invalid file type. Only PDF and PPT files are allowed."
  end.

(** 0.04 as the binary64 literal reads it. *)
Definition rate : float := 0x1.47ae147ae147bp-5%float.

Record Fees := {
  fees_stripeFee : float;
  fees_totalAmount : JS.value
}.

Definition calculateFees (baseAmount : JS.value) : Fees :=
  let stripeFee := JS.Math_ceil (JS.mul baseAmount (JS.JNumber rate)) in
  let totalAmount := JS.add baseAmount stripeFee in
  {| fees_stripeFee := stripeFee; fees_totalAmount := totalAmount |}.

Definition baseFees : list (string * float) :=
  [ ("business", 49%float); ("creative", 49%float);
    ("technology", 99%float); ("social-impact", 49%float) ].

(** ** Route handlers *)

Record IntentRequest := {
  i_category : option string;
  i_entryType : option string
}.

(** Fields of the multipart body of [POST /api/entries] and the part
    named [file]. *)
Record EntryRequest := {
  r_userId : option string;
  r_category : option string;
  r_entryType : option string;
  r_title : option string;
  r_description : option string;
  r_textContent : option JS.text;
  r_videoUrl : option string;
  r_paymentIntentId : option string;
  r_file : option File
}.

Definition unavailable (what : string) : Response :=
  status_json 503 (Failure what None).

(** *** [POST /api/create-payment-intent] *)

(** The handler after [checkStripeInitialized]; the second component lists
    the calls of [paymentIntents.create] that it made. *)
Definition create_payment_intent (st : Stripe) (req : IntentRequest)
  : Response * list CreateParams :=
  match i_category req, i_entryType req with
  | Some category, Some entryType =>
      if (category == "") || (entryType == "") then
        (status_json 400 (Failure "Category and entryType are required" None),
         [])
      else
        let entryFee := JS.get baseFees category in
        if negb (JS.is_true entryFee) then
          (status_json 400 (Failure "Invalid category" (Some category)), [])
        else
          let fees := calculateFees entryFee in
          let params :=
            {| amount := JS.mul (fees_totalAmount fees) (JS.JNumber 100%float);
               currency := "usd";
               cp_category := category;
               cp_entryType := entryType;
               cp_entryFee := entryFee;
               cp_stripeFee := fees_stripeFee fees |} in
          match paymentIntents_create st params with
          | Returned paymentIntent =>
              (json (ClientSecret (client_secret paymentIntent) entryFee
                                  (fees_stripeFee fees)
                                  (fees_totalAmount fees)),
               [params])
          | Thrown message =>
              (status_json 500 (Failure "Failed to create payment intent"
                                        (Some message)),
               [params])
          end
  | _, _ =>
      (status_json 400 (Failure "Category and entryType are required" None),
       [])
  end.

Definition POST_create_payment_intent (env : Env) (req : IntentRequest)
  : Response * list CreateParams :=
  match stripe env with
  | None => (unavailable "Service unavailable: Stripe not initialized", [])
  | Some st => create_payment_intent st req
  end.

(** *** [POST /api/entries] *)

Definition allowedTypes : list string :=
  [ "application/pdf";
    "application/vnd.ms-powerpoint";
    "application/vnd.openxmlformats-officedocument.presentationml.presentation" ].

(** [entryFee + stripeFee] on two results of [parseInt]: the sum of two
    Numbers, rounded to the nearest Number. *)
Definition plus (a b : float) : float := PrimFloat.add a b.

(** What the handler checks on [req.file] of a pitch deck; [None] lets the
    request go on. *)
Definition pitch_deck_check (env : Env) (file : option File) : option Response :=
  match file with
  | None =>
      Some (status_json 400 (Failure "File required for pitch-deck entries" None))
  | Some f =>
      if negb (Schema.includes allowedTypes (mimetype f)) then
        Some (status_json 400
                (Failure "Invalid file type. Only PDF, PPT, PPTX allowed." None))
      else if size f >? fileSize_limit env then
        Some (status_json 400
                (Failure (if isVercelServerless env
                          then "File size exceeds 4MB limit."
                          else "File size exceeds 25MB limit.") None))
      else None
  end.

(** The object [entryData] with the branch on [entryType] applied. *)
Definition entryData (req : EntryRequest) (file : option File)
           (paymentIntentId : string) (paymentIntent : PaymentIntent)
  : EntryData :=
  let entryFee := JS.parseInt (m_entryFee (metadata paymentIntent)) in
  let stripeFee := JS.parseInt (m_stripeFee (metadata paymentIntent)) in
  let totalAmount := plus entryFee stripeFee in
  let text := strict_eq (r_entryType req) "text" in
  let deck := negb text && strict_eq (r_entryType req) "pitch-deck" in
  let video := negb text && strict_eq (r_entryType req) "video" in
  let attached (A : Type) (field : File -> A) : option A :=
    if deck then option_map field file else None in
  {| d_userId := r_userId req;
     d_category := r_category req;
     d_entryType := r_entryType req;
     d_title := r_title req;
     d_description := r_description req;
     d_textContent := if text then r_textContent req else None;
     d_fileData := attached _ base64;
     d_fileName := attached _ originalname;
     d_fileType := attached _ mimetype;
     d_fileSize := attached _ size;
     d_fileUrl := attached _ (fun _ => "/api/file/" ++ paymentIntentId)%string;
     d_videoUrl := if video then r_videoUrl req else None;
     d_entryFee := entryFee;
     d_stripeFee := stripeFee;
     d_totalAmount := totalAmount;
     d_paymentIntentId := Some paymentIntentId;
     d_paymentStatus := Some "succeeded";
     d_status := None |}.

Definition present (v : option string) : bool := JS.truthy v.

(** The checks that the handler makes before it asks the gateway: a
    rejection, or the payment-intent id to verify. *)
Definition validate_submission (env : Env) (req : EntryRequest)
           (file : option File) : Response + string :=
  let missing := status_json 400 (Failure "Missing required fields" None) in
  match r_paymentIntentId req with
  | None => inl missing
  | Some paymentIntentId =>
      if negb (present (r_userId req)) || negb (present (r_category req))
         || negb (present (r_entryType req)) || negb (present (r_title req))
         || (paymentIntentId == "")
      then inl missing
      else
        match (if strict_eq (r_entryType req) "pitch-deck"
               then pitch_deck_check env file else None) with
        | Some rejection => inl rejection
        | None => inr paymentIntentId
        end
  end.

(** The handler proper, reached once the upload and the two availability
    checks let the request through; [file] is [req.file].  Whatever is
    thrown inside lands in the [catch] and is answered with 500. *)
Definition submit_entry (env : Env) (st : Stripe) (now : Z) (db : DB)
           (req : EntryRequest) (file : option File) : Response * DB :=
  let internal_error message :=
    (status_json 500 (Failure "Failed to submit entry" (Some message)), db) in
  match validate_submission env req file with
  | inl rejection => (rejection, db)
  | inr paymentIntentId =>
      match paymentIntents_retrieve st paymentIntentId with
      | Thrown message => internal_error message
      | Returned paymentIntent =>
          if negb (pi_status paymentIntent == "succeeded") then
            (status_json 400 (Failure "Payment not completed"
                                      (Some (pi_status paymentIntent))),
             db)
          else
            match Model.save now db
                    (entryData req file paymentIntentId paymentIntent) with
            | Returned (entry, db') =>
                (status_json 201 (Submitted (_id entry)), db')
            | Thrown message => internal_error message
            end
      end
  end.

Definition connected (env : Env) : bool := readyState env =? 1.

(** The route: upload, [checkMongoDBConnection], [checkStripeInitialized],
    handler. *)
Definition POST_entries (env : Env) (now : Z) (db : DB) (req : EntryRequest)
  : Response * DB :=
  match upload env (r_file req) with
  | Thrown message => (status_json 400 (Failure message None), db)
  | Returned file =>
      if negb (connected env) then
        (unavailable "Service unavailable: Database not connected", db)
      else
        match stripe env with
        | None => (unavailable "Service unavailable: Stripe not initialized", db)
        | Some st => submit_entry env st now db req file
        end
  end.

(** *** Test-entry routes *)

Definition decimal (n : Z) : string := NilZero.string_of_int (Z.to_int n).

(** [s.replace(pattern, replacement)] with string arguments: the first
    occurrence only. *)
Definition replace (pattern replacement s : string) : string :=
  match index 0 pattern s with
  | Some i =>
      (substring 0 i s ++ replacement
       ++ substring (i + String.length pattern)
                    (String.length s - (i + String.length pattern)) s)%string
  | None => s
  end.

Definition repeat_string (s : string) (n : nat) : string :=
  String.concat "" (repeat s n).

Definition test_entry (userId paymentIntentId category entryType title
                         description : string)
           (textContent : option string) (videoUrl : option string)
           (entryFee stripeFee totalAmount : float) (status : option string)
  : EntryData :=
  {| d_userId := Some userId;
     d_category := Some category;
     d_entryType := Some entryType;
     d_title := Some title;
     d_description := Some description;
     d_textContent := option_map JS.code_units textContent;
     d_fileData := None; d_fileName := None; d_fileType := None;
     d_fileSize := None; d_fileUrl := None;
     d_videoUrl := videoUrl;
     d_entryFee := entryFee;
     d_stripeFee := stripeFee;
     d_totalAmount := totalAmount;
     d_paymentIntentId := Some paymentIntentId;
     d_paymentStatus := Some "succeeded";
     d_status := status |}.

Definition sample_entry (userId : string) (now : Z) : EntryData :=
  let textContent :=
    repeat_string "This is a comprehensive business strategy..." 2 in
  test_entry userId ("pi_test_" ++ decimal now) "business" "text"
    "Sample Business Strategy Entry"
    "A comprehensive business strategy for digital transformation in modern enterprises"
    (Some textContent) None 49 2 51 None.

Definition testEntries (userId : string) (now : Z) : list EntryData :=
  let baseTextContent :=
    repeat_string
      "This business strategy focuses on digital transformation..." 3 in
  [ test_entry userId ("pi_test_business_" ++ decimal now) "business" "text"
      "Innovative Business Strategy"
      "A comprehensive business strategy for modern markets"
      (Some baseTextContent) None 49 2 51 (Some "submitted");
    test_entry userId ("pi_test_tech_" ++ decimal now) "technology" "text"
      "AI-Powered Solution Platform"
      "Revolutionary AI application for enterprise automation"
      (Some (replace "business strategy" "AI technology solution"
                     baseTextContent))
      None 99 4 103 (Some "under-review");
    test_entry userId ("pi_test_creative_" ++ decimal now) "creative" "video"
      "Creative Digital Showcase"
      "Artistic expression through innovative digital media"
      None (Some "https://www.youtube.com/watch?v=dQw4w9WgXcQ")
      49 2 51 (Some "finalist") ].

Definition GET_create_test_entry (env : Env) (now : Z) (db : DB)
           (userId : string) : Response * DB :=
  if negb (connected env) then
    (unavailable "Service unavailable: Database not connected", db)
  else
    match Model.save now db (sample_entry userId now) with
    | Returned (entry, db') => (json (TestEntry (_id entry) (title entry)), db')
    | Thrown message =>
        (status_json 500 (Failure "Failed to create test entry" (Some message)),
         db)
    end.

Definition GET_create_test_entries (env : Env) (now : Z) (db : DB)
           (userId : string) : Response * DB :=
  if negb (connected env) then
    (unavailable "Service unavailable: Database not connected", db)
  else
    match Model.insertMany now db (testEntries userId now) with
    | Returned (savedEntries, db') =>
        (json (TestEntries
                 (map (fun e => (_id e, title e, status e)) savedEntries)),
         db')
    | Thrown message =>
        (status_json 500 (Failure "Failed to create test entries"
                                  (Some message)),
         db)
    end.

(** *** Reading entries *)

Definition set_fileUrl (url : option string) (e : Entry) : Entry :=
  {| _id := _id e; userId := userId e; category := category e;
     entryType := entryType e; title := title e;
     description := description e; textContent := textContent e;
     fileData := fileData e; fileName := fileName e;
     fileType := fileType e; fileSize := fileSize e;
     fileUrl := url; videoUrl := videoUrl e;
     entryFee := entryFee e; stripeFee := stripeFee e;
     totalAmount := totalAmount e;
     paymentIntentId := paymentIntentId e;
     paymentStatus := paymentStatus e;
     submissionDate := submissionDate e; status := status e;
     createdAt := createdAt e; updatedAt := updatedAt e |}.

(** [delete entry.fileData] *)
Definition delete_fileData (e : Entry) : Entry :=
  {| _id := _id e; userId := userId e; category := category e;
     entryType := entryType e; title := title e;
     description := description e; textContent := textContent e;
     fileData := None; fileName := fileName e;
     fileType := fileType e; fileSize := fileSize e;
     fileUrl := fileUrl e; videoUrl := videoUrl e;
     entryFee := entryFee e; stripeFee := stripeFee e;
     totalAmount := totalAmount e;
     paymentIntentId := paymentIntentId e;
     paymentStatus := paymentStatus e;
     submissionDate := submissionDate e; status := status e;
     createdAt := createdAt e; updatedAt := updatedAt e |}.

(** The body of the [map] in the listing, also applied by the single-entry
    route. *)
Definition transform (entry : Entry) : Entry :=
  delete_fileData
    (if (entryType entry == "pitch-deck") && JS.truthy (fileData entry)
     then set_fileUrl (Some ("/api/file/" ++ paymentIntentId entry)%string) entry
     else entry).

Definition GET_entries (env : Env) (db : DB) (userId : string) : Response :=
  if negb (connected env) then
    unavailable "Service unavailable: Database not connected"
  else json (Entries (map transform (Model.find_sorted userId db))).

Definition GET_entry (env : Env) (db : DB) (id : Id) : Response :=
  if negb (connected env) then
    unavailable "Service unavailable: Database not connected"
  else
    match Model.findById id db with
    | Thrown message =>
        status_json 500 (Failure "Failed to fetch entry" (Some message))
    | Returned None => status_json 404 (Failure "Entry not found" None)
    | Returned (Some entry) => json (OneEntry (transform entry))
    end.

Definition GET_file (env : Env) (db : DB) (paymentIntentId : string)
  : Response :=
  if negb (connected env) then
    unavailable "Service unavailable: Database not connected"
  else
    match Model.findOne paymentIntentId db with
    | Some entry =>
        match fileData entry with
        | Some data =>
            if data == "" then status_json 404 (Failure "File not found" None)
            else json (FileContent (fileType entry) (fileName entry)
                                   (fileSize entry) data)
        | None => status_json 404 (Failure "File not found" None)
        end
    | None => status_json 404 (Failure "File not found" None)
    end.

(** *** [DELETE /api/entries/:id] *)

(** Whatever is thrown inside lands in the [catch] and is answered with
    500. *)
Definition delete_entry (db : DB) (entryId : Id) (body_userId : option string)
  : Response * DB :=
  let internal_error message :=
    (status_json 500 (Failure "Failed to delete entry" (Some message)), db) in
  match Model.findById entryId db with
  | Thrown message => internal_error message
  | Returned None => (status_json 404 (Failure "Entry not found" None), db)
  | Returned (Some entry) =>
      if negb (strict_eq body_userId (userId entry)) then
        (status_json 403 (Failure "Not authorized to delete this entry" None),
         db)
      else
        match Model.findByIdAndDelete entryId db with
        | Returned db' => (json (Message "Entry deleted successfully"), db')
        | Thrown message => internal_error message
        end
  end.

Definition DELETE_entries (env : Env) (db : DB) (entryId : Id)
           (body_userId : option string) : Response * DB :=
  if negb (connected env) then
    (unavailable "Service unavailable: Database not connected", db)
  else delete_entry db entryId body_userId.

(** *** [POST /api/webhook] *)

Definition webhook_error (message : string) : Response :=
  status_json 400 (Failure "Webhook error" (Some message)).

(** The handler, run on what it finds in [req.body].  The update is
    issued with [.exec()] and the answer does not wait for it; the
    embedding applies it before the next request. *)
Definition webhook (env : Env) (now : Z) (db : DB)
           (payload : Payload) (sig : option string) : Response * DB :=
  match STRIPE_WEBHOOK_SECRET env with
  | None =>
      (webhook_error "STRIPE_WEBHOOK_SECRET not found in environment variables",
       db)
  | Some secret =>
      if secret == "" then
        (webhook_error
           "STRIPE_WEBHOOK_SECRET not found in environment variables", db)
      else
        match stripe env with
        | None =>
            (webhook_error
               "Cannot read properties of undefined (reading 'webhooks')", db)
        | Some st =>
            match constructEvent st payload sig secret with
            | Thrown message => (webhook_error message, db)
            | Returned event =>
                (json Received,
                 if ev_type event == "payment_intent.payment_failed"
                 then Model.findOneAndUpdate_failed now (ev_object_id event) db
                 else db)
            end
        end
  end.

(** What the body parsers make of a delivery before the handler.  The
    application registers [express.json()] for every route (line 72) ahead
    of the [express.raw] of this route.  A request of type
    [application/json] whose body is the text of a JSON object, as that of
    every event of the gateway is, is parsed by the former and then left
    alone by the latter; a request of another type, or without a body, is
    read by neither and [req.body] is the empty object: in both cases the
    handler finds an object ([AnObject]).  A body of type
    [application/json] that is no JSON, or is longer than 50 MB, makes
    [express.json()] hand an error to the error middleware
    ([NotParsed]).  A body that is the text of a JSON array, which
    [express.json()] accepts as well, is not embedded. *)
Inductive Parsed :=
| AnObject
| NotParsed (message : string).

(** The answer of the error middleware at the end of the application. *)
Definition internal_server_error (message : string) : Response :=
  status_json 500 (Failure "Internal server error" (Some message)).

Definition POST_webhook (env : Env) (now : Z) (db : DB)
           (parsed : Parsed) (sig : option string) : Response * DB :=
  match parsed with
  | AnObject => webhook env now db ParsedBody sig
  | NotParsed message => (internal_server_error message, db)
  end.

(** ** The second application of the file *)

(** [server.js] holds a second application after the first.  It registers
    [express.raw] for the webhook path ahead of [express.json()], its
    schema has no path for an inline file, its listing answers with the
    documents as they are found, its routes on an [:id] check the id
    first, and every route but the health check sits behind a middleware
    that (re)connects to the database; [db_ready] tells that it succeeded.
    [production] tells that [NODE_ENV] is [production], where the
    test-entry route is not registered. *)
Module Second.

Definition not_connected : Response :=
  status_json 503 (Failure "Service temporarily unavailable"
                           (Some "Database connection failed")).

(** The answer of the last middleware, [app.use('*', ...)]. *)
Definition not_found : Response := status_json 404 (Failure "Not found" None).

(** The answer of the error middleware to an error that is no
    [MulterError]. *)
Definition internal_server_error : Response :=
  status_json 500 (Failure "Internal server error" None).

(** *** The schema *)

Definition fileUrl_validator (this : EntryData) (v : option string)
  : bool :=
  if strict_eq (d_entryType this) "pitch-deck" then JS.truthy v else true.

Definition valid (d : EntryData) : bool :=
  JS.truthy (d_userId d)
  && JS.truthy (d_category d)
  && Schema.enum Schema.categories (d_category d)
  && JS.truthy (d_entryType d)
  && Schema.enum Schema.entryTypes (d_entryType d)
  && JS.truthy (d_title d)
  && Schema.minlength 5 (d_title d) && Schema.maxlength 100 (d_title d)
  && Schema.maxlength 1000 (d_description d)
  && Schema.when_set (Schema.textContent_validator d) (d_textContent d)
  && Schema.when_set (fileUrl_validator d) (d_fileUrl d)
  && Schema.when_set (Schema.videoUrl_validator d) (d_videoUrl d)
  && JS.truthy (d_paymentIntentId d).

(** The paths of the schema: Mongoose drops the keys that it does not
    declare. *)
Definition paths (d : EntryData) : EntryData :=
  {| d_userId := d_userId d; d_category := d_category d;
     d_entryType := d_entryType d; d_title := d_title d;
     d_description := d_description d; d_textContent := d_textContent d;
     d_fileData := None; d_fileName := None; d_fileType := None;
     d_fileSize := None;
     d_fileUrl := d_fileUrl d; d_videoUrl := d_videoUrl d;
     d_entryFee := d_entryFee d; d_stripeFee := d_stripeFee d;
     d_totalAmount := d_totalAmount d;
     d_paymentIntentId := d_paymentIntentId d;
     d_paymentStatus := d_paymentStatus d; d_status := d_status d |}.

(** [new Entry(d).save()] *)
Definition save (now : Z) (db : DB) (d : EntryData) : Outcome (Entry * DB) :=
  if valid d then
    match Schema.document (next_id db) now (paths d) with
    | Some e => Returned (e, {| docs := (docs db ++ [e])%list;
                                next_id := (next_id db + 1)%N |})
    | None => Thrown "Entry validation failed"
    end
  else Thrown "Entry validation failed".

(** *** [POST /api/create-payment-intent] *)

Definition POST_create_payment_intent (db_ready : bool) (env : Env)
           (req : IntentRequest) : Response * list CreateParams :=
  if negb db_ready then (not_connected, [])
  else
    match stripe env with
    | None =>
        (status_json 500 (Failure "Payment processing not available" None), [])
    | Some st => create_payment_intent st req
    end.

(** *** [POST /api/entries] *)

(** [upload.single('file')] as a middleware of the route: what multer
    throws goes to the error middleware, which answers 400 to a
    [MulterError] and 500 to the error of the filter. *)
Definition upload (part : option File) : Response + option File :=
  match part with
  | None => inr None
  | Some file =>
      if fileFilter file then
        if 25 * MB <=? size file then
          inl (status_json 400
                 (Failure "File too large. Maximum size is 25MB." None))
        else inr (Some file)
      else inl internal_server_error
  end.

Definition pitch_deck_check (file : option File) : option Response :=
  match file with
  | None =>
      Some (status_json 400 (Failure "File required for pitch-deck entries" None))
  | Some f =>
      if negb (Schema.includes allowedTypes (mimetype f)) then
        Some (status_json 400
                (Failure "Invalid file type. Only PDF, PPT, PPTX allowed."
                         (Some (mimetype f))))
      else if size f >? 25 * MB then
        Some (status_json 400 (Failure "File size exceeds 25MB limit." None))
      else None
  end.

Definition entryData (req : EntryRequest) (file : option File)
           (paymentIntentId : string) (paymentIntent : PaymentIntent)
  : EntryData :=
  let entryFee := JS.parseInt (m_entryFee (metadata paymentIntent)) in
  let stripeFee := JS.parseInt (m_stripeFee (metadata paymentIntent)) in
  let totalAmount := plus entryFee stripeFee in
  let text := strict_eq (r_entryType req) "text" in
  let deck := negb text && strict_eq (r_entryType req) "pitch-deck" in
  let video := negb text && strict_eq (r_entryType req) "video" in
  {| d_userId := r_userId req;
     d_category := r_category req;
     d_entryType := r_entryType req;
     d_title := r_title req;
     d_description := Some (match r_description req with
                            | Some description => description
                            | None => ""
                            end);
     d_textContent := if text then r_textContent req else None;
     d_fileData := None; d_fileName := None; d_fileType := None;
     d_fileSize := None;
     d_fileUrl := if deck
                  then option_map
                         (fun f => "temp://" ++ originalname f)%string file
                  else None;
     d_videoUrl := if video then r_videoUrl req else None;
     d_entryFee := entryFee;
     d_stripeFee := stripeFee;
     d_totalAmount := totalAmount;
     d_paymentIntentId := Some paymentIntentId;
     d_paymentStatus := Some "succeeded";
     d_status := None |}.

Definition validate_submission (req : EntryRequest) (file : option File)
  : Response + string :=
  let missing := status_json 400 (Failure "Missing required fields" None) in
  match r_paymentIntentId req with
  | None => inl missing
  | Some paymentIntentId =>
      if negb (present (r_userId req)) || negb (present (r_category req))
         || negb (present (r_entryType req)) || negb (present (r_title req))
         || (paymentIntentId == "")
      then inl missing
      else
        match (if strict_eq (r_entryType req) "pitch-deck"
               then pitch_deck_check file else None) with
        | Some rejection => inl rejection
        | None => inr paymentIntentId
        end
  end.

(** The handler; a [ValidationError] of the save is answered 400, any
    other error 500. *)
Definition submit_entry (env : Env) (now : Z) (db : DB)
           (req : EntryRequest) (file : option File) : Response * DB :=
  match validate_submission req file with
  | inl rejection => (rejection, db)
  | inr paymentIntentId =>
      match stripe env with
      | None =>
          (status_json 500 (Failure "Payment processing not available" None),
           db)
      | Some st =>
          match paymentIntents_retrieve st paymentIntentId with
          | Thrown message =>
              (status_json 500 (Failure "Failed to submit entry"
                                        (Some message)), db)
          | Returned paymentIntent =>
              if negb (pi_status paymentIntent == "succeeded") then
                (status_json 400 (Failure "Payment not completed"
                                          (Some (pi_status paymentIntent))),
                 db)
              else
                match save now db
                        (entryData req file paymentIntentId paymentIntent) with
                | Returned (entry, db') =>
                    (status_json 201 (Submitted (_id entry)), db')
                | Thrown message =>
                    (status_json 400 (Failure "Validation failed"
                                              (Some message)), db)
                end
          end
      end
  end.

Definition POST_entries (db_ready : bool) (env : Env) (now : Z) (db : DB)
           (req : EntryRequest) : Response * DB :=
  if negb db_ready then (not_connected, db)
  else
    match upload (r_file req) with
    | inl refusal => (refusal, db)
    | inr file => submit_entry env now db req file
    end.

(** *** Reading and deleting entries *)

Definition GET_entries (db_ready : bool) (db : DB) (userId : string)
  : Response :=
  if negb db_ready then not_connected
  else json (Entries (Model.find_sorted userId db)).

(** [mongoose.Types.ObjectId.isValid(id)] *)
Definition isValid (id : Id) : bool :=
  match id with
  | ObjectId _ => true
  | NotObjectId => false
  end.

Definition GET_entry (db_ready : bool) (db : DB) (entryId : Id) : Response :=
  if negb db_ready then not_connected
  else if negb (isValid entryId) then
    status_json 400 (Failure "Invalid entry ID format" None)
  else
    match Model.findById entryId db with
    | Thrown message =>
        status_json 500 (Failure "Failed to fetch entry" (Some message))
    | Returned None => status_json 404 (Failure "Entry not found" None)
    | Returned (Some entry) => json (OneEntry entry)
    end.

Definition DELETE_entries (db_ready : bool) (db : DB) (entryId : Id)
           (body_userId : option string) : Response * DB :=
  let internal_error message :=
    (status_json 500 (Failure "Failed to delete entry" (Some message)), db) in
  if negb db_ready then (not_connected, db)
  else if negb (isValid entryId) then
    (status_json 400 (Failure "Invalid entry ID format" None), db)
  else if negb (JS.truthy body_userId) then
    (status_json 400 (Failure "User ID required" None), db)
  else
    match Model.findById entryId db with
    | Thrown message => internal_error message
    | Returned None => (status_json 404 (Failure "Entry not found" None), db)
    | Returned (Some entry) =>
        if negb (strict_eq body_userId (userId entry)) then
          (status_json 403 (Failure "Not authorized to delete this entry" None),
           db)
        else
          match Model.findByIdAndDelete entryId db with
          | Returned db' => (json (Message "Entry deleted successfully"), db')
          | Thrown message => internal_error message
          end
    end.

(** *** The test-entry route *)

Definition sample_text : string :=
  "This is a detailed business strategy that focuses on leveraging digital technologies to transform traditional business models. The strategy encompasses customer experience enhancement, operational efficiency improvements, and data-driven decision making. By implementing these digital transformation initiatives, organizations can achieve sustainable competitive advantages in the modern marketplace. The approach involves careful planning, stakeholder alignment, and phased implementation to ensure successful adoption across all business units. Digital transformation requires a holistic view of technology integration, process optimization, and cultural change management. Organizations must evaluate their current state, define their digital vision, and create a roadmap for transformation that aligns with business objectives and market opportunities.".

Definition sample_entry (userId : string) (now : Z) : EntryData :=
  test_entry userId ("pi_test_" ++ decimal now) "business" "text"
    "Sample Business Strategy Entry"
    "A comprehensive business strategy for digital transformation"
    (Some (repeat_string sample_text 2)) None 49 2 51 None.

Definition GET_create_test_entry (db_ready production : bool) (now : Z)
           (db : DB) (userId : string) : Response * DB :=
  if negb db_ready then (not_connected, db)
  else if production then (not_found, db)
  else
    match save now db (sample_entry userId now) with
    | Returned (entry, db') => (json (TestEntry (_id entry) (title entry)), db')
    | Thrown message => (status_json 500 (Failure message None), db)
    end.

(** *** [POST /api/webhook] *)

(** The body parsers that a delivery meets before the handler:
    [express.raw], registered for the path ahead of [express.json()]
    (lines 687-688).  It reads a request of type [application/json] of at
    most 100 kb into a Buffer and refuses a longer one with an error; a
    request of another type is left to [express.json], which does not read
    it either. *)
Definition raw_first (is_json : bool) (rawBody : string) : Outcome Payload :=
  if is_json then
    if 102400 <? Z.of_nat (String.length rawBody)
    then Thrown "request entity too large"
    else Returned (RawBody rawBody)
  else Returned ParsedBody.

(** The handler, run on what it finds in [req.body]. *)
Definition webhook (env : Env) (now : Z) (db : DB)
           (payload : Payload) (sig : option string) : Response * DB :=
  let not_configured :=
    (status_json 500 (Failure "Webhook not configured" None), db) in
  match stripe env, STRIPE_WEBHOOK_SECRET env with
  | Some st, Some secret =>
      if secret == "" then not_configured
      else
        match constructEvent st payload sig secret with
        | Thrown message =>
            (status_json 400 (Plain ("Webhook Error: " ++ message)), db)
        | Returned event =>
            (json Received,
             if ev_type event == "payment_intent.payment_failed"
             then Model.findOneAndUpdate_failed now (ev_object_id event) db
             else db)
        end
  | _, _ => not_configured
  end.

(** The error of the body parser goes to the error middleware before the
    database middleware is reached. *)
Definition POST_webhook (db_ready : bool) (env : Env) (now : Z) (db : DB)
           (is_json : bool) (rawBody : string) (sig : option string)
  : Response * DB :=
  match raw_first is_json rawBody with
  | Thrown _ => (internal_server_error, db)
  | Returned payload =>
      if negb db_ready then (not_connected, db)
      else webhook env now db payload sig
  end.

(** *** The application as a transition system *)

Inductive Request :=
| CreatePaymentIntent (req : IntentRequest)
| SubmitEntry (req : EntryRequest)
| CreateTestEntry (userId : string)
| ListEntries (userId : string)
| GetEntry (id : Id)
| DeleteEntry (id : Id) (body_userId : option string)
| Webhook (is_json : bool) (rawBody : string) (sig : option string).

Definition handle (db_ready production : bool) (env : Env) (now : Z)
           (db : DB) (r : Request) : Response * DB :=
  match r with
  | CreatePaymentIntent req =>
      (fst (POST_create_payment_intent db_ready env req), db)
  | SubmitEntry req => POST_entries db_ready env now db req
  | CreateTestEntry userId =>
      GET_create_test_entry db_ready production now db userId
  | ListEntries userId => (GET_entries db_ready db userId, db)
  | GetEntry id => (GET_entry db_ready db id, db)
  | DeleteEntry id body_userId => DELETE_entries db_ready db id body_userId
  | Webhook is_json rawBody sig =>
      POST_webhook db_ready env now db is_json rawBody sig
  end.

Inductive step (db : DB) : DB -> Prop :=
| step_handle (db_ready production : bool) (env : Env) (now : Z)
              (r : Request) :
    step db (snd (handle db_ready production env now db r)).

Inductive steps (db : DB) : DB -> Prop :=
| steps_refl : steps db db
| steps_snoc (db1 db2 : DB) : steps db db1 -> step db1 db2 -> steps db db2.

Definition reachable (db : DB) : Prop := steps empty_db db.

End Second.

(** ** The first application as a transition system *)

Inductive Request :=
| CreatePaymentIntent (req : IntentRequest)
| SubmitEntry (req : EntryRequest)
| CreateTestEntry (userId : string)
| CreateTestEntries (userId : string)
| GetFile (paymentIntentId : string)
| ListEntries (userId : string)
| GetEntry (id : Id)
| DeleteEntry (id : Id) (body_userId : option string)
| Webhook (parsed : Parsed) (sig : option string).

(** One request served at time [now] in the process state [env]. *)
Definition handle (env : Env) (now : Z) (db : DB) (r : Request)
  : Response * DB :=
  match r with
  | CreatePaymentIntent req => (fst (POST_create_payment_intent env req), db)
  | SubmitEntry req => POST_entries env now db req
  | CreateTestEntry userId => GET_create_test_entry env now db userId
  | CreateTestEntries userId => GET_create_test_entries env now db userId
  | GetFile paymentIntentId => (GET_file env db paymentIntentId, db)
  | ListEntries userId => (GET_entries env db userId, db)
  | GetEntry id => (GET_entry env db id, db)
  | DeleteEntry id body_userId => DELETE_entries env db id body_userId
  | Webhook parsed sig => POST_webhook env now db parsed sig
  end.

Inductive step (db : DB) : DB -> Prop :=
| step_handle (env : Env) (now : Z) (r : Request) :
    step db (snd (handle env now db r)).

(** Executions: any number of requests, each in its own process state. *)
Inductive steps (db : DB) : DB -> Prop :=
| steps_refl : steps db db
| steps_snoc (db1 db2 : DB) : steps db db1 -> step db1 db2 -> steps db db2.

Definition reachable (db : DB) : Prop := steps empty_db db.

Unset Implicit Arguments.

(** ** Auxiliary definitions for the statements *)

(** The argument of the validator as a sequence of code units. *)
Definition body_text (v : option JS.text) : JS.text :=
  match v with
  | Some s => s
  | None => []
  end.

(** A body of [n] words: the word [w] followed by a blank, [n] times. *)
Fixpoint words (n : nat) : JS.text :=
  match n with
  | O => []
  | S n' => 119%N :: 32%N :: words n'
  end.

(** The outcome that the specification names [PaymentNotCompleted]. *)
Definition payment_not_completed (r : Response) : Prop :=
  code r = 400 /\ exists detail, body r = Failure "Payment not completed" detail.

(** A request that passed the upload, the availability checks and the
    validation, so that the handler asks the gateway about [pid]. *)
Definition verifies (env : Env) (req : EntryRequest) (st : Stripe)
           (pid : string) : Prop :=
  exists file,
    upload env (r_file req) = Returned file
    /\ connected env = true
    /\ stripe env = Some st
    /\ validate_submission env req file = inr pid.

(** A delivery whose text and signature the gateway library accepts with
    the configured secret, giving [event]. *)
Definition verified_event (env : Env) (rawBody : string) (sig : option string)
           (event : Event) : Prop :=
  exists st secret,
    stripe env = Some st
    /\ STRIPE_WEBHOOK_SECRET env = Some secret
    /\ secret <> ""
    /\ webhooks_constructEvent st rawBody sig secret = Returned event.


(** An entry with one field replaced, to say which fields an update
    leaves alone. *)
Definition set_paymentStatus (s : PaymentStatus) (e : Entry) : Entry :=
  {| _id := _id e; userId := userId e; category := category e;
     entryType := entryType e; title := title e;
     description := description e; textContent := textContent e;
     fileData := fileData e; fileName := fileName e;
     fileType := fileType e; fileSize := fileSize e;
     fileUrl := fileUrl e; videoUrl := videoUrl e;
     entryFee := entryFee e; stripeFee := stripeFee e;
     totalAmount := totalAmount e;
     paymentIntentId := paymentIntentId e;
     paymentStatus := s;
     submissionDate := submissionDate e; status := status e;
     createdAt := createdAt e; updatedAt := updatedAt e |}.

Definition set_updatedAt (t : Z) (e : Entry) : Entry :=
  {| _id := _id e; userId := userId e; category := category e;
     entryType := entryType e; title := title e;
     description := description e; textContent := textContent e;
     fileData := fileData e; fileName := fileName e;
     fileType := fileType e; fileSize := fileSize e;
     fileUrl := fileUrl e; videoUrl := videoUrl e;
     entryFee := entryFee e; stripeFee := stripeFee e;
     totalAmount := totalAmount e;
     paymentIntentId := paymentIntentId e;
     paymentStatus := paymentStatus e;
     submissionDate := submissionDate e; status := status e;
     createdAt := createdAt e; updatedAt := t |}.

(** The amounts of an entry: three Numbers, none of them [NaN], the
    total being the sum that [+] gives for the two others. *)
Definition amounts_add_up (e : Entry) : Prop :=
  totalAmount e = PrimFloat.add (entryFee e) (stripeFee e)
  /\ PrimFloat.is_nan (entryFee e) = false
  /\ PrimFloat.is_nan (stripeFee e) = false
  /\ PrimFloat.is_nan (totalAmount e) = false.

(** What every stored entry satisfies. *)
Definition entry_ok (e : Entry) : Prop :=
  amounts_add_up e
  /\ (fileData e <> None ->
      entryType e = "pitch-deck"
      /\ fileUrl e = Some ("/api/file/" ++ paymentIntentId e)%string)
  /\ paymentStatus e <> pending.

(** The same on the object handed to the model. *)
Definition data_ok (d : EntryData) : Prop :=
  d_totalAmount d = PrimFloat.add (d_entryFee d) (d_stripeFee d)
  /\ (d_fileData d <> None ->
      d_entryType d = Some "pitch-deck"
      /\ exists pid,
          d_paymentIntentId d = Some pid
          /\ d_fileUrl d = Some ("/api/file/" ++ pid)%string)
  /\ d_paymentStatus d = Some "succeeded".

(** The ways in which a request changes the collection. *)
Inductive change (db : DB) : DB -> Prop :=
| change_none : change db db
| change_insert (es : list Entry) :
    Forall entry_ok es ->
    Forall (fun e => paymentStatus e = succeeded) es ->
    Forall (fun e => (next_id db <= _id e)%N) es ->
    Forall (fun e => (_id e < next_id db + N.of_nat (List.length es))%N) es ->
    change db {| docs := (docs db ++ es)%list;
                 next_id := (next_id db + N.of_nat (List.length es))%N |}
| change_delete (id : N) : change db (Model.delete_id id db)
| change_update (now : Z) (pid : string) :
    change db (Model.findOneAndUpdate_failed now pid db).

(** Every stored [_id] was handed out by the counter. *)
Definition ids_issued (db : DB) : Prop :=
  Forall (fun e => (_id e < next_id db)%N) (docs db).

(** [a] is listed before [b]: it was created no earlier. *)
Definition newer (a b : Entry) : Prop := createdAt b <= createdAt a.

(** ** What the schema and the handlers guarantee of a stored entry *)

(** The constraints of the schema, read on a stored entry. *)
Definition stored_valid (e : Entry) : Prop :=
  userId e <> ""
  /\ In (category e) Schema.categories
  /\ In (entryType e) Schema.entryTypes
  /\ (5 <= String.length (title e) <= 100)%nat
  /\ (forall d, description e = Some d -> (String.length d <= 1000)%nat)
  /\ paymentIntentId e <> ""
  /\ (forall body,
         entryType e = "text" -> textContent e = Some body ->
         (100 <= Schema.wordCount (Some body) <= 2000)%nat)
  /\ (forall url,
         entryType e = "video" -> videoUrl e = Some url ->
         url <> "" /\ Schema.urlPattern_test url = true).

(** The content fields that the handlers fill go with the entry type, and
    the fields of a file come together. *)
Definition data_typed (d : EntryData) : Prop :=
  (d_textContent d <> None -> d_entryType d = Some "text")
  /\ (d_videoUrl d <> None -> d_entryType d = Some "video")
  /\ (d_fileData d = None ->
      d_fileName d = None /\ d_fileType d = None
      /\ d_fileSize d = None /\ d_fileUrl d = None)
  /\ (d_fileData d <> None ->
      d_fileName d <> None /\ d_fileType d <> None /\ d_fileSize d <> None).

Definition content_typed (e : Entry) : Prop :=
  (textContent e <> None -> entryType e = "text")
  /\ (videoUrl e <> None -> entryType e = "video")
  /\ (fileData e <> None -> entryType e = "pitch-deck")
  /\ (fileData e = None ->
      fileName e = None /\ fileType e = None
      /\ fileSize e = None /\ fileUrl e = None)
  /\ (fileData e <> None ->
      fileName e <> None /\ fileType e <> None /\ fileSize e <> None).

(** The ways in which a request of the first application changes the
    collection, with the data that an insertion was built from. *)
Inductive change_by (db : DB) : DB -> Prop :=
| by_none : change_by db db
| by_insert (now : Z) (ds : list EntryData) (es : list Entry) :
    Forall data_ok ds ->
    Forall data_typed ds ->
    Model.documents (next_id db) now ds = Some es ->
    change_by db {| docs := (docs db ++ es)%list;
                    next_id := (next_id db + N.of_nat (List.length es))%N |}
| by_delete (id : N) : change_by db (Model.delete_id id db).

(** Executions of either application, by the changes that they make. *)
Inductive changes (db : DB) : DB -> Prop :=
| changes_refl : changes db db
| changes_snoc (db1 db2 : DB) :
    changes db db1 -> change db1 db2 -> changes db db2.

(** [listed] is the entry [stored] as the first application answers with
    it: every field as it is stored but the inline file, which is left
    out, and the URL of a pitch deck that has one, which is the route that
    serves it. *)
Definition listed_as (stored listed : Entry) : Prop :=
  _id listed = _id stored
  /\ userId listed = userId stored
  /\ category listed = category stored
  /\ entryType listed = entryType stored
  /\ title listed = title stored
  /\ description listed = description stored
  /\ textContent listed = textContent stored
  /\ fileName listed = fileName stored
  /\ fileType listed = fileType stored
  /\ fileSize listed = fileSize stored
  /\ videoUrl listed = videoUrl stored
  /\ entryFee listed = entryFee stored
  /\ stripeFee listed = stripeFee stored
  /\ totalAmount listed = totalAmount stored
  /\ paymentIntentId listed = paymentIntentId stored
  /\ paymentStatus listed = paymentStatus stored
  /\ submissionDate listed = submissionDate stored
  /\ status listed = status stored
  /\ createdAt listed = createdAt stored
  /\ updatedAt listed = updatedAt stored
  /\ fileData listed = None
  /\ fileUrl listed
     = if (entryType stored == "pitch-deck") && JS.truthy (fileData stored)
       then Some ("/api/file/" ++ paymentIntentId stored)%string
       else fileUrl stored.

(** The data [d] with the text body [v]. *)
Definition with_body (v : option JS.text) (d : EntryData) : EntryData :=
  {| d_userId := d_userId d; d_category := d_category d;
     d_entryType := d_entryType d; d_title := d_title d;
     d_description := d_description d; d_textContent := v;
     d_fileData := d_fileData d; d_fileName := d_fileName d;
     d_fileType := d_fileType d; d_fileSize := d_fileSize d;
     d_fileUrl := d_fileUrl d; d_videoUrl := d_videoUrl d;
     d_entryFee := d_entryFee d; d_stripeFee := d_stripeFee d;
     d_totalAmount := d_totalAmount d;
     d_paymentIntentId := d_paymentIntentId d;
     d_paymentStatus := d_paymentStatus d; d_status := d_status d |}.

(** A delivery that the body parser of the second application reads. *)
Definition read_raw (is_json : bool) (rawBody : string) : Prop :=
  is_json = true /\ Z.of_nat (String.length rawBody) <= 102400.

(** The second application with its webhook configured. *)
Definition configured (env : Env) : Prop :=
  exists st secret,
    stripe env = Some st /\ STRIPE_WEBHOOK_SECRET env = Some secret
    /\ secret <> "".

(** The integer that a Number is, if it is one. *)
Definition integer_of (x : float) : option Z :=
  match FloatOps.Prim2SF x with
  | SpecFloat.S754_zero _ => Some 0
  | SpecFloat.S754_finite negative m e =>
      let n := if negative then Z.neg m else Z.pos m in
      if 0 <=? e then Some (n * 2 ^ e)
      else if n mod 2 ^ (- e) =? 0 then Some (n / 2 ^ (- e))
      else None
  | _ => None
  end.

(** The sum of two whole amounts is the Number of their sum. *)
Definition sum_exact (a b : Z) : bool :=
  PrimFloat.Leibniz.eqb
    (plus (JS.Number_of_Z a) (JS.Number_of_Z b)) (JS.Number_of_Z (a + b)).

(** An entry but for the two fields that a webhook delivery may set. *)
Definition settled (e : Entry) : Entry :=
  set_updatedAt 0 (set_paymentStatus pending e).

(** ** The remaining middleware *)

(** [req.url.replace(/\/+/g, '/')]: every run of slashes becomes one
    slash.  [after_slash] tells that the unit before was a slash. *)
Fixpoint collapse_slashes (after_slash : bool) (s : string) : string :=
  match s with
  | EmptyString => EmptyString
  | String c s' =>
      if (c =? "/")%char then
        if after_slash then collapse_slashes true s'
        else String c (collapse_slashes true s')
      else String c (collapse_slashes false s')
  end.

Definition normalize_url (url : string) : string :=
  collapse_slashes false url.

(** Two slashes in a row somewhere in [s]. *)
Fixpoint double_slash (s : string) : bool :=
  match s with
  | String a (String b _ as s') =>
      ((a =? "/")%char && (b =? "/")%char) || double_slash s'
  | _ => false
  end.

(** The characters of [s] other than the slash, in order. *)
Fixpoint without_slashes (s : string) : string :=
  match s with
  | EmptyString => EmptyString
  | String c s' =>
      if (c =? "/")%char then without_slashes s'
      else String c (without_slashes s')
  end.

(** The CORS option [origin]: the list of allowed origins and the
    callback.  [FRONTEND_URL] is the environment variable. *)
Definition default_frontend : string :=
  "https://alatree-ventures-assignments-dobl-frkce6h7n.vercel.app".

Definition allowedOrigins (FRONTEND_URL : option string) : list string :=
  [ "http://localhost:3000";
    "http://localhost:5173";
    match FRONTEND_URL with
    | Some url => if url == "" then default_frontend else url
    | None => default_frontend
    end ].

Definition cors_origin (FRONTEND_URL origin : option string) : Outcome bool :=
  match origin with
  | None => Returned true
  | Some o =>
      if (o == "") || Schema.includes (allowedOrigins FRONTEND_URL) o
      then Returned true
      else Thrown "Not allowed by CORS"
  end.

(** [GET /api/health], but for the timestamp. *)
Record Health := {
  h_status : string;
  h_message : string;
  h_environment : string;
  h_mongodb : string;
  h_stripe : string
}.

Definition GET_health (env : Env) : Health :=
  {| h_status := "OK";
     h_message := "Server is running";
     h_environment := if isVercelServerless env then "serverless" else "local";
     h_mongodb := if readyState env =? 1 then "connected" else "disconnected";
     h_stripe := match stripe env with
                 | Some _ => "initialized"
                 | None => "not initialized"
                 end |}.

(** ** Whole-dollar amounts as floats *)

Definition float_of_Z (n : Z) : float := PrimFloat.of_uint63 (Uint63.of_Z n).

(** The least integer that is at least four hundredths of [n]. *)
Definition exact_surcharge (n : Z) : Z := (4 * n + 99) / 100.

(** What [calculateFees] gives for the whole-dollar fee [n], compared
    with the exact surcharge and total. *)
Definition fees_exact (n : Z) : bool :=
  let fees := calculateFees (JS.JNumber (float_of_Z n)) in
  PrimFloat.eqb (fees_stripeFee fees) (float_of_Z (exact_surcharge n))
  && match fees_totalAmount fees with
     | JS.JNumber total =>
         PrimFloat.eqb total (float_of_Z (n + exact_surcharge n))
     | _ => false
     end.

(** [p] on [count] consecutive integers from [n]. *)
Fixpoint all_from (p : Z -> bool) (n : Z) (count : nat) : bool :=
  match count with
  | O => true
  | S count' => p n && all_from p (n + 1) count'
  end.

(** ** A sample gateway, process state and requests *)

Definition no_metadata : Metadata :=
  {| m_category := None; m_entryType := None;
     m_entryFee := None; m_stripeFee := None |}.

(** A gateway that knows a paid intent [pi_paid] and an open one
    [pi_open], and signs its events with the shared secret itself. *)
Definition sample_stripe : Stripe :=
  {| paymentIntents_create := fun params =>
       Returned {| pi_id := "pi_new"; pi_status := "requires_payment_method";
                   client_secret := "pi_new_secret"; metadata := no_metadata |};
     paymentIntents_retrieve := fun id =>
       if id == "pi_paid" then
         Returned {| pi_id := id; pi_status := "succeeded";
                     client_secret := "pi_paid_secret";
                     metadata := {| m_category := Some "creative";
                                    m_entryType := Some "video";
                                    m_entryFee := Some "49";
                                    m_stripeFee := Some "2" |} |}
       else if id == "pi_open" then
         Returned {| pi_id := id; pi_status := "requires_payment_method";
                     client_secret := "pi_open_secret";
                     metadata := no_metadata |}
       else Thrown "No such payment_intent";
     webhooks_constructEvent := fun rawBody sig secret =>
       if strict_eq sig secret
       then Returned {| ev_type := rawBody; ev_object_id := "pi_paid" |}
       else Thrown "No signatures found matching the expected signature" |}.

Definition sample_env : Env :=
  {| stripe := Some sample_stripe; readyState := 1;
     STRIPE_WEBHOOK_SECRET := Some "whsec_1"; isVercelServerless := false |}.

Definition video_request (paymentIntentId : string) : EntryRequest :=
  {| r_userId := Some "user_1"; r_category := Some "creative";
     r_entryType := Some "video"; r_title := Some "A short film";
     r_description := None; r_textContent := None;
     r_videoUrl := Some "https://vimeo.com/1";
     r_paymentIntentId := Some paymentIntentId; r_file := None |}.

Definition deck_request (file : option File) : EntryRequest :=
  {| r_userId := Some "user_1"; r_category := Some "business";
     r_entryType := Some "pitch-deck"; r_title := Some "Seed round deck";
     r_description := None; r_textContent := None; r_videoUrl := None;
     r_paymentIntentId := Some "pi_paid"; r_file := file |}.

Definition png_file : File :=
  {| originalname := "deck.png"; mimetype := "image/png"; size := 10;
     base64 := "iVBORw0KGgo=" |}.

Definition pdf_file : File :=
  {| originalname := "deck.pdf"; mimetype := "application/pdf"; size := 10;
     base64 := "JVBERi0xLjQ=" |}.

Definition text_data : EntryData :=
  {| d_userId := Some "user_1"; d_category := Some "business";
     d_entryType := Some "text"; d_title := Some "An essay";
     d_description := None; d_textContent := Some (words 100);
     d_fileData := None; d_fileName := None; d_fileType := None;
     d_fileSize := None; d_fileUrl := None; d_videoUrl := None;
     d_entryFee := 49; d_stripeFee := 2; d_totalAmount := 51;
     d_paymentIntentId := Some "pi_paid"; d_paymentStatus := Some "succeeded";
     d_status := None |}.

(** A text submission that carries no body. *)
Definition text_request : EntryRequest :=
  {| r_userId := Some "user_1"; r_category := Some "business";
     r_entryType := Some "text"; r_title := Some "An essay";
     r_description := None; r_textContent := None; r_videoUrl := None;
     r_paymentIntentId := Some "pi_paid"; r_file := None |}.

(** The collection of the first application after [user_1] submitted a
    video entry paid with [pi_paid] at time 1000. *)
Definition db_submitted : DB :=
  snd (handle sample_env 1000 empty_db (SubmitEntry (video_request "pi_paid"))).

(** The collection of the second application after the same submission,
    and after a [payment_failed] event for that intent arrived at time
    2000. *)
Definition second_submitted : DB :=
  snd (Second.handle true false sample_env 1000 empty_db
                     (Second.SubmitEntry (video_request "pi_paid"))).

Definition second_notified : DB :=
  snd (Second.handle true false sample_env 2000 second_submitted
                     (Second.Webhook true "payment_intent.payment_failed"
                                     (Some "whsec_1"))).

(** A gateway that knows an intent whose metadata hold two amounts that
    are Numbers and whose sum is none. *)
Definition large_stripe : Stripe :=
  {| paymentIntents_create := paymentIntents_create sample_stripe;
     paymentIntents_retrieve := fun id =>
       Returned {| pi_id := id; pi_status := "succeeded";
                   client_secret := "pi_large_secret";
                   metadata := {| m_category := Some "creative";
                                  m_entryType := Some "video";
                                  m_entryFee := Some "9007199254740992";
                                  m_stripeFee := Some "1" |} |};
     webhooks_constructEvent := webhooks_constructEvent sample_stripe |}.

Definition large_env : Env :=
  {| stripe := Some large_stripe; readyState := 1;
     STRIPE_WEBHOOK_SECRET := Some "whsec_1"; isVercelServerless := false |}.

(** The collection after [user_1] also submitted a PDF pitch deck at
    time 1500. *)
Definition db_with_deck : DB :=
  snd (handle sample_env 1500 db_submitted
              (SubmitEntry (deck_request (Some pdf_file)))).

(** The process before the database is connected, the process before the
    gateway is initialised, and a file of one byte over 25 MB. *)
Definition offline_env : Env :=
  {| stripe := Some sample_stripe; readyState := 0;
     STRIPE_WEBHOOK_SECRET := Some "whsec_1"; isVercelServerless := false |}.

Definition starting_env : Env :=
  {| stripe := None; readyState := 1;
     STRIPE_WEBHOOK_SECRET := Some "whsec_1"; isVercelServerless := false |}.

Definition huge_pdf : File :=
  {| originalname := "deck.pdf"; mimetype := "application/pdf";
     size := 26214401; base64 := "JVBERi0xLjQ=" |}.

(** A file of exactly the limit of a deployment that is not serverless. *)
Definition exact_pdf : File :=
  {| originalname := "deck.pdf"; mimetype := "application/pdf";
     size := 26214400; base64 := "JVBERi0xLjQ=" |}.

(** * Properties *)

(** Case analysis on the first [match] of a hypothesis. *)
Ltac case_match_in H :=
  match type of H with
  | context [match ?x with _ => _ end] => destruct x eqn:?
  end.


(** ** Strings: equality and splitting *)

Lemma strict_eq_true (v : option string) (s : string) :
  strict_eq v s = true <-> v = Some s.
Proof.
  destruct v as [x|]; simpl.
  - rewrite String.eqb_eq. split; congruence.
  - split; discriminate.
Qed.

Lemma strict_eq_false (v : option string) (s : string) :
  strict_eq v s = false <-> v <> Some s.
Proof.
  rewrite <- strict_eq_true. destruct (strict_eq v s); split; congruence.
Qed.

Section SplitFacts.
Variable A : Type.
Variable sep : A -> bool.

Lemma nonempty_rev_cons (c : A) (cur : list A) :
  JS.nonempty (rev (c :: cur)) = true.
Proof.
  unfold JS.nonempty. rewrite length_rev. reflexivity.
Qed.

(** Tokens kept by the filter, counted along the scan: the token being
    read counts for one as soon as it holds a unit.  Inside a separator
    run no token is being read. *)
Lemma split_scan_kept (s : list A) :
  forall (in_sep : bool) (cur : list A),
    (in_sep = true -> cur = []) ->
    List.length (filter (@JS.nonempty A) (JS.split_scan sep in_sep cur s))
    = match cur with
      | [] => JS.count_runs sep false s
      | _ :: _ => S (JS.count_runs sep true s)
      end.
Proof.
  induction s as [|c s IH]; intros in_sep cur Hcur.
  - destruct cur as [|x cur]; [reflexivity|].
    cbn [JS.split_scan filter]. rewrite nonempty_rev_cons. reflexivity.
  - cbn [JS.split_scan JS.count_runs]. destruct (sep c).
    + destruct in_sep.
      * rewrite (Hcur eq_refl). apply IH. reflexivity.
      * cbn [filter]. destruct cur as [|x cur].
        -- cbn. apply IH. reflexivity.
        -- rewrite nonempty_rev_cons. cbn [List.length].
           rewrite IH by reflexivity. reflexivity.
    + rewrite IH by discriminate. destruct cur; reflexivity.
Qed.

Lemma split_kept (s : list A) :
  List.length (filter (@JS.nonempty A) (JS.split sep s))
  = JS.count_tokens sep s.
Proof. apply split_scan_kept. discriminate. Qed.

End SplitFacts.

Lemma wordCount_tokens (v : option JS.text) :
  Schema.wordCount v = JS.count_tokens JS.is_space (body_text v).
Proof.
  destruct v as [[|c s]|]; try reflexivity.
  unfold Schema.wordCount. apply split_kept.
Qed.

Lemma wordCount_words (n : nat) : Schema.wordCount (Some (words n)) = n.
Proof.
  rewrite wordCount_tokens. unfold JS.count_tokens. cbn [body_text].
  induction n as [|n IH]; [reflexivity|].
  cbn [words JS.count_runs].
  change (JS.is_space 119) with false. change (JS.is_space 32) with true.
  cbn iota. rewrite IH. reflexivity.
Qed.

Lemma textContent_validator_text (this : EntryData) (v : option JS.text) :
  d_entryType this = Some "text" ->
  Schema.textContent_validator this v
  = ((100 <=? Schema.wordCount v)%nat && (Schema.wordCount v <=? 2000)%nat).
Proof.
  intros H. unfold Schema.textContent_validator.
  rewrite (proj2 (strict_eq_true _ _) H). reflexivity.
Qed.

(** For an entry of type [text] the validator counts the tokens that
    whitespace delimits, empty tokens left out, and accepts exactly when
    the count lies in [100, 2000]: 99 words are rejected, 100 and 2000 are
    accepted, 2001 are rejected, and so is an absent body. *)
Lemma validator_word_bounds (this : EntryData) (v : option JS.text) :
  d_entryType this = Some "text" ->
  Schema.wordCount v = JS.count_tokens JS.is_space (body_text v)
  /\ (Schema.textContent_validator this v = true
      <-> (100 <= Schema.wordCount v <= 2000)%nat)
  /\ Schema.textContent_validator this None = false
  /\ Schema.textContent_validator this (Some (words 99)) = false
  /\ Schema.textContent_validator this (Some (words 100)) = true
  /\ Schema.textContent_validator this (Some (words 2000)) = true
  /\ Schema.textContent_validator this (Some (words 2001)) = false.
Proof.
  intros Htext. split; [apply wordCount_tokens|]. split.
  - rewrite textContent_validator_text by exact Htext.
    rewrite andb_true_iff.
    rewrite !Nat.leb_le. reflexivity.
  - split; [rewrite textContent_validator_text by exact Htext; reflexivity|].
    repeat split; rewrite textContent_validator_text by exact Htext;
      rewrite wordCount_words; reflexivity.
Qed.

(** Validation of the data with another body: only the check of the body
    differs. *)
Lemma valid_with_body (d : EntryData) (v : option JS.text) :
  Schema.valid (with_body v d)
  = Schema.valid (with_body None d)
    && Schema.when_set (Schema.textContent_validator d) v.
Proof.
  unfold Schema.valid, with_body, Schema.textContent_validator,
    Schema.fileData_validator, Schema.fileUrl_validator,
    Schema.videoUrl_validator.
  cbn [d_userId d_category d_entryType d_title d_description d_textContent
       d_fileData d_fileUrl d_videoUrl d_paymentIntentId Schema.when_set].
  btauto.
Qed.

(** ** Submission: payment verification *)

Lemma eqb_neq_false (a b : string) : a <> b -> (a == b) = false.
Proof. apply String.eqb_neq. Qed.

Lemma POST_entries_verifies env now db req st pid :
  verifies env req st pid ->
  exists file,
    validate_submission env req file = inr pid
    /\ POST_entries env now db req
       = match paymentIntents_retrieve st pid with
         | Thrown message =>
             (status_json 500 (Failure "Failed to submit entry" (Some message)),
              db)
         | Returned paymentIntent =>
             if negb (pi_status paymentIntent == "succeeded") then
               (status_json 400 (Failure "Payment not completed"
                                         (Some (pi_status paymentIntent))),
                db)
             else
               match Model.save now db
                       (entryData req file pid paymentIntent) with
               | Returned (entry, db') =>
                   (status_json 201 (Submitted (_id entry)), db')
               | Thrown message =>
                   (status_json 500 (Failure "Failed to submit entry"
                                             (Some message)),
                    db)
               end
         end.
Proof.
  intros (file & Hup & Hconn & Hst & Hval). exists file. split; [exact Hval|].
  unfold POST_entries, submit_entry. rewrite Hup, Hconn, Hst, Hval.
  reflexivity.
Qed.

(** A collection changed by [POST /api/entries] was changed by a save that
    followed the retrieval of a succeeded intent. *)
Lemma POST_entries_changes env now db req :
  snd (POST_entries env now db req) <> db ->
  exists st pid file paymentIntent entry,
    verifies env req st pid
    /\ validate_submission env req file = inr pid
    /\ paymentIntents_retrieve st pid = Returned paymentIntent
    /\ pi_status paymentIntent = "succeeded"
    /\ Model.save now db (entryData req file pid paymentIntent)
       = Returned (entry, snd (POST_entries env now db req))
    /\ fst (POST_entries env now db req)
       = status_json 201 (Submitted (_id entry)).
Proof.
  unfold POST_entries, submit_entry.
  destruct (upload env (r_file req)) as [file|] eqn:Hup; [|simpl; congruence].
  destruct (connected env) eqn:Hconn; [|simpl; congruence]. cbn [negb].
  destruct (stripe env) as [st|] eqn:Hst; [|simpl; congruence].
  destruct (validate_submission env req file) as [|pid] eqn:Hval;
    [simpl; congruence|].
  destruct (paymentIntents_retrieve st pid) as [paymentIntent|] eqn:Hret;
    [|simpl; congruence].
  destruct (pi_status paymentIntent == "succeeded") eqn:Hstatus;
    [|simpl; congruence]. cbn [negb].
  destruct (Model.save now db (entryData req file pid paymentIntent))
    as [[entry db']|] eqn:Hsave; [|simpl; congruence].
  intros _. exists st, pid, file, paymentIntent, entry.
  apply String.eqb_eq in Hstatus.
  repeat split; try assumption; try reflexivity.
  exists file. auto.
Qed.

(** C1, as the code has it.  When the handler asks the gateway and the
    intent comes back with a status other than [succeeded], the answer is
    400 [Payment not completed] and the collection is unchanged; when the
    retrieval throws, the [catch] answers 500 [Failed to submit entry] and
    the collection is unchanged; and an entry is stored only after the
    retrieval returned a succeeded intent. *)
Theorem unverified_payment_stores_nothing
        (env : Env) (now : Z) (db : DB) (req : EntryRequest) :
  (forall st pid paymentIntent,
      verifies env req st pid ->
      paymentIntents_retrieve st pid = Returned paymentIntent ->
      pi_status paymentIntent <> "succeeded" ->
      POST_entries env now db req
      = (status_json 400 (Failure "Payment not completed"
                                  (Some (pi_status paymentIntent))), db))
  /\ (forall st pid message,
         verifies env req st pid ->
         paymentIntents_retrieve st pid = Thrown message ->
         POST_entries env now db req
         = (status_json 500 (Failure "Failed to submit entry" (Some message)),
            db))
  /\ (snd (POST_entries env now db req) <> db ->
      exists st pid paymentIntent,
        verifies env req st pid
        /\ paymentIntents_retrieve st pid = Returned paymentIntent
        /\ pi_status paymentIntent = "succeeded").
Proof.
  repeat split.
  - intros st pid paymentIntent Hv Hret Hstatus.
    destruct (POST_entries_verifies env now db req st pid Hv) as (file & _ & ->).
    rewrite Hret, (eqb_neq_false _ _ Hstatus). reflexivity.
  - intros st pid message Hv Hret.
    destruct (POST_entries_verifies env now db req st pid Hv) as (file & _ & ->).
    rewrite Hret. reflexivity.
  - intros Hchanged.
    destruct (POST_entries_changes _ _ _ _ Hchanged)
      as (st & pid & file & paymentIntent & entry & Hv & _ & Hret & Hs & _).
    exists st, pid, paymentIntent. auto.
Qed.

Lemma sample_verifies (pid : string) :
  pid <> "" -> verifies sample_env (video_request pid) sample_stripe pid.
Proof.
  intros Hpid. exists None. repeat split.
  unfold validate_submission. cbn. rewrite (eqb_neq_false _ _ Hpid). reflexivity.
Qed.

Lemma unverified_payment_stores_nothing_witness :
  POST_entries sample_env 1000 empty_db (video_request "pi_open")
  = (status_json 400 (Failure "Payment not completed"
                              (Some "requires_payment_method")), empty_db).
Proof.
  refine (proj1 (unverified_payment_stores_nothing sample_env 1000 empty_db
                   (video_request "pi_open"))
                sample_stripe "pi_open" _ _ eq_refl _).
  - apply sample_verifies. discriminate.
  - cbn. discriminate.
Defined.

(** C1 as stated fails when the retrieval throws: the request below is
    verified against an intent that the gateway does not know, and the
    answer is the 500 of the [catch], not [PaymentNotCompleted]. *)
Lemma gateway_error_is_not_payment_incomplete :
  verifies sample_env (video_request "pi_unknown") sample_stripe "pi_unknown"
  /\ paymentIntents_retrieve sample_stripe "pi_unknown"
     = Thrown "No such payment_intent"
  /\ fst (POST_entries sample_env 1000 empty_db (video_request "pi_unknown"))
     = status_json 500 (Failure "Failed to submit entry"
                                (Some "No such payment_intent"))
  /\ ~ payment_not_completed
       (fst (POST_entries sample_env 1000 empty_db
                          (video_request "pi_unknown"))).
Proof.
  split; [apply sample_verifies; discriminate|].
  split; [reflexivity|]. split; [reflexivity|].
  intros [Hcode _]. vm_compute in Hcode. discriminate.
Qed.

(** ** Submission: the file of a pitch deck *)

Lemma pitch_deck_check_400 env file r :
  pitch_deck_check env file = Some r -> code r = 400.
Proof.
  unfold pitch_deck_check. destruct file as [f|].
  - destruct (negb (Schema.includes allowedTypes (mimetype f))).
    + intros H. inversion H. reflexivity.
    + destruct (size f >? fileSize_limit env); intros H; inversion H.
      reflexivity.
  - intros H. inversion H. reflexivity.
Qed.

Lemma validate_submission_rejects_400 env req file r :
  validate_submission env req file = inl r ->
  code r = 400.
Proof.
  unfold validate_submission.
  destruct (r_paymentIntentId req) as [pid|];
    [|intros H; inversion H; reflexivity].
  match goal with
  | |- context [if ?b then inl _ else _] => destruct b
  end; [intros H; inversion H; reflexivity|].
  destruct (strict_eq (r_entryType req) "pitch-deck").
  - destruct (pitch_deck_check env file) as [rejection|] eqn:Hcheck;
      intros H; inversion H; subst.
    exact (pitch_deck_check_400 _ _ _ Hcheck).
  - intros H. inversion H.
Qed.

(** A pitch deck with no file, or with a file outside the list of the
    handler, does not pass the validation. *)
Lemma validate_submission_deck env req file :
  r_entryType req = Some "pitch-deck" ->
  match file with
  | None => True
  | Some f => Schema.includes allowedTypes (mimetype f) = false
  end ->
  exists r, validate_submission env req file = inl r.
Proof.
  intros Htype Hfile. unfold validate_submission.
  rewrite (proj2 (strict_eq_true _ _) Htype).
  destruct (r_paymentIntentId req) as [pid|]; [|eauto].
  match goal with
  | |- context [if ?b then inl _ else _] => destruct b
  end; [eauto|].
  unfold pitch_deck_check. destruct file as [f|]; [|eauto].
  rewrite Hfile. cbn [negb]. eauto.
Qed.

Lemma POST_entries_deck_rejected env now db req :
  r_entryType req = Some "pitch-deck" ->
  match r_file req with
  | None => True
  | Some f => Schema.includes allowedTypes (mimetype f) = false
  end ->
  snd (POST_entries env now db req) = db
  /\ (code (fst (POST_entries env now db req)) = 400
      \/ code (fst (POST_entries env now db req)) = 503)
  /\ (connected env = true -> stripe env <> None ->
      code (fst (POST_entries env now db req)) = 400).
Proof.
  intros Htype Hfile. unfold POST_entries.
  destruct (upload env (r_file req)) as [file|message] eqn:Hup.
  - assert (Hfile' : match file with
                     | None => True
                     | Some f => Schema.includes allowedTypes (mimetype f) = false
                     end).
    { unfold upload in Hup. destruct (r_file req) as [f|].
      - repeat case_match_in Hup; inversion Hup; subst; assumption.
      - inversion Hup. exact I. }
    destruct (validate_submission_deck env req file Htype Hfile') as [r Hr].
    pose proof (validate_submission_rejects_400 _ _ _ _ Hr) as Hcode.
    destruct (connected env); cbn [negb].
    + destruct (stripe env) as [st|].
      * unfold submit_entry. rewrite Hr. cbn [fst snd]. auto.
      * cbn. split; [reflexivity|]. split; [auto|]. congruence.
    + cbn. split; [reflexivity|]. split; [auto|]. congruence.
  - cbn. auto.
Qed.

(** C6.  A pitch-deck submission with no file attached, or with a file
    whose declared MIME type is outside the allow-list, is answered with an
    error and stores nothing; the error is the 400 of a validation failure
    whenever the database and the gateway are available, and always when
    the upload filter refuses the type, as it does for [image/png] whatever
    the size of the file. *)
Theorem pitch_deck_needs_allowed_file
        (env : Env) (now : Z) (db : DB) (req : EntryRequest) :
  r_entryType req = Some "pitch-deck" ->
  (r_file req = None ->
   snd (POST_entries env now db req) = db
   /\ (code (fst (POST_entries env now db req)) = 400
       \/ code (fst (POST_entries env now db req)) = 503)
   /\ (connected env = true -> stripe env <> None ->
       code (fst (POST_entries env now db req)) = 400))
  /\ (forall file,
         r_file req = Some file ->
         Schema.includes allowedTypes (mimetype file) = false ->
         snd (POST_entries env now db req) = db
         /\ (code (fst (POST_entries env now db req)) = 400
             \/ code (fst (POST_entries env now db req)) = 503)
         /\ (connected env = true -> stripe env <> None ->
             code (fst (POST_entries env now db req)) = 400)
         /\ (fileFilter file = false ->
             code (fst (POST_entries env now db req)) = 400))
  /\ (forall file,
         r_file req = Some file ->
         mimetype file = "image/png" ->
         POST_entries env now db req
         = (status_json 400
              (Failure "Invalid file type. Only PDF and PPT files are allowed."
                       None), db)).
Proof.
  intros Htype. split; [|split].
  - intros Hnone. apply POST_entries_deck_rejected; [exact Htype|].
    rewrite Hnone. exact I.
  - intros file Hfile Hmime.
    destruct (POST_entries_deck_rejected env now db req Htype)
      as (Hdb & Hcode & Hup).
    { rewrite Hfile. exact Hmime. }
    repeat split; try assumption.
    intros Hfilter. unfold POST_entries, upload.
    rewrite Hfile, Hfilter. reflexivity.
  - intros file Hfile Hmime. unfold POST_entries, upload, fileFilter.
    rewrite Hfile, Hmime. reflexivity.
Qed.

Lemma pitch_deck_needs_allowed_file_witness :
  POST_entries sample_env 1000 empty_db (deck_request (Some png_file))
  = (status_json 400
       (Failure "Invalid file type. Only PDF and PPT files are allowed." None),
     empty_db)
  /\ snd (POST_entries sample_env 1000 empty_db (deck_request None))
     = empty_db.
Proof.
  split.
  - exact (proj2 (proj2 (pitch_deck_needs_allowed_file sample_env 1000 empty_db
                           (deck_request (Some png_file)) eq_refl))
                 png_file eq_refl eq_refl).
  - exact (proj1 (proj1 (pitch_deck_needs_allowed_file sample_env 1000 empty_db
                           (deck_request None) eq_refl) eq_refl)).
Defined.

(** ** Deletion *)

Lemma find_id_deleted (id : N) (db : DB) :
  Model.find_id id (Model.delete_id id db) = None.
Proof.
  unfold Model.find_id, Model.delete_id. cbn [docs].
  induction (docs db) as [|e l IH]; [reflexivity|].
  cbn [filter]. destruct (_id e =? id)%N eqn:He; cbn [negb]; [exact IH|].
  cbn [find]. rewrite He. exact IH.
Qed.

Lemma find_id_delete_other (id id' : N) (db : DB) :
  id' <> id ->
  Model.find_id id' (Model.delete_id id db) = Model.find_id id' db.
Proof.
  intros Hne. unfold Model.find_id, Model.delete_id. cbn [docs].
  induction (docs db) as [|e l IH]; [reflexivity|].
  cbn [filter find]. destruct (_id e =? id)%N eqn:He; cbn [negb].
  - apply N.eqb_eq in He.
    destruct (_id e =? id')%N eqn:He'; [|exact IH].
    apply N.eqb_eq in He'. congruence.
  - cbn [find]. destruct (_id e =? id')%N; [reflexivity|exact IH].
Qed.

(** C7, as the code has it.  With the database connected, a delete
    request for an ObjectId that no record carries is answered 404 and
    removes nothing; for a record owned by somebody else it is answered 403
    and the collection is left as it was; for a record of the requesting
    user the record is removed, the answer is 200, a later get of the id is
    answered 404, and the other records are still found as before.  For an
    id that is no ObjectId, which no record carries either, the query
    throws and the [catch] answers 500; nothing is removed. *)
Theorem delete_is_owner_checked
        (env : Env) (db : DB) (id : Id) (body_userId : option string) :
  connected env = true ->
  (forall n,
      id = ObjectId n ->
      Model.find_id n db = None ->
      DELETE_entries env db id body_userId
      = (status_json 404 (Failure "Entry not found" None), db))
  /\ (forall n entry,
         id = ObjectId n ->
         Model.find_id n db = Some entry ->
         body_userId <> Some (userId entry) ->
         DELETE_entries env db id body_userId
         = (status_json 403
              (Failure "Not authorized to delete this entry" None), db))
  /\ (forall n entry,
         id = ObjectId n ->
         Model.find_id n db = Some entry ->
         body_userId = Some (userId entry) ->
         exists db',
           DELETE_entries env db id body_userId
           = (json (Message "Entry deleted successfully"), db')
           /\ code (fst (DELETE_entries env db id body_userId)) = 200
           /\ docs db' = filter (fun e => negb (_id e =? n)%N) (docs db)
           /\ Model.find_id n db' = None
           /\ GET_entry env db' id
              = status_json 404 (Failure "Entry not found" None)
           /\ (forall n', n' <> n ->
                           Model.find_id n' db' = Model.find_id n' db))
  /\ (id = NotObjectId ->
      exists message,
        DELETE_entries env db id body_userId
        = (status_json 500 (Failure "Failed to delete entry" (Some message)),
           db)
        /\ GET_entry env db id
           = status_json 500 (Failure "Failed to fetch entry" (Some message))).
Proof.
  intros Hconn. unfold DELETE_entries, delete_entry, GET_entry.
  rewrite Hconn. cbn [negb]. split; [|split; [|split]].
  - intros n -> Hnone. cbn [Model.findById]. rewrite Hnone. reflexivity.
  - intros n entry -> Hfound Hother. cbn [Model.findById]. rewrite Hfound.
    rewrite (proj2 (strict_eq_false _ _) Hother). reflexivity.
  - intros n entry -> Hfound Hown. cbn [Model.findById]. rewrite Hfound.
    rewrite (proj2 (strict_eq_true _ _) Hown).
    cbn [negb Model.findByIdAndDelete].
    exists (Model.delete_id n db).
    split; [reflexivity|]. split; [reflexivity|]. split; [reflexivity|].
    split; [apply find_id_deleted|]. split.
    + cbn [Model.findById]. rewrite find_id_deleted. reflexivity.
    + intros n' Hne. apply find_id_delete_other. exact Hne.
  - intros ->. exists Model.cast_error. split; reflexivity.
Qed.

Lemma delete_is_owner_checked_witness :
  DELETE_entries sample_env db_submitted 0 (Some "user_2")
  = (status_json 403 (Failure "Not authorized to delete this entry" None),
     db_submitted)
  /\ exists db',
      DELETE_entries sample_env db_submitted 0 (Some "user_1")
      = (json (Message "Entry deleted successfully"), db')
      /\ GET_entry sample_env db' 0
         = status_json 404 (Failure "Entry not found" None).
Proof.
  pose proof (delete_is_owner_checked sample_env db_submitted 0
                (Some "user_2") eq_refl) as (_ & Hother & _).
  pose proof (delete_is_owner_checked sample_env db_submitted 0
                (Some "user_1") eq_refl) as (_ & _ & Hown & _).
  split.
  - eapply (Hother 0%N); [reflexivity|reflexivity|]. cbn. discriminate.
  - destruct (Hown 0%N _ eq_refl eq_refl eq_refl)
      as (db' & Hdel & _ & _ & _ & Hget & _).
    exists db'. split; assumption.
Defined.

(** C7 as stated fails on an id that is no ObjectId: no record of the
    collection carries it, and the answer is the 500 of the [catch], not
    404. *)
Lemma malformed_id_is_not_not_found :
  Forall (fun e => ObjectId (_id e) <> NotObjectId) (docs db_submitted)
  /\ snd (DELETE_entries sample_env db_submitted NotObjectId (Some "user_1"))
     = db_submitted
  /\ code (fst (DELETE_entries sample_env db_submitted NotObjectId
                               (Some "user_1"))) = 500
  /\ code (fst (DELETE_entries sample_env db_submitted NotObjectId
                               (Some "user_1"))) <> 404.
Proof.
  split; [|split; [|split]].
  - apply Forall_forall. intros e _. discriminate.
  - reflexivity.
  - reflexivity.
  - cbn. discriminate.
Qed.

(** ** Webhook deliveries *)

(** The first application answers a delivery with an error and leaves
    the collection as it is: a body that was parsed into an
    object gets the 400 of the [catch], since the secret is missing, or the
    gateway is, or the library is handed an object; a body that could not
    be parsed gets the 500 of the error middleware. *)
Lemma POST_webhook_object env now db sig :
  exists message,
    POST_webhook env now db AnObject sig = (webhook_error message, db).
Proof.
  unfold POST_webhook, webhook.
  destruct (STRIPE_WEBHOOK_SECRET env) as [secret|]; [|eauto].
  destruct (secret == ""); [eauto|].
  destruct (stripe env) as [st|]; [|eauto].
  cbn [constructEvent]. eauto.
Qed.

Lemma POST_webhook_refused env now db parsed sig :
  snd (POST_webhook env now db parsed sig) = db
  /\ (code (fst (POST_webhook env now db parsed sig)) = 400
      \/ code (fst (POST_webhook env now db parsed sig)) = 500).
Proof.
  destruct parsed as [|message].
  - destruct (POST_webhook_object env now db sig) as [message ->]. auto.
  - cbn. auto.
Qed.

(** The second application on a delivery that its body parser reads and
    the library verifies. *)
Lemma second_webhook_verified env now db is_json rawBody sig event :
  read_raw is_json rawBody ->
  verified_event env rawBody sig event ->
  Second.POST_webhook true env now db is_json rawBody sig
  = (json Received,
     if ev_type event == "payment_intent.payment_failed"
     then Model.findOneAndUpdate_failed now (ev_object_id event) db
     else db).
Proof.
  intros [-> Hsize] (st & secret & Hst & Hsecret & Hne & Hevent).
  unfold Second.POST_webhook, Second.raw_first, Second.webhook.
  replace (102400 <? Z.of_nat (String.length rawBody)) with false
    by (symmetry; apply Z.ltb_ge; exact Hsize).
  cbn [negb constructEvent].
  rewrite Hst, Hsecret, (eqb_neq_false _ _ Hne). cbn [constructEvent].
  rewrite Hevent. reflexivity.
Qed.


Lemma sample_verified (rawBody : string) :
  verified_event sample_env rawBody (Some "whsec_1")
                 {| ev_type := rawBody; ev_object_id := "pi_paid" |}.
Proof.
  exists sample_stripe, "whsec_1". repeat split. discriminate.
Qed.

(** C10, at the input where the code departs from it.  The first
    application does not answer a delivery with [{ received: true }].  Its
    [express.json()] runs ahead of the [express.raw] of the route, so that
    the body of a delivery, a JSON object, reaches the handler parsed; the
    library, handed an object, throws, and the answer is the 400 of the
    [catch] whatever the signature, also one that the library verifies for
    the text of the body.  The collection is left as it was.  The second
    application, which registers the two parsers in the other order,
    answers a verified delivery of another type than
    [payment_intent.payment_failed] with [{ received: true }] and leaves
    the collection as it was. *)
Theorem verified_delivery_is_refused
        (env : Env) (now : Z) (db : DB) (rawBody : string)
        (sig : option string) :
  (exists message,
      POST_webhook env now db AnObject sig = (webhook_error message, db))
  /\ code (fst (POST_webhook env now db AnObject sig)) = 400
  /\ (forall parsed,
         fst (POST_webhook env now db parsed sig) <> json Received
         /\ snd (POST_webhook env now db parsed sig) = db)
  /\ (forall event,
         verified_event env rawBody sig event ->
         ev_type event <> "payment_intent.payment_failed" ->
         Z.of_nat (String.length rawBody) <= 102400 ->
         Second.POST_webhook true env now db true rawBody sig
         = (json Received, db)).
Proof.
  destruct (POST_webhook_object env now db sig) as [message Hpost].
  split; [eauto|]. split; [rewrite Hpost; reflexivity|]. split.
  - intros parsed.
    destruct (POST_webhook_refused env now db parsed sig) as [Hdb Hcode].
    split; [|exact Hdb].
    intros Hreceived. rewrite Hreceived in Hcode. cbn in Hcode.
    destruct Hcode; discriminate.
  - intros event Hverified Htype Hsize.
    rewrite (second_webhook_verified env now db true rawBody sig event);
      [|split; [reflexivity|exact Hsize]|exact Hverified].
    rewrite (eqb_neq_false _ _ Htype). reflexivity.
Qed.

Lemma verified_delivery_is_refused_witness :
  verified_event sample_env "payment_intent.succeeded" (Some "whsec_1")
                 {| ev_type := "payment_intent.succeeded";
                    ev_object_id := "pi_paid" |}
  /\ code (fst (POST_webhook sample_env 2000 db_submitted AnObject
                             (Some "whsec_1"))) = 400
  /\ snd (POST_webhook sample_env 2000 db_submitted AnObject (Some "whsec_1"))
     = db_submitted
  /\ Second.POST_webhook true sample_env 2000 second_submitted true
                         "payment_intent.succeeded" (Some "whsec_1")
     = (json Received, second_submitted).
Proof.
  split; [apply sample_verified|]. split; [|split].
  - apply (proj1 (proj2
             (verified_delivery_is_refused sample_env 2000 db_submitted
                "payment_intent.succeeded" (Some "whsec_1")))).
  - apply (proj1 (proj2 (proj2
             (verified_delivery_is_refused sample_env 2000 db_submitted
                "payment_intent.succeeded" (Some "whsec_1"))))
             AnObject).
  - apply (proj2 (proj2 (proj2
             (verified_delivery_is_refused sample_env 2000 second_submitted
                "payment_intent.succeeded" (Some "whsec_1"))))
             {| ev_type := "payment_intent.succeeded";
                ev_object_id := "pi_paid" |}).
    + apply sample_verified.
    + cbn. discriminate.
    + cbn. lia.
Defined.


Lemma update_first_absent (p : Entry -> bool) (f : Entry -> Entry)
      (l : list Entry) :
  find p l = None -> Model.update_first p f l = l.
Proof.
  induction l as [|x l IH]; [reflexivity|].
  cbn [find Model.update_first]. destruct (p x); [discriminate|].
  intros H. rewrite (IH H). reflexivity.
Qed.





(** ** What is stored: documents built from the data *)

Lemma document_fields (id : N) (now : Z) (d : EntryData) (e : Entry) :
  Schema.document id now d = Some e ->
  _id e = id
  /\ d_entryType d = Some (entryType e)
  /\ d_paymentIntentId d = Some (paymentIntentId e)
  /\ entryFee e = d_entryFee d
  /\ stripeFee e = d_stripeFee d
  /\ totalAmount e = d_totalAmount d
  /\ fileData e = d_fileData d
  /\ fileUrl e = d_fileUrl d
  /\ Schema.paymentStatus_of (d_paymentStatus d) = Some (paymentStatus e).
Proof.
  unfold Schema.document.
  destruct (d_userId d), (d_category d), (d_entryType d), (d_title d),
    (d_paymentIntentId d); try discriminate.
  destruct (Schema.paymentStatus_of (d_paymentStatus d)),
    (Schema.status_of (d_status d)); try discriminate.
  destruct (_ && _); [|discriminate].
  intros H. inversion H. cbn. repeat split; reflexivity.
Qed.

(** The cast of the three amounts: a document holds no [NaN]. *)
Lemma document_numbers (id : N) (now : Z) (d : EntryData) (e : Entry) :
  Schema.document id now d = Some e ->
  PrimFloat.is_nan (entryFee e) = false
  /\ PrimFloat.is_nan (stripeFee e) = false
  /\ PrimFloat.is_nan (totalAmount e) = false.
Proof.
  unfold Schema.document.
  destruct (d_userId d), (d_category d), (d_entryType d), (d_title d),
    (d_paymentIntentId d); try discriminate.
  destruct (Schema.paymentStatus_of (d_paymentStatus d)),
    (Schema.status_of (d_status d)); try discriminate.
  unfold Schema.castNumber.
  destruct (PrimFloat.is_nan (d_entryFee d)) eqn:H1,
    (PrimFloat.is_nan (d_stripeFee d)) eqn:H2,
    (PrimFloat.is_nan (d_totalAmount d)) eqn:H3; cbn [negb andb];
    try discriminate.
  intros H. inversion H. cbn. auto.
Qed.

Lemma document_ok (id : N) (now : Z) (d : EntryData) (e : Entry) :
  data_ok d ->
  Schema.document id now d = Some e ->
  entry_ok e /\ paymentStatus e = succeeded /\ _id e = id.
Proof.
  intros (Htotal & Hfile & Hstatus) Hdoc.
  destruct (document_fields id now d e Hdoc)
    as (Hid & Htype & Hpid & Hfee & Hsfee & Htot & Hdata & Hurl & Hps).
  destruct (document_numbers id now d e Hdoc) as (Hn1 & Hn2 & Hn3).
  rewrite Hstatus in Hps. cbn in Hps. inversion Hps as [Hsucc].
  split; [|split; [congruence|exact Hid]].
  split; [|split].
  - split; [|repeat split; assumption].
    rewrite Hfee, Hsfee, Htot. exact Htotal.
  - intros Hsome. rewrite Hdata in Hsome.
    destruct (Hfile Hsome) as (Ht & pid & Hp & Hu). split.
    + congruence.
    + rewrite Hurl, Hu. congruence.
  - congruence.
Qed.

Lemma documents_ok (now : Z) (ds : list EntryData) :
  Forall data_ok ds ->
  forall (id : N) (es : list Entry),
    Model.documents id now ds = Some es ->
    Forall entry_ok es
    /\ Forall (fun e => paymentStatus e = succeeded) es
    /\ Forall (fun e => (id <= _id e)%N) es
    /\ Forall (fun e => (_id e < id + N.of_nat (List.length es))%N) es.
Proof.
  induction 1 as [|d ds Hd Hds IH]; intros id es.
  - intros H. inversion H. repeat split; constructor.
  - cbn [Model.documents]. destruct (Schema.valid d); [|discriminate].
    destruct (Schema.document id now d) as [e|] eqn:Hdoc; [|discriminate].
    destruct (Model.documents (id + 1) now ds) as [es'|] eqn:Hrest;
      [|discriminate].
    intros H. inversion H; subst.
    destruct (document_ok id now d e Hd Hdoc) as (Hok & Hsucc & Hid).
    destruct (IH _ _ Hrest) as (Hoks & Hsuccs & Hlow & Hhigh).
    repeat split; constructor; try assumption.
    + lia.
    + eapply Forall_impl; [|exact Hlow]. cbn. intros; lia.
    + cbn [List.length]. lia.
    + eapply Forall_impl; [|exact Hhigh]. cbn [List.length]. intros; lia.
Qed.

Lemma entryData_ok req file pid paymentIntent :
  data_ok (entryData req file pid paymentIntent).
Proof.
  unfold data_ok, entryData. cbn.
  split; [reflexivity|]. split; [|reflexivity].
  destruct (strict_eq (r_entryType req) "text"); cbn;
    [intros H; contradiction H; reflexivity|].
  destruct (strict_eq (r_entryType req) "pitch-deck") eqn:Hdeck;
    [|intros H; contradiction H; reflexivity].
  destruct file as [f|]; cbn; [|intros H; contradiction H; reflexivity].
  intros _. split.
  - apply strict_eq_true. exact Hdeck.
  - exists pid. split; reflexivity.
Qed.

Lemma sample_entry_ok userId now : data_ok (sample_entry userId now).
Proof.
  split; [reflexivity|]. split; [|reflexivity].
  intros H. contradiction H. reflexivity.
Qed.

Lemma test_entry_ok userId pid category entryType title description
      textContent videoUrl entryFee stripeFee status :
  data_ok (test_entry userId pid category entryType title description
                      textContent videoUrl entryFee stripeFee
                      (PrimFloat.add entryFee stripeFee) status).
Proof.
  split; [reflexivity|]. split; [|reflexivity].
  intros H. contradiction H. reflexivity.
Qed.

Lemma testEntries_ok userId now : Forall data_ok (testEntries userId now).
Proof.
  unfold testEntries.
  repeat (apply Forall_cons; [apply (test_entry_ok _ _ _ _ _ _ _ _ 49 2)
                             || apply (test_entry_ok _ _ _ _ _ _ _ _ 99 4)|]).
  apply Forall_nil.
Qed.

(** The data of the second application hold no inline file. *)
Lemma second_entryData_ok req file pid paymentIntent :
  data_ok (Second.paths (Second.entryData req file pid paymentIntent)).
Proof.
  split; [reflexivity|]. split; [|reflexivity].
  intros H. contradiction H. reflexivity.
Qed.

Lemma second_sample_entry_ok userId now :
  data_ok (Second.paths (Second.sample_entry userId now)).
Proof.
  split; [reflexivity|]. split; [|reflexivity].
  intros H. contradiction H. reflexivity.
Qed.

Lemma document_more_fields (id : N) (now : Z) (d : EntryData) (e : Entry) :
  Schema.document id now d = Some e ->
  d_userId d = Some (userId e)
  /\ d_category d = Some (category e)
  /\ d_title d = Some (title e)
  /\ description e = d_description d
  /\ textContent e = d_textContent d
  /\ videoUrl e = d_videoUrl d
  /\ fileName e = d_fileName d
  /\ fileType e = d_fileType d
  /\ fileSize e = d_fileSize d
  /\ createdAt e = now /\ updatedAt e = now /\ submissionDate e = now
  /\ Schema.status_of (d_status d) = Some (status e).
Proof.
  unfold Schema.document.
  destruct (d_userId d), (d_category d), (d_entryType d), (d_title d),
    (d_paymentIntentId d); try discriminate.
  destruct (Schema.paymentStatus_of (d_paymentStatus d)),
    (Schema.status_of (d_status d)); try discriminate.
  destruct (_ && _); [|discriminate].
  intros H. inversion H. cbn. repeat split; reflexivity.
Qed.

Lemma save_document now db d e db' :
  Model.save now db d = Returned (e, db') ->
  Schema.document (next_id db) now d = Some e.
Proof.
  unfold Model.save. destruct (Schema.valid d); [|discriminate].
  destruct (Schema.document (next_id db) now d); [|discriminate].
  intros H. inversion H. reflexivity.
Qed.

Lemma POST_entries_created env now db req id db' :
  POST_entries env now db req = (status_json 201 (Submitted id), db') ->
  exists st pid file paymentIntent e,
    verifies env req st pid
    /\ upload env (r_file req) = Returned file
    /\ validate_submission env req file = inr pid
    /\ paymentIntents_retrieve st pid = Returned paymentIntent
    /\ Model.save now db (entryData req file pid paymentIntent)
       = Returned (e, db')
    /\ _id e = id.
Proof.
  unfold POST_entries, submit_entry.
  destruct (upload env (r_file req)) as [file|] eqn:Hup;
    [|intros H; inversion H].
  destruct (connected env) eqn:Hconn; [|intros H; inversion H].
  cbn [negb].
  destruct (stripe env) as [st|] eqn:Hst; [|intros H; inversion H].
  destruct (validate_submission env req file) as [r|pid] eqn:Hval.
  - intros H. inversion H; subst.
    pose proof (validate_submission_rejects_400 _ _ _ _ Hval) as Hcode.
    cbn in Hcode. discriminate.
  - destruct (paymentIntents_retrieve st pid) as [paymentIntent|] eqn:Hret;
      [|intros H; inversion H].
    destruct (negb (pi_status paymentIntent == "succeeded"));
      [intros H; inversion H|].
    destruct (Model.save now db (entryData req file pid paymentIntent))
      as [[e db1]|] eqn:Hsave; [|intros H; inversion H].
    intros H. inversion H; subst.
    exists st, pid, file, paymentIntent, e.
    repeat split; try assumption; try reflexivity.
    exists file. auto.
Qed.

(** *** A text entry without a body *)

(** C5, at the input where the code departs from it.  The count is that
    of the tokens that whitespace delimits, empty tokens left out, and on a
    body that is there the validation of a text entry goes by it: such an
    entry is valid only if its body has 100 to 2000 words, a body of 99 or
    of 2001 words is refused, and one of 100 or of 2000 words changes
    nothing to the validity of the rest.  The validator itself refuses an
    absent body, but the validator of a path runs only when the path is
    set: a text entry with no body at all, which has 0 words, is valid
    whenever the same entry with a body of 100 words is, and a submission
    of type [text] that carries no [textContent] is answered 201 and
    stored without a body. *)
Theorem text_entry_without_body_is_stored (d : EntryData) :
  d_entryType d = Some "text" ->
  (forall v, Schema.wordCount v = JS.count_tokens JS.is_space (body_text v))
  /\ (forall v,
         Schema.textContent_validator d v = true
         <-> (100 <= Schema.wordCount v <= 2000)%nat)
  /\ Schema.textContent_validator d None = false
  /\ (forall s,
         Schema.valid (with_body (Some s) d) = true ->
         (100 <= Schema.wordCount (Some s) <= 2000)%nat)
  /\ (forall s,
         (100 <= Schema.wordCount (Some s) <= 2000)%nat ->
         Schema.valid (with_body (Some s) d) = Schema.valid (with_body None d))
  /\ Schema.valid (with_body (Some (words 99)) d) = false
  /\ Schema.valid (with_body (Some (words 2001)) d) = false
  /\ Schema.wordCount None = 0%nat
  /\ Schema.valid (with_body None d)
     = Schema.valid (with_body (Some (words 100)) d)
  /\ Schema.valid (with_body None d)
     = Schema.valid (with_body (Some (words 2000)) d)
  /\ (forall env now db db' req id,
         r_entryType req = Some "text" ->
         r_textContent req = None ->
         POST_entries env now db req = (status_json 201 (Submitted id), db') ->
         exists e,
           docs db' = (docs db ++ [e])%list
           /\ _id e = id
           /\ entryType e = "text"
           /\ textContent e = None)
  /\ (code (fst (POST_entries sample_env 1000 empty_db text_request)) = 201
      /\ map entryType
             (docs (snd (POST_entries sample_env 1000 empty_db text_request)))
         = ["text"]
      /\ map textContent
             (docs (snd (POST_entries sample_env 1000 empty_db text_request)))
         = [None]).
Proof.
  intros Htext.
  assert (Hbody : forall s,
             Schema.valid (with_body (Some s) d)
             = Schema.valid (with_body None d)
               && ((100 <=? Schema.wordCount (Some s))%nat
                   && (Schema.wordCount (Some s) <=? 2000)%nat)).
  { intros s. rewrite valid_with_body. cbn [Schema.when_set].
    rewrite textContent_validator_text by exact Htext. reflexivity. }
  split; [exact wordCount_tokens|].
  split; [intros v; apply (validator_word_bounds d v Htext)|].
  split; [apply (validator_word_bounds d None Htext)|].
  split; [|split].
  - intros s Hvalid. rewrite Hbody in Hvalid.
    apply andb_true_iff in Hvalid. destruct Hvalid as [_ Hcount].
    apply andb_true_iff in Hcount. rewrite !Nat.leb_le in Hcount.
    exact Hcount.
  - intros s [Hlow Hhigh]. rewrite Hbody.
    apply Nat.leb_le in Hlow. apply Nat.leb_le in Hhigh.
    rewrite Hlow, Hhigh. apply andb_true_r.
  - split; [rewrite Hbody, wordCount_words; apply andb_false_r|].
    split; [rewrite Hbody, wordCount_words; apply andb_false_r|].
    split; [reflexivity|].
    split; [rewrite Hbody, wordCount_words; symmetry; apply andb_true_r|].
    split; [rewrite Hbody, wordCount_words; symmetry; apply andb_true_r|].
    split; [|repeat split].
    intros env now db db' req id Htype Hnone Hpost.
    destruct (POST_entries_created env now db req id db' Hpost)
      as (st & pid & file & paymentIntent & e & _ & _ & _ & _ & Hsave & Hid).
    pose proof (save_document _ _ _ _ _ Hsave) as Hdoc.
    destruct (document_fields _ _ _ _ Hdoc) as (_ & Hty & _).
    destruct (document_more_fields _ _ _ _ Hdoc)
      as (_ & _ & _ & _ & Hbodyless & _).
    cbn [entryData d_entryType d_textContent] in Hty, Hbodyless.
    rewrite Hnone in Hbodyless. rewrite Htype in Hty.
    exists e. split; [|split; [exact Hid|split]].
    + unfold Model.save in Hsave. rewrite Hdoc in Hsave.
      case_match_in Hsave; [|discriminate].
      inversion Hsave. reflexivity.
    + congruence.
    + rewrite Hbodyless. destruct (strict_eq (r_entryType req) "text");
        reflexivity.
Qed.

Lemma text_entry_without_body_is_stored_witness :
  d_entryType text_data = Some "text"
  /\ Schema.valid (with_body None text_data) = true
  /\ Schema.wordCount (d_textContent (with_body None text_data)) = 0%nat.
Proof.
  split; [reflexivity|]. split; [|reflexivity].
  destruct (text_entry_without_body_is_stored text_data eq_refl)
    as (_ & _ & _ & _ & _ & _ & _ & _ & Hsame & _).
  rewrite Hsame. vm_compute. reflexivity.
Defined.

(** ** How a request changes the collection *)

Lemma document_change now db d e :
  data_ok d ->
  Schema.document (next_id db) now d = Some e ->
  change db {| docs := (docs db ++ [e])%list;
               next_id := (next_id db + 1)%N |}
  /\ entry_ok e.
Proof.
  intros Hd Hdoc.
  destruct (document_ok _ _ _ _ Hd Hdoc) as (Hok & Hsucc & Hid).
  split; [|exact Hok].
  apply (change_insert db [e]).
  - apply Forall_cons; [exact Hok|apply Forall_nil].
  - apply Forall_cons; [exact Hsucc|apply Forall_nil].
  - apply Forall_cons; [lia|apply Forall_nil].
  - apply Forall_cons; [cbn; lia|apply Forall_nil].
Qed.

Lemma save_change now db d e db' :
  data_ok d ->
  Model.save now db d = Returned (e, db') ->
  change db db' /\ docs db' = (docs db ++ [e])%list /\ entry_ok e.
Proof.
  intros Hd. unfold Model.save.
  destruct (Schema.valid d); [|discriminate].
  destruct (Schema.document (next_id db) now d) as [e0|] eqn:Hdoc;
    [|discriminate].
  intros H. inversion H; subst.
  destruct (document_change _ _ _ _ Hd Hdoc) as [Hch Hok].
  split; [exact Hch|]. split; [reflexivity|exact Hok].
Qed.

Lemma second_save_change now db d e db' :
  data_ok (Second.paths d) ->
  Second.save now db d = Returned (e, db') ->
  change db db' /\ docs db' = (docs db ++ [e])%list /\ entry_ok e
  /\ fileData e = None.
Proof.
  intros Hd. unfold Second.save.
  destruct (Second.valid d); [|discriminate].
  destruct (Schema.document (next_id db) now (Second.paths d)) as [e0|]
    eqn:Hdoc; [|discriminate].
  intros H. inversion H; subst.
  destruct (document_change _ _ _ _ Hd Hdoc) as [Hch Hok].
  destruct (document_fields _ _ _ _ Hdoc)
    as (_ & _ & _ & _ & _ & _ & Hdata & _).
  split; [exact Hch|]. split; [reflexivity|]. split; [exact Hok|exact Hdata].
Qed.

Ltac typed_goal :=
  intros; repeat split;
  first [reflexivity | assumption | discriminate | congruence
         | exfalso; congruence].

Lemma entryData_typed req file pid paymentIntent :
  data_typed (entryData req file pid paymentIntent).
Proof.
  unfold data_typed, entryData. cbn.
  destruct (strict_eq (r_entryType req) "text") eqn:Htext; cbn.
  - apply strict_eq_true in Htext.
    split; [|split; [|split]]; typed_goal.
  - destruct (strict_eq (r_entryType req) "pitch-deck") eqn:Hdeck;
      destruct (strict_eq (r_entryType req) "video") eqn:Hvideo;
      try apply strict_eq_true in Hvideo;
      destruct file as [f|]; cbn;
      (split; [|split; [|split]]); typed_goal.
Qed.

Lemma test_entry_typed userId pid category title description
      entryFee stripeFee totalAmount status (textContent : option string)
      (videoUrl : option string) (entryType : string) :
  (textContent <> None -> entryType = "text") ->
  (videoUrl <> None -> entryType = "video") ->
  data_typed (test_entry userId pid category entryType title description
                         textContent videoUrl entryFee stripeFee
                         totalAmount status).
Proof.
  intros Htext Hvideo. unfold data_typed, test_entry. cbn.
  split; [|split; [|split]].
  - intros H. f_equal. apply Htext. destruct textContent; [discriminate|].
    contradiction H. reflexivity.
  - intros H. f_equal. apply Hvideo. exact H.
  - intros _. repeat split.
  - intros H. contradiction H. reflexivity.
Qed.

Lemma sample_entry_typed userId now : data_typed (sample_entry userId now).
Proof.
  apply test_entry_typed; [reflexivity|].
  intros H. contradiction H. reflexivity.
Qed.

Lemma testEntries_typed userId now :
  Forall data_typed (testEntries userId now).
Proof.
  unfold testEntries.
  repeat (apply Forall_cons;
          [apply test_entry_typed;
           (reflexivity || (intros H; contradiction H; reflexivity))|]).
  apply Forall_nil.
Qed.

Lemma save_change_by now db d e db' :
  data_ok d -> data_typed d ->
  Model.save now db d = Returned (e, db') ->
  change_by db db'.
Proof.
  intros Hok Htyped. unfold Model.save.
  destruct (Schema.valid d) eqn:Hvalid; [|discriminate].
  destruct (Schema.document (next_id db) now d) as [e0|] eqn:Hdoc;
    [|discriminate].
  intros H. inversion H; subst.
  apply (by_insert db now [d] [e]).
  - apply Forall_cons; [exact Hok|apply Forall_nil].
  - apply Forall_cons; [exact Htyped|apply Forall_nil].
  - cbn [Model.documents]. rewrite Hvalid, Hdoc. reflexivity.
Qed.

Lemma delete_entry_change_by db id body_userId :
  change_by db (snd (delete_entry db id body_userId)).
Proof.
  unfold delete_entry. destruct id as [n|]; cbn [Model.findById];
    [|apply by_none].
  destruct (Model.find_id n db) as [e|]; [|apply by_none].
  destruct (negb (strict_eq body_userId (userId e))); [apply by_none|].
  cbn [Model.findByIdAndDelete snd]. apply by_delete.
Qed.

Lemma handle_change_by env now db r : change_by db (snd (handle env now db r)).
Proof.
  destruct r as [req|req|user|user|pid|user|id|id body_userId|parsed sig];
    cbn [handle snd]; try apply by_none.
  - unfold POST_entries, submit_entry.
    destruct (upload env (r_file req)) as [file|]; [|apply by_none].
    destruct (connected env); [|apply by_none]. cbn [negb].
    destruct (stripe env) as [st|]; [|apply by_none].
    destruct (validate_submission env req file) as [|p]; [apply by_none|].
    destruct (paymentIntents_retrieve st p) as [paymentIntent|];
      [|apply by_none].
    destruct (negb (pi_status paymentIntent == "succeeded"));
      [apply by_none|].
    destruct (Model.save now db (entryData req file p paymentIntent))
      as [[entry db']|] eqn:Hsave; [|apply by_none].
    exact (save_change_by _ _ _ _ _ (entryData_ok _ _ _ _)
                          (entryData_typed _ _ _ _) Hsave).
  - unfold GET_create_test_entry.
    destruct (connected env); [|apply by_none]. cbn [negb].
    destruct (Model.save now db (sample_entry user now))
      as [[entry db']|] eqn:Hsave; [|apply by_none].
    exact (save_change_by _ _ _ _ _ (sample_entry_ok _ _)
                          (sample_entry_typed _ _) Hsave).
  - unfold GET_create_test_entries, Model.insertMany.
    destruct (connected env); [|apply by_none]. cbn [negb].
    destruct (Model.documents (next_id db) now (testEntries user now))
      as [es|] eqn:Hdocs; [|apply by_none].
    cbn [snd].
    exact (by_insert db now _ es (testEntries_ok _ _)
                     (testEntries_typed _ _) Hdocs).
  - unfold DELETE_entries.
    destruct (connected env); [|apply by_none]. cbn [negb].
    apply delete_entry_change_by.
  - rewrite (proj1 (POST_webhook_refused env now db parsed sig)).
    apply by_none.
Qed.

Lemma change_by_change db db' : change_by db db' -> change db db'.
Proof.
  intros [|now ds es Hok _ Hdocs|id].
  - apply change_none.
  - destruct (documents_ok now ds Hok _ _ Hdocs) as (H1 & H2 & H3 & H4).
    apply change_insert; assumption.
  - apply change_delete.
Qed.

Lemma handle_change env now db r : change db (snd (handle env now db r)).
Proof. apply change_by_change, handle_change_by. Qed.

Lemma step_change db db' : step db db' -> change db db'.
Proof. intros [env now r]. apply handle_change. Qed.

(** The second application: the same changes, and the update of the
    webhook. *)
Lemma second_webhook_change db_ready env now db is_json rawBody sig :
  change db (snd (Second.POST_webhook db_ready env now db is_json rawBody sig)).
Proof.
  unfold Second.POST_webhook, Second.webhook.
  destruct (Second.raw_first is_json rawBody) as [payload|];
    [|apply change_none].
  destruct db_ready; [|apply change_none]. cbn [negb].
  destruct (stripe env) as [st|]; [|apply change_none].
  destruct (STRIPE_WEBHOOK_SECRET env) as [secret|]; [|apply change_none].
  destruct (secret == ""); [apply change_none|].
  destruct (constructEvent st payload sig secret) as [event|];
    [|apply change_none].
  cbn [snd].
  destruct (ev_type event == "payment_intent.payment_failed");
    [apply change_update|apply change_none].
Qed.

Lemma second_handle_change db_ready production env now db r :
  change db (snd (Second.handle db_ready production env now db r)).
Proof.
  destruct r as [req|req|user|user|id|id body_userId|is_json rawBody sig];
    cbn [Second.handle snd]; try apply change_none.
  - unfold Second.POST_entries, Second.submit_entry.
    destruct db_ready; [|apply change_none]. cbn [negb].
    destruct (Second.upload (r_file req)) as [|file]; [apply change_none|].
    destruct (Second.validate_submission req file) as [|pid];
      [apply change_none|].
    destruct (stripe env) as [st|]; [|apply change_none].
    destruct (paymentIntents_retrieve st pid) as [paymentIntent|];
      [|apply change_none].
    destruct (negb (pi_status paymentIntent == "succeeded"));
      [apply change_none|].
    destruct (Second.save now db (Second.entryData req file pid paymentIntent))
      as [[entry db']|] eqn:Hsave; [|apply change_none].
    apply (second_save_change _ _ _ _ _ (second_entryData_ok _ _ _ _) Hsave).
  - unfold Second.GET_create_test_entry.
    destruct db_ready; [|apply change_none]. cbn [negb].
    destruct production; [apply change_none|].
    destruct (Second.save now db (Second.sample_entry user now))
      as [[entry db']|] eqn:Hsave; [|apply change_none].
    apply (second_save_change _ _ _ _ _ (second_sample_entry_ok _ _) Hsave).
  - unfold Second.DELETE_entries.
    destruct db_ready; [|apply change_none]. cbn [negb].
    destruct id as [n|]; cbn [Second.isValid negb]; [|apply change_none].
    destruct (negb (JS.truthy body_userId)); [apply change_none|].
    cbn [Model.findById].
    destruct (Model.find_id n db) as [e|]; [|apply change_none].
    destruct (negb (strict_eq body_userId (userId e))); [apply change_none|].
    cbn [Model.findByIdAndDelete snd]. apply change_delete.
  - apply second_webhook_change.
Qed.

Lemma steps_changes db db' : steps db db' -> changes db db'.
Proof.
  induction 1 as [|db1 db2 Hsteps IH Hstep]; [apply changes_refl|].
  eapply changes_snoc; [exact IH|]. apply step_change. exact Hstep.
Qed.

Lemma second_steps_changes db db' : Second.steps db db' -> changes db db'.
Proof.
  induction 1 as [|db1 db2 Hsteps IH [db_ready production env now r]];
    [apply changes_refl|].
  eapply changes_snoc; [exact IH|]. apply second_handle_change.
Qed.

(** *** Invariants of the collection *)

Lemma Forall_update_first (P : Entry -> Prop) p f l :
  (forall e, P e -> P (f e)) ->
  Forall P l -> Forall P (Model.update_first p f l).
Proof.
  intros Hf. induction 1 as [|e l He Hl IH]; cbn [Model.update_first].
  - constructor.
  - destruct (p e); constructor; auto.
Qed.

Lemma Forall_filter_keep (P : Entry -> Prop) p l :
  Forall P l -> Forall P (filter p l).
Proof.
  induction 1 as [|e l He Hl IH]; cbn [filter]; [constructor|].
  destruct (p e); [constructor|]; assumption.
Qed.

Lemma change_entry_ok db db' :
  change db db' -> Forall entry_ok (docs db) -> Forall entry_ok (docs db').
Proof.
  intros [|es Hok _ _ _|id|now pid] Hdb; cbn [docs].
  - exact Hdb.
  - apply Forall_app. split; assumption.
  - apply Forall_filter_keep. exact Hdb.
  - apply Forall_update_first; [|exact Hdb].
    intros e (Htotal & Hfile & _). repeat split; try assumption.
    + apply Htotal.
    + apply Htotal.
    + apply Htotal.
    + apply Htotal.
    + apply Hfile; assumption.
    + apply Hfile; assumption.
    + discriminate.
Qed.

Lemma change_ids_issued db db' :
  change db db' -> ids_issued db -> ids_issued db'.
Proof.
  unfold ids_issued.
  intros [|es _ _ _ Hhigh|id|now pid] Hdb; cbn [docs next_id].
  - exact Hdb.
  - apply Forall_app. split; [|exact Hhigh].
    eapply Forall_impl; [|exact Hdb]. cbn. intros; lia.
  - apply Forall_filter_keep. exact Hdb.
  - apply Forall_update_first; [|exact Hdb]. intros e He. exact He.
Qed.

Lemma change_next_id db db' : change db db' -> (next_id db <= next_id db')%N.
Proof.
  intros [|es _ _ _ _|id|now pid];
    unfold Model.delete_id, Model.findOneAndUpdate_failed;
    cbn [next_id]; lia.
Qed.

Lemma changes_invariants db db' :
  changes db db' ->
  Forall entry_ok (docs db) -> ids_issued db ->
  Forall entry_ok (docs db') /\ ids_issued db'
  /\ (next_id db <= next_id db')%N.
Proof.
  induction 1 as [|db1 db2 Hsteps IH Hch]; intros Hok Hids.
  - repeat split; try assumption. lia.
  - destruct (IH Hok Hids) as (Hok1 & Hids1 & Hle).
    repeat split.
    + exact (change_entry_ok _ _ Hch Hok1).
    + exact (change_ids_issued _ _ Hch Hids1).
    + pose proof (change_next_id _ _ Hch). lia.
Qed.

Lemma from_empty_invariants db :
  changes empty_db db -> Forall entry_ok (docs db) /\ ids_issued db.
Proof.
  intros H.
  destruct (changes_invariants _ _ H) as (Hok & Hids & _);
    try (constructor; fail).
  split; assumption.
Qed.

Lemma reachable_invariants db :
  reachable db -> Forall entry_ok (docs db) /\ ids_issued db.
Proof. intros H. apply from_empty_invariants, steps_changes, H. Qed.

Lemma second_reachable_invariants db :
  Second.reachable db -> Forall entry_ok (docs db) /\ ids_issued db.
Proof. intros H. apply from_empty_invariants, second_steps_changes, H. Qed.

(** ** Amounts *)

Lemma all_from_spec (p : Z -> bool) (count : nat) :
  forall n, all_from p n count = true ->
            forall k, n <= k < n + Z.of_nat count -> p k = true.
Proof.
  induction count as [|count IH]; intros n Hall k Hk.
  - cbn in Hk. lia.
  - cbn [all_from] in Hall. apply andb_true_iff in Hall.
    destruct Hall as [Hn Hrest].
    destruct (Z.eq_dec k n) as [->|Hne]; [exact Hn|].
    apply (IH (n + 1) Hrest). lia.
Qed.

Lemma sums_exact_checked :
  all_from (fun a => all_from (sum_exact a) 0 256) 0 256 = true.
Proof. vm_compute. reflexivity. Qed.

(** C4, as the code has it.  Every entry of every reachable collection,
    of either application, holds three amounts that are Numbers and no
    [NaN], the total being the sum that [+] gives for the fee and the
    surcharge: their sum rounded to the nearest Number.  An entry stored
    by the submission workflow carries the fee and the surcharge that
    [parseInt] reads from the metadata of the intent that the gateway
    returned, the request having no say in them.  For whole amounts up to
    255 the sum is exact. *)
Theorem stored_amounts_add_up :
  (forall db,
      reachable db \/ Second.reachable db ->
      Forall amounts_add_up (docs db))
  /\ (forall env now db req,
         snd (POST_entries env now db req) <> db ->
         exists st pid paymentIntent entry,
           verifies env req st pid
           /\ paymentIntents_retrieve st pid = Returned paymentIntent
           /\ docs (snd (POST_entries env now db req))
              = (docs db ++ [entry])%list
           /\ entryFee entry
              = JS.parseInt (m_entryFee (metadata paymentIntent))
           /\ stripeFee entry
              = JS.parseInt (m_stripeFee (metadata paymentIntent))
           /\ totalAmount entry
              = PrimFloat.add (entryFee entry) (stripeFee entry))
  /\ (forall a b,
         0 <= a <= 255 -> 0 <= b <= 255 ->
         PrimFloat.add (JS.Number_of_Z a) (JS.Number_of_Z b)
         = JS.Number_of_Z (a + b)).
Proof.
  split; [|split].
  - intros db Hreach.
    assert (Hok : Forall entry_ok (docs db)).
    { destruct Hreach as [H|H].
      - apply reachable_invariants. exact H.
      - apply second_reachable_invariants. exact H. }
    eapply Forall_impl; [|exact Hok]. intros e He. apply He.
  - intros env now db req Hchanged.
    destruct (POST_entries_changes env now db req Hchanged)
      as (st & pid & file & paymentIntent & entry
          & Hv & _ & Hret & _ & Hsave & _).
    exists st, pid, paymentIntent, entry.
    destruct (save_change _ _ _ _ _ (entryData_ok _ _ _ _) Hsave)
      as (_ & Hdocs & Hok).
    destruct (document_fields _ _ _ _ (save_document _ _ _ _ _ Hsave))
      as (_ & _ & _ & Hfee & Hsfee & _).
    repeat split; try assumption. apply Hok.
  - intros a b Ha Hb. apply FloatAxioms.Leibniz.eqb_spec.
    pose proof (all_from_spec _ _ 0 sums_exact_checked a ltac:(cbn; lia))
      as Hrow.
    cbv beta in Hrow.
    exact (all_from_spec _ _ 0 Hrow b ltac:(cbn; lia)).
Qed.

Lemma db_submitted_reachable : reachable db_submitted.
Proof.
  eapply steps_snoc; [apply steps_refl|]. apply step_handle.
Qed.

Lemma second_submitted_reachable : Second.reachable second_submitted.
Proof.
  eapply Second.steps_snoc; [apply Second.steps_refl|].
  apply Second.step_handle.
Qed.

Lemma second_notified_reachable : Second.reachable second_notified.
Proof.
  eapply Second.steps_snoc; [apply second_submitted_reachable|].
  apply Second.step_handle.
Qed.

Lemma stored_amounts_add_up_witness :
  Forall amounts_add_up (docs db_submitted)
  /\ docs db_submitted <> []
  /\ PrimFloat.add (JS.Number_of_Z 49) (JS.Number_of_Z 2) = JS.Number_of_Z 51.
Proof.
  split; [|split].
  - apply (proj1 stored_amounts_add_up db_submitted).
    left. exact db_submitted_reachable.
  - discriminate.
  - apply (proj2 (proj2 stored_amounts_add_up) 49 2); lia.
Defined.

(** C4 as stated fails where the sum is no Number: for an intent whose
    metadata hold the fee 9007199254740992 and the surcharge 1 the entry
    that the submission stores has these two amounts and the total
    9007199254740992, which is not their sum. *)
Lemma large_amounts_do_not_add_up :
  reachable (snd (POST_entries large_env 1000 empty_db
                               (video_request "pi_large")))
  /\ map (fun e => (integer_of (entryFee e), integer_of (stripeFee e),
                    integer_of (totalAmount e)))
         (docs (snd (POST_entries large_env 1000 empty_db
                                  (video_request "pi_large"))))
     = [(Some 9007199254740992, Some 1, Some 9007199254740992)]
  /\ 9007199254740992 <> 9007199254740992 + 1.
Proof.
  split; [|split].
  - eapply steps_snoc; [apply steps_refl|].
    apply (step_handle empty_db large_env 1000
                       (SubmitEntry (video_request "pi_large"))).
  - vm_compute. reflexivity.
  - lia.
Qed.

(** ** Payment status along an execution *)

Lemma find_update_first (q p : Entry -> bool) (f : Entry -> Entry)
      (l : list Entry) :
  (forall e, q (f e) = q e) ->
  match find q l with
  | Some e =>
      find q (Model.update_first p f l) = Some e
      \/ find q (Model.update_first p f l) = Some (f e)
  | None => find q (Model.update_first p f l) = None
  end.
Proof.
  intros Hq. induction l as [|x l IH]; [reflexivity|].
  cbn [find Model.update_first]. destruct (p x) eqn:Hp.
  - cbn [find]. rewrite Hq. destruct (q x); [right; reflexivity|].
    destruct (find q l); [left|]; reflexivity.
  - cbn [find]. destruct (q x); [left; reflexivity|]. exact IH.
Qed.

Lemma find_app_some (q : Entry -> bool) (l l' : list Entry) (e : Entry) :
  find q l = Some e -> find q (l ++ l') = Some e.
Proof.
  induction l as [|x l IH]; [discriminate|].
  cbn [find app]. destruct (q x); [trivial|exact IH].
Qed.

Lemma find_app_none (q : Entry -> bool) (l l' : list Entry) :
  find q l = None -> find q (l ++ l') = find q l'.
Proof.
  induction l as [|x l IH]; [reflexivity|].
  cbn [find app]. destruct (q x); [discriminate|exact IH].
Qed.

Lemma find_id_In id db e : Model.find_id id db = Some e ->
  In e (docs db) /\ _id e = id.
Proof.
  intros H. apply find_some in H. destruct H as [Hin Hid].
  apply N.eqb_eq in Hid. auto.
Qed.

(** One request: an entry that is still found under its [_id] has the
    status it had, or [failed]. *)
Lemma change_status db db' id e e' :
  change db db' ->
  Model.find_id id db = Some e ->
  Model.find_id id db' = Some e' ->
  paymentStatus e' = paymentStatus e \/ paymentStatus e' = failed.
Proof.
  intros [|es _ _ _ _|id0|now pid] He He'.
  - left. congruence.
  - unfold Model.find_id in *. cbn [docs] in He'.
    rewrite (find_app_some _ _ es _ He) in He'. left. congruence.
  - destruct (N.eq_dec id id0) as [->|Hne].
    + rewrite find_id_deleted in He'. discriminate.
    + rewrite (find_id_delete_other id0 id db Hne) in He'.
      left. congruence.
  - unfold Model.find_id, Model.findOneAndUpdate_failed in *.
    cbn [docs] in He'.
    pose proof (find_update_first (fun x => (_id x =? id)%N)
                  (fun x => paymentIntentId x == pid)
                  (Model.set_failed now) (docs db) (fun _ => eq_refl))
      as Hup.
    rewrite He in Hup. destruct Hup as [Hup|Hup]; rewrite Hup in He';
      inversion He'; subst; [left|right]; reflexivity.
Qed.

(** One request: an entry found under a new [_id] was just stored, with
    the status [succeeded]; an [_id] that was handed out and is gone stays
    gone. *)
Lemma change_new db db' id e' :
  change db db' -> ids_issued db ->
  Model.find_id id db = None ->
  Model.find_id id db' = Some e' ->
  paymentStatus e' = succeeded /\ (next_id db <= id)%N.
Proof.
  intros [|es _ Hsucc Hlow _|id0|now pid] Hids Hnone He'.
  - congruence.
  - unfold Model.find_id in *. cbn [docs] in He'.
    rewrite (find_app_none _ _ es Hnone) in He'.
    apply find_some in He'. destruct He' as [Hin Hid].
    apply N.eqb_eq in Hid. subst id. rewrite Forall_forall in Hsucc, Hlow.
    auto.
  - destruct (N.eq_dec id id0) as [->|Hne].
    + rewrite find_id_deleted in He'. discriminate.
    + rewrite (find_id_delete_other id0 id db Hne) in He'. congruence.
  - unfold Model.find_id, Model.findOneAndUpdate_failed in *.
    cbn [docs] in He'.
    pose proof (find_update_first (fun x => (_id x =? id)%N)
                  (fun x => paymentIntentId x == pid)
                  (Model.set_failed now) (docs db) (fun _ => eq_refl))
      as Hup.
    rewrite Hnone in Hup. congruence.
Qed.

Lemma changes_status db db' :
  changes db db' ->
  Forall entry_ok (docs db) -> ids_issued db ->
  forall id e e',
    Model.find_id id db = Some e ->
    Model.find_id id db' = Some e' ->
    paymentStatus e' = paymentStatus e \/ paymentStatus e' = failed.
Proof.
  induction 1 as [|db1 db2 Hsteps IH Hch]; intros Hok Hids id e e' He He'.
  - left. congruence.
  - destruct (changes_invariants _ _ Hsteps Hok Hids) as (Hok1 & Hids1 & Hle).
    destruct (Model.find_id id db1) as [e1|] eqn:He1.
    + destruct (IH Hok Hids id e e1 He He1) as [H1|H1];
        destruct (change_status _ _ _ _ _ Hch He1 He') as [H2|H2];
        rewrite ?H2, ?H1; auto.
    + destruct (change_new _ _ _ _ Hch Hids1 He1 He') as [_ Hfresh].
      destruct (find_id_In _ _ _ He) as [Hin Hid].
      unfold ids_issued in Hids. rewrite Forall_forall in Hids.
      specialize (Hids e Hin). lia.
Qed.

(** What a status can become along an execution that starts in a
    collection of entries that are not [pending]. *)
Lemma changes_status_moves db db' id e e' :
  changes db db' ->
  Forall entry_ok (docs db) -> ids_issued db ->
  Model.find_id id db = Some e ->
  Model.find_id id db' = Some e' ->
  paymentStatus e <> pending
  /\ (paymentStatus e' = paymentStatus e
      \/ paymentStatus e = succeeded /\ paymentStatus e' = failed)
  /\ (paymentStatus e = failed -> paymentStatus e' = failed).
Proof.
  intros Hch Hok Hids He He'.
  destruct (find_id_In _ _ _ He) as [Hin _].
  rewrite Forall_forall in Hok. destruct (Hok e Hin) as (_ & _ & Hnp).
  rewrite <- Forall_forall in Hok.
  destruct (changes_status _ _ Hch Hok Hids id e e' He He') as [H|H].
  - split; [exact Hnp|]. split; [left; exact H|]. congruence.
  - split; [exact Hnp|]. split; [|auto].
    destruct (paymentStatus e) eqn:Hs.
    + congruence.
    + right. auto.
    + left. exact H.
Qed.

(** The first application changes the collection by insertions and
    deletions only, so that an entry keeps the status under which it was
    stored. *)
Lemma first_keeps_succeeded db db' :
  steps db db' ->
  Forall (fun e => paymentStatus e = succeeded) (docs db) ->
  Forall (fun e => paymentStatus e = succeeded) (docs db').
Proof.
  induction 1 as [|db1 db2 Hsteps IH [env now r]]; intros Hdb; [exact Hdb|].
  specialize (IH Hdb).
  destruct (handle_change_by env now db1 r) as [|now' ds es Hok _ Hdocs|id];
    cbn [docs].
  - exact IH.
  - apply Forall_app. split; [exact IH|].
    apply (documents_ok now' ds Hok _ _ Hdocs).
  - apply Forall_filter_keep. exact IH.
Qed.
Lemma find_update_first_cause (q p : Entry -> bool) (f : Entry -> Entry)
      (l : list Entry) (e : Entry) :
  (forall x, q (f x) = q x) ->
  find q l = Some e ->
  find q (Model.update_first p f l) = Some e
  \/ find q (Model.update_first p f l) = Some (f e) /\ p e = true.
Proof.
  intros Hq. induction l as [|x l IH]; [discriminate|].
  cbn [find Model.update_first]. destruct (p x) eqn:Hp.
  - cbn [find]. rewrite Hq. destruct (q x).
    + intros H. inversion H; subst. right. auto.
    + intros H. left. exact H.
  - cbn [find]. destruct (q x); [left; assumption|]. exact IH.
Qed.

(** What one request does to the collection of the second application:
    nothing, the insertion of one entry, the deletion under an ObjectId,
    or the update that a verified [payment_failed] delivery asks for. *)
Lemma second_handle_shape db_ready production env now db r :
  snd (Second.handle db_ready production env now db r) = db
  \/ (exists e0,
         docs (snd (Second.handle db_ready production env now db r))
         = (docs db ++ [e0])%list
         /\ fileData e0 = None)
  \/ (exists n,
         snd (Second.handle db_ready production env now db r)
         = Model.delete_id n db)
  \/ (exists rawBody sig event,
         r = Second.Webhook true rawBody sig
         /\ verified_event env rawBody sig event
         /\ ev_type event = "payment_intent.payment_failed"
         /\ snd (Second.handle db_ready production env now db r)
            = Model.findOneAndUpdate_failed now (ev_object_id event) db).
Proof.
  destruct r as [req|req|user|user|id|id body_userId|is_json rawBody sig];
    cbn [Second.handle snd]; auto.
  - unfold Second.POST_entries, Second.submit_entry.
    destruct db_ready; [|auto]. cbn [negb].
    destruct (Second.upload (r_file req)) as [|file]; [auto|].
    destruct (Second.validate_submission req file) as [|pid]; [auto|].
    destruct (stripe env) as [st|]; [|auto].
    destruct (paymentIntents_retrieve st pid) as [paymentIntent|]; [|auto].
    destruct (negb (pi_status paymentIntent == "succeeded")); [auto|].
    destruct (Second.save now db (Second.entryData req file pid paymentIntent))
      as [[entry db']|] eqn:Hsave; [|auto].
    destruct (second_save_change _ _ _ _ _ (second_entryData_ok _ _ _ _) Hsave)
      as (_ & Hdocs & _ & Hnone).
    right. left. exists entry. split; [exact Hdocs|exact Hnone].
  - unfold Second.GET_create_test_entry.
    destruct db_ready; [|auto]. cbn [negb].
    destruct production; [auto|].
    destruct (Second.save now db (Second.sample_entry user now))
      as [[entry db']|] eqn:Hsave; [|auto].
    destruct (second_save_change _ _ _ _ _ (second_sample_entry_ok _ _) Hsave)
      as (_ & Hdocs & _ & Hnone).
    right. left. exists entry. split; [exact Hdocs|exact Hnone].
  - unfold Second.DELETE_entries.
    destruct db_ready; [|auto]. cbn [negb].
    destruct id as [n|]; cbn [Second.isValid negb]; [|auto].
    destruct (negb (JS.truthy body_userId)); [auto|].
    cbn [Model.findById].
    destruct (Model.find_id n db) as [e|]; [|auto].
    destruct (negb (strict_eq body_userId (userId e))); [auto|].
    cbn [Model.findByIdAndDelete snd]. right. right. left. exists n.
    reflexivity.
  - unfold Second.POST_webhook, Second.raw_first, Second.webhook.
    destruct is_json.
    + destruct (102400 <? Z.of_nat (String.length rawBody)); [auto|].
      destruct db_ready; [|auto]. cbn [negb].
      destruct (stripe env) as [st|] eqn:Hst; [|auto].
      destruct (STRIPE_WEBHOOK_SECRET env) as [secret|] eqn:Hsecret; [|auto].
      destruct (secret == "") eqn:Hne; [auto|]. cbn [constructEvent].
      destruct (webhooks_constructEvent st rawBody sig secret) as [event|]
        eqn:Hevent; [|auto].
      cbn [snd].
      destruct (ev_type event == "payment_intent.payment_failed") eqn:Htype;
        [|auto].
      right. right. right. exists rawBody, sig, event.
      split; [reflexivity|]. split.
      * exists st, secret. repeat split; try assumption.
        apply String.eqb_neq. exact Hne.
      * split; [apply String.eqb_eq; exact Htype|reflexivity].
    + destruct db_ready; [|auto]. cbn [negb].
      destruct (stripe env) as [st|]; [|auto].
      destruct (STRIPE_WEBHOOK_SECRET env) as [secret|]; [|auto].
      destruct (secret == ""); auto.
Qed.

(** C2, as the code has it.  An entry is stored with the status
    [succeeded] and no stored entry is [pending].  In the first
    application, which verifies no delivery, an entry keeps that status.
    In the second application an entry keeps its status or goes from
    [succeeded] to [failed], and never from [failed] to [succeeded]; what
    changes the status of an entry is a verified
    [payment_intent.payment_failed] delivery for its payment intent. *)
Theorem payment_status_only_fails :
  (forall db,
      reachable db \/ Second.reachable db ->
      Forall (fun e => paymentStatus e <> pending) (docs db))
  /\ (forall db db' id e e',
         reachable db -> steps db db' ->
         Model.find_id id db = Some e ->
         Model.find_id id db' = Some e' ->
         paymentStatus e = succeeded /\ paymentStatus e' = succeeded)
  /\ (forall db db' id e',
         Second.reachable db -> Second.step db db' ->
         Model.find_id id db = None ->
         Model.find_id id db' = Some e' ->
         paymentStatus e' = succeeded)
  /\ (forall db db' id e e',
         Second.reachable db -> Second.steps db db' ->
         Model.find_id id db = Some e ->
         Model.find_id id db' = Some e' ->
         (paymentStatus e' = paymentStatus e
          \/ paymentStatus e = succeeded /\ paymentStatus e' = failed)
         /\ (paymentStatus e = failed -> paymentStatus e' = failed))
  /\ (forall db_ready production env now db r id e e',
         Model.find_id id db = Some e ->
         Model.find_id id (snd (Second.handle db_ready production env now db r))
         = Some e' ->
         paymentStatus e' <> paymentStatus e ->
         paymentStatus e' = failed
         /\ exists rawBody sig event,
             r = Second.Webhook true rawBody sig
             /\ verified_event env rawBody sig event
             /\ ev_type event = "payment_intent.payment_failed"
             /\ ev_object_id event = paymentIntentId e).
Proof.
  split; [|split; [|split; [|split]]].
  - intros db Hreach.
    assert (Hok : Forall entry_ok (docs db)).
    { destruct Hreach as [H|H].
      - apply reachable_invariants. exact H.
      - apply second_reachable_invariants. exact H. }
    eapply Forall_impl; [|exact Hok]. intros e He. apply He.
  - intros db db' id e e' Hreach Hsteps He He'.
    assert (Hdb : Forall (fun x => paymentStatus x = succeeded) (docs db)).
    { apply (first_keeps_succeeded empty_db db Hreach). constructor. }
    pose proof (first_keeps_succeeded db db' Hsteps Hdb) as Hdb'.
    rewrite Forall_forall in Hdb, Hdb'.
    split; [apply Hdb|apply Hdb'].
    + apply (find_id_In _ _ _ He).
    + apply (find_id_In _ _ _ He').
  - intros db db' id e' Hreach [db_ready production env now r] Hnone He'.
    destruct (second_reachable_invariants db Hreach) as [_ Hids].
    exact (proj1 (change_new _ _ _ _
                    (second_handle_change db_ready production env now db r)
                    Hids Hnone He')).
  - intros db db' id e e' Hreach Hsteps He He'.
    destruct (second_reachable_invariants db Hreach) as [Hok Hids].
    destruct (changes_status_moves db db' id e e'
                (second_steps_changes _ _ Hsteps) Hok Hids He He')
      as (_ & Hmove & Hstay).
    split; assumption.
  - intros db_ready production env now db r id e e' He He' Hmoved.
    destruct (second_handle_shape db_ready production env now db r)
      as [Hsame|[(e0 & Hdocs & _)|[(n & Hdel)|(rawBody & sig & event & Hr
                                               & Hverified & Htype & Hup)]]].
    + rewrite Hsame in He'. congruence.
    + unfold Model.find_id in He, He'. rewrite Hdocs in He'.
      rewrite (find_app_some _ _ [e0] _ He) in He'. congruence.
    + rewrite Hdel in He'. destruct (N.eq_dec id n) as [->|Hne].
      * rewrite find_id_deleted in He'. discriminate.
      * rewrite (find_id_delete_other n id db Hne) in He'. congruence.
    + rewrite Hup in He'.
      unfold Model.find_id, Model.findOneAndUpdate_failed in He, He'.
      cbn [docs] in He'.
      destruct (find_update_first_cause
                  (fun x => (_id x =? id)%N)
                  (fun x => paymentIntentId x == ev_object_id event)
                  (Model.set_failed now) (docs db) e (fun _ => eq_refl) He)
        as [Hkept|[Hset Hpid]]; [congruence|].
      rewrite Hset in He'. inversion He'; subst e'.
      split; [reflexivity|]. exists rawBody, sig, event.
      repeat split; try assumption.
      symmetry. apply String.eqb_eq. exact Hpid.
Qed.

Lemma payment_status_only_fails_witness :
  exists e e',
    Model.find_id 0 second_submitted = Some e
    /\ Model.find_id 0 second_notified = Some e'
    /\ (paymentStatus e' = paymentStatus e
        \/ paymentStatus e = succeeded /\ paymentStatus e' = failed).
Proof.
  destruct (Model.find_id 0 second_submitted) as [e|] eqn:He;
    [|discriminate He].
  destruct (Model.find_id 0 second_notified) as [e'|] eqn:He';
    [|discriminate He'].
  exists e, e'. split; [reflexivity|]. split; [reflexivity|].
  apply (proj1 (proj2 (proj2 (proj2 payment_status_only_fails)))
               second_submitted second_notified 0%N e e').
  - exact second_submitted_reachable.
  - eapply Second.steps_snoc; [apply Second.steps_refl|].
    apply Second.step_handle.
  - exact He.
  - exact He'.
Defined.

(** C2 as stated fails in the second application: the entry stored as
    [succeeded] at time 1000 is [failed] after the [payment_failed]
    delivery at time 2000, both collections being reachable. *)
Lemma succeeded_entry_becomes_failed :
  Second.reachable second_submitted /\ Second.reachable second_notified
  /\ Second.step second_submitted second_notified
  /\ option_map paymentStatus (Model.find_id 0 second_submitted)
     = Some succeeded
  /\ option_map paymentStatus (Model.find_id 0 second_notified) = Some failed.
Proof.
  split; [apply second_submitted_reachable|].
  split; [apply second_notified_reachable|].
  split; [apply Second.step_handle|]. split; reflexivity.
Qed.

(** ** Listing *)

Lemma insert_desc_perm (e : Entry) (l : list Entry) :
  Permutation (Model.insert_desc e l) (e :: l).
Proof.
  induction l as [|x l IH]; cbn [Model.insert_desc]; [reflexivity|].
  destruct (createdAt x <=? createdAt e); [reflexivity|].
  rewrite IH. apply perm_swap.
Qed.

Lemma sort_desc_perm (l : list Entry) : Permutation (Model.sort_desc l) l.
Proof.
  induction l as [|e l IH]; [reflexivity|].
  unfold Model.sort_desc in *. cbn [fold_right].
  rewrite insert_desc_perm. apply perm_skip. exact IH.
Qed.

Lemma insert_desc_hd (e x : Entry) (l : list Entry) :
  newer x e -> HdRel newer x l -> HdRel newer x (Model.insert_desc e l).
Proof.
  intros Hxe Hhd. destruct l as [|y l]; cbn [Model.insert_desc].
  - constructor. exact Hxe.
  - destruct (createdAt y <=? createdAt e); constructor; [exact Hxe|].
    inversion Hhd. assumption.
Qed.

Lemma insert_desc_sorted (e : Entry) (l : list Entry) :
  Sorted newer l -> Sorted newer (Model.insert_desc e l).
Proof.
  induction 1 as [|x l Hl IH Hhd]; cbn [Model.insert_desc].
  - repeat constructor.
  - destruct (createdAt x <=? createdAt e) eqn:Hle.
    + constructor; [constructor; assumption|].
      constructor. unfold newer. lia.
    + constructor; [exact IH|].
      apply insert_desc_hd; [|exact Hhd]. unfold newer. lia.
Qed.

Lemma sort_desc_sorted (l : list Entry) : Sorted newer (Model.sort_desc l).
Proof.
  induction l as [|e l IH]; [constructor|].
  unfold Model.sort_desc in *. cbn [fold_right].
  apply insert_desc_sorted. exact IH.
Qed.

Lemma newer_trans : Relations_1.Transitive newer.
Proof. intros a b c. unfold newer. lia. Qed.

Lemma transform_listed (e : Entry) : listed_as e (transform e).
Proof.
  unfold listed_as, transform.
  destruct ((entryType e == "pitch-deck") && JS.truthy (fileData e));
    repeat split.
Qed.

Lemma Forall2_map_transform (l : list Entry) :
  Forall2 listed_as l (map transform l).
Proof.
  induction l as [|e l IH]; cbn [map]; constructor;
    [apply transform_listed|exact IH].
Qed.

Lemma map_transform_sorted (l : list Entry) :
  StronglySorted newer l -> StronglySorted newer (map transform l).
Proof.
  induction 1 as [|x l Hl IH Hx]; cbn [map]; constructor; [exact IH|].
  rewrite Forall_forall in *. intros y Hy. apply in_map_iff in Hy.
  destruct Hy as (z & <- & Hz). specialize (Hx z Hz). unfold newer in *.
  destruct (transform_listed x)
    as (_ & _ & _ & _ & _ & _ & _ & _ & _ & _ & _ & _ & _ & _ & _ & _ & _
        & _ & -> & _).
  destruct (transform_listed z)
    as (_ & _ & _ & _ & _ & _ & _ & _ & _ & _ & _ & _ & _ & _ & _ & _ & _
        & _ & -> & _).
  exact Hx.
Qed.

Lemma Forall2_retrieval_url (l : list Entry) :
  Forall entry_ok l ->
  Forall2 (fun s l =>
             fileData s <> None ->
             fileUrl l = Some ("/api/file/" ++ paymentIntentId s)%string)
          l (map transform l).
Proof.
  induction 1 as [|e l He Hl IH]; cbn [map]; constructor; [|exact IH].
  intros Hdata. destruct He as (_ & Hfile & _).
  destruct (Hfile Hdata) as [_ Hurl]. unfold transform.
  destruct ((entryType e == "pitch-deck") && JS.truthy (fileData e));
    [reflexivity|exact Hurl].
Qed.

(** The second application stores no inline file. *)
Lemma second_no_inline_file (db : DB) :
  Second.reachable db -> Forall (fun e => fileData e = None) (docs db).
Proof.
  intros Hreach. unfold Second.reachable in Hreach.
  induction Hreach as [|db1 db2 Hsteps IH [db_ready production env now r]];
    [constructor|].
  destruct (second_handle_shape db_ready production env now db1 r)
    as [Hsame|[(e0 & Hdocs & Hnone)|[(n & Hdel)|(rawBody & sig & event & _
                                                 & _ & _ & Hup)]]].
  - rewrite Hsame. exact IH.
  - rewrite Hdocs. apply Forall_app. split; [exact IH|].
    constructor; [exact Hnone|constructor].
  - rewrite Hdel. cbn [Model.delete_id docs]. apply Forall_filter_keep.
    exact IH.
  - rewrite Hup. cbn [Model.findOneAndUpdate_failed docs].
    apply Forall_update_first; [|exact IH]. intros e He. exact He.
Qed.

(** C8.  With the database connected, the listing of the first
    application for a user answers with that user's entries and no others,
    the most recently created first, each with every field as it is stored
    but the inline file: no entry of the answer carries [fileData], and an
    entry that was stored with [fileData] is listed with the retrieval URL
    [/api/file/<paymentIntentId>].  The listing of the second application,
    whose entries hold no inline file, answers with the user's entries as
    they are stored, the most recently created first. *)
Theorem listing_is_owned_sorted_and_stripped :
  (forall env db user,
      connected env = true ->
      reachable db ->
      exists stored entries,
        GET_entries env db user = json (Entries entries)
        /\ Permutation stored (filter (fun e => userId e == user) (docs db))
        /\ StronglySorted newer stored
        /\ Forall2 listed_as stored entries
        /\ Forall (fun e => userId e = user) entries
        /\ StronglySorted newer entries
        /\ Forall (fun e => fileData e = None) entries
        /\ Forall2 (fun s l =>
                      fileData s <> None ->
                      fileUrl l
                      = Some ("/api/file/" ++ paymentIntentId s)%string)
                   stored entries)
  /\ (forall db user,
         Second.reachable db ->
         exists entries,
           Second.GET_entries true db user = json (Entries entries)
           /\ Permutation entries
                (filter (fun e => userId e == user) (docs db))
           /\ StronglySorted newer entries
           /\ Forall (fun e => fileData e = None) entries).
Proof.
  split.
  - intros env db user Hconn Hreach.
    destruct (reachable_invariants db Hreach) as [Hok _].
    exists (Model.find_sorted user db),
      (map transform (Model.find_sorted user db)).
    assert (Hperm : Permutation (Model.find_sorted user db)
                      (filter (fun e => userId e == user) (docs db)))
      by apply sort_desc_perm.
    assert (Hsorted : StronglySorted newer (Model.find_sorted user db)).
    { apply Sorted_StronglySorted; [exact newer_trans|apply sort_desc_sorted]. }
    split; [unfold GET_entries; rewrite Hconn; reflexivity|].
    split; [exact Hperm|]. split; [exact Hsorted|].
    split; [apply Forall2_map_transform|].
    split; [|split; [|split]].
    + rewrite Forall_forall. intros e He. apply in_map_iff in He.
      destruct He as (x & <- & Hx).
      apply (Permutation_in _ Hperm) in Hx. apply filter_In in Hx.
      destruct Hx as [_ Hx]. apply String.eqb_eq in Hx.
      destruct (transform_listed x) as (_ & -> & _). exact Hx.
    + apply map_transform_sorted. exact Hsorted.
    + rewrite Forall_forall. intros e He. apply in_map_iff in He.
      destruct He as (x & <- & _).
      apply (transform_listed x).
    + assert (Hall : Forall entry_ok (Model.find_sorted user db)).
      { rewrite Forall_forall in *. intros e He.
        apply (Permutation_in _ Hperm) in He. apply filter_In in He.
        apply Hok. apply He. }
      apply Forall2_retrieval_url. exact Hall.
  - intros db user Hreach.
    pose proof (second_no_inline_file db Hreach) as Hnone.
    exists (Model.find_sorted user db).
    assert (Hperm : Permutation (Model.find_sorted user db)
                      (filter (fun e => userId e == user) (docs db)))
      by apply sort_desc_perm.
    split; [reflexivity|]. split; [exact Hperm|]. split.
    + apply Sorted_StronglySorted; [exact newer_trans|apply sort_desc_sorted].
    + rewrite Forall_forall in *. intros e He.
      apply (Permutation_in _ Hperm) in He. apply filter_In in He.
      apply Hnone. apply He.
Qed.

Lemma db_with_deck_reachable : reachable db_with_deck.
Proof.
  eapply steps_snoc; [apply db_submitted_reachable|]. apply step_handle.
Qed.

Lemma listing_is_owned_sorted_and_stripped_witness :
  exists entries,
    GET_entries sample_env db_with_deck "user_1" = json (Entries entries)
    /\ map entryType entries = ["pitch-deck"; "video"]
    /\ map title entries = ["Seed round deck"; "A short film"]
    /\ map createdAt entries = [1500; 1000]
    /\ map fileUrl entries = [Some "/api/file/pi_paid"; None]
    /\ Forall (fun e => fileData e = None) entries
    /\ map fileData (docs db_with_deck) = [None; Some "JVBERi0xLjQ="].
Proof.
  destruct (proj1 listing_is_owned_sorted_and_stripped sample_env db_with_deck
                  "user_1" eq_refl db_with_deck_reachable)
    as (stored & entries & Hget & _ & _ & _ & _ & _ & Hstripped & _).
  exists entries. vm_compute in Hget. inversion Hget; subst.
  repeat split; try reflexivity. exact Hstripped.
Defined.

(** ** Fees and the category check *)

(** For the four categories of the table the surcharge is the ceiling of
    four hundredths of the fee and the total is their sum: 49 gives 2 and
    51, 99 gives 4 and 103. *)
Lemma fee_table_surcharges (category : string) (fee : float) :
  In (category, fee) baseFees ->
  JS.get baseFees category = JS.JNumber fee
  /\ fees_stripeFee (calculateFees (JS.JNumber fee))
     = JS.Math_ceil (PrimFloat.mul fee rate)
  /\ fees_totalAmount (calculateFees (JS.JNumber fee))
     = JS.JNumber (PrimFloat.add fee
                     (fees_stripeFee (calculateFees (JS.JNumber fee))))
  /\ (fee = 49%float
      /\ calculateFees (JS.JNumber fee)
         = {| fees_stripeFee := 2%float;
              fees_totalAmount := JS.JNumber 51%float |}
      \/ fee = 99%float
         /\ calculateFees (JS.JNumber fee)
            = {| fees_stripeFee := 4%float;
                 fees_totalAmount := JS.JNumber 103%float |}).
Proof.
  intros Hin. cbn in Hin.
  destruct Hin as [H|[H|[H|[H|[]]]]]; inversion H; subst;
    repeat split; try reflexivity;
    (left; split; reflexivity) || (right; split; reflexivity).
Qed.

(** A category that is no key of the table and no member of
    [Object.prototype] is refused before the gateway is called. *)
Lemma unknown_category_is_rejected
      (st : Stripe) (category entryType : string) :
  category <> "" -> entryType <> "" ->
  JS.get baseFees category = JS.JUndefined ->
  create_payment_intent st {| i_category := Some category;
                              i_entryType := Some entryType |}
  = (status_json 400 (Failure "Invalid category" (Some category)), []).
Proof.
  intros Hc Ht Hget. unfold create_payment_intent. cbn [i_category i_entryType].
  rewrite (eqb_neq_false _ _ Hc), (eqb_neq_false _ _ Ht), Hget. reflexivity.
Qed.

(** C3, at the input where the code departs from it.  The category
    [constructor] is no key of the fee table, yet [baseFees[category]]
    finds the member that every object inherits, the check [!entryFee]
    lets it through, and the handler calls the gateway with the amount
    [NaN]; its answer is the gateway's, never the 400 of an invalid
    category. *)
Theorem inherited_key_passes_category_check (st : Stripe) :
  JS.own_property baseFees "constructor" = None
  /\ JS.get baseFees "constructor" = JS.JFunction "Object"
  /\ (exists params,
         snd (create_payment_intent st {| i_category := Some "constructor";
                                          i_entryType := Some "text" |})
         = [params]
         /\ cp_category params = "constructor"
         /\ PrimFloat.is_nan (amount params) = true)
  /\ code (fst (create_payment_intent st {| i_category := Some "constructor";
                                            i_entryType := Some "text" |}))
     <> 400.
Proof.
  split; [reflexivity|]. split; [reflexivity|].
  unfold create_payment_intent. cbn [i_category i_entryType].
  change ("constructor" == "") with false.
  change ("text" == "") with false.
  change (JS.get baseFees "constructor") with (JS.JFunction "Object").
  cbn [orb negb JS.is_true].
  destruct (paymentIntents_create st _) as [paymentIntent|message];
    (split; [eexists; repeat split|cbn; discriminate]).
Qed.

(** ** The second application: listing *)

(** X21.  The listing of the second application does no stripping, and needs
    none: its schema stores no [fileData].  On such a collection the answer is
    again the owner's entries, newest first, with no [fileData]. *)
Lemma second_listing (db : DB) (user : string) :
  Forall (fun e => fileData e = None) (docs db) ->
  exists entries,
    Second.GET_entries true db user = json (Entries entries)
    /\ Permutation entries (filter (fun e => userId e == user) (docs db))
    /\ StronglySorted newer entries
    /\ Forall (fun e => fileData e = None) entries.
Proof.
  intros Hnone. exists (Model.find_sorted user db).
  assert (Hperm : Permutation (Model.find_sorted user db)
                    (filter (fun e => userId e == user) (docs db)))
    by apply sort_desc_perm.
  split; [reflexivity|]. split; [exact Hperm|]. split.
  - apply Sorted_StronglySorted; [exact newer_trans|apply sort_desc_sorted].
  - rewrite Forall_forall in *. intros e He.
    apply (Permutation_in _ Hperm) in He. apply filter_In in He.
    apply Hnone. apply He.
Qed.


(** ** Worked evaluations *)

Example split_keeps_outer_empty_tokens :
  JS.split JS.is_space (JS.code_units "  a b  c ")
  = [[]; [97%N]; [98%N]; [99%N]; []].
Proof. reflexivity. Qed.

Example wordCount_ignores_blank_runs :
  Schema.wordCount (Some (JS.code_units "  two   words ")) = 2%nat
  /\ Schema.wordCount (Some (JS.code_units "   ")) = 0%nat
  /\ Schema.wordCount (Some [119%N; 8195%N; 119%N; 160%N; 119%N]) = 3%nat.
Proof. repeat split. Qed.

Example parseInt_reads_a_prefix :
  JS.parseInt (Some "49") = 49%float
  /\ JS.parseInt (Some "  12px") = 12%float
  /\ JS.parseInt (Some "-0x1f") = (-31)%float
  /\ JS.parseInt (Some "-0") = (-0)%float
  /\ JS.parseInt (Some "9007199254740993") = 9007199254740992%float
  /\ JS.parseInt (Some "abc") = nan
  /\ JS.parseInt (Some "") = nan
  /\ JS.parseInt None = nan.
Proof. repeat split. Qed.

Example Math_ceil_values :
  JS.Math_ceil (PrimFloat.mul 49 rate) = 2%float
  /\ JS.Math_ceil (PrimFloat.mul 99 rate) = 4%float
  /\ JS.Math_ceil 2.5%float = 3%float
  /\ JS.Math_ceil (-2.5)%float = (-2)%float
  /\ JS.Math_ceil 7%float = 7%float
  /\ JS.Math_ceil nan = nan.
Proof. repeat split. Qed.

Example urlPattern_hosts :
  Schema.urlPattern_test "HTTPS://WWW.YouTube.com/watch?v=1" = true
  /\ Schema.urlPattern_test "youtu.be/1" = true
  /\ Schema.urlPattern_test "www.vimeo.com/1" = true
  /\ Schema.urlPattern_test "ftp://youtube.com" = false
  /\ Schema.urlPattern_test "https://example.com/youtube.com" = false.
Proof. repeat split. Qed.

Example technology_intent :
  POST_create_payment_intent sample_env
    {| i_category := Some "technology"; i_entryType := Some "text" |}
  = (json (ClientSecret "pi_new_secret" (JS.JNumber 99) 4
                        (JS.JNumber 103)),
     [ {| amount := 10300; currency := "usd";
          cp_category := "technology"; cp_entryType := "text";
          cp_entryFee := JS.JNumber 99; cp_stripeFee := 4 |} ]).
Proof. reflexivity. Qed.

Example unknown_category_intent :
  POST_create_payment_intent sample_env
    {| i_category := Some "sports"; i_entryType := Some "text" |}
  = (status_json 400 (Failure "Invalid category" (Some "sports")), []).
Proof. reflexivity. Qed.

Example paid_video_is_stored :
  fst (POST_entries sample_env 1000 empty_db (video_request "pi_paid"))
  = status_json 201 (Submitted 0)
  /\ map totalAmount (docs db_submitted) = [51%float]
  /\ map paymentStatus (docs db_submitted) = [succeeded].
Proof. repeat split. Qed.

(** The sample text of this revision's test-entry routes is a placeholder
    of a dozen words, which the word-count validator refuses. *)
Example placeholder_test_entry_is_refused :
  GET_create_test_entry sample_env 1000 empty_db "user_1"
  = (status_json 500 (Failure "Failed to create test entry"
                              (Some "Entry validation failed")), empty_db)
  /\ Schema.wordCount (d_textContent (sample_entry "user_1" 1000)) = 11%nat.
Proof. repeat split. Qed.

(** * Further properties of the code *)

(** ** URL normalisation *)

Lemma collapse_after_slash_head (s : string) :
  match collapse_slashes true s with
  | String c _ => (c =? "/")%char = false
  | EmptyString => True
  end.
Proof.
  induction s as [|c s IH]; cbn [collapse_slashes]; [exact I|].
  destruct (c =? "/")%char eqn:Hc; [exact IH|exact Hc].
Qed.

Lemma double_slash_cons (a b : ascii) (t : string) :
  double_slash (String a (String b t))
  = ((a =? "/")%char && (b =? "/")%char) || double_slash (String b t).
Proof. reflexivity. Qed.

Lemma collapse_length (s : string) (b : bool) :
  (String.length (collapse_slashes b s) <= String.length s)%nat.
Proof.
  revert b. induction s as [|c s IH]; intros b; [reflexivity|].
  cbn [collapse_slashes]. destruct (c =? "/")%char; [destruct b|];
    cbn [String.length].
  - specialize (IH true). lia.
  - specialize (IH true). lia.
  - specialize (IH false). lia.
Qed.

Lemma collapse_no_double_slash (s : string) (b : bool) :
  double_slash (collapse_slashes b s) = false.
Proof.
  revert b. induction s as [|c s IH]; intros b; [reflexivity|].
  cbn [collapse_slashes]. destruct (c =? "/")%char eqn:Hc.
  - destruct b; [apply IH|].
    pose proof (collapse_after_slash_head s) as Hhead.
    specialize (IH true).
    destruct (collapse_slashes true s) as [|d t]; [reflexivity|].
    rewrite double_slash_cons, Hhead, andb_false_r. exact IH.
  - specialize (IH false).
    destruct (collapse_slashes false s) as [|d t]; [reflexivity|].
    rewrite double_slash_cons, Hc. exact IH.
Qed.

Lemma collapse_idempotent (s : string) (b : bool) :
  collapse_slashes b (collapse_slashes b s) = collapse_slashes b s.
Proof.
  revert b. induction s as [|c s IH]; intros b; [reflexivity|].
  cbn [collapse_slashes]. destruct (c =? "/")%char eqn:Hc.
  - destruct b; [apply IH|].
    cbn [collapse_slashes]. rewrite Hc, IH. reflexivity.
  - cbn [collapse_slashes]. rewrite Hc, IH. reflexivity.
Qed.

Lemma collapse_without_slashes (s : string) (b : bool) :
  without_slashes (collapse_slashes b s) = without_slashes s.
Proof.
  revert b. induction s as [|c s IH]; intros b; [reflexivity|].
  cbn [collapse_slashes without_slashes]. destruct (c =? "/")%char eqn:Hc.
  - destruct b; [apply IH|]. cbn [without_slashes]. rewrite Hc. apply IH.
  - cbn [without_slashes]. rewrite Hc, IH. reflexivity.
Qed.

Lemma collapse_fixed (s : string) :
  double_slash s = false -> collapse_slashes false s = s.
Proof.
  induction s as [|c s IH]; [reflexivity|].
  cbn [collapse_slashes]. destruct (c =? "/")%char eqn:Hc.
  - destruct s as [|d t]; [reflexivity|].
    rewrite double_slash_cons, Hc. cbn [andb].
    destruct (d =? "/")%char eqn:Hd; [discriminate|].
    cbn [orb]. intros Ht. f_equal.
    cbn [collapse_slashes]. rewrite Hd.
    specialize (IH Ht). cbn [collapse_slashes] in IH. rewrite Hd in IH.
    exact IH.
  - intros Hs. f_equal. apply IH.
    destruct s as [|d t]; [reflexivity|].
    rewrite double_slash_cons, Hc in Hs. exact Hs.
Qed.

(** X1.  The URL middleware leaves no two slashes in a row, changes
    nothing else (the other characters are kept, in order), leaves alone a
    URL that has no doubled slash, and applying it twice is applying it
    once. *)
Theorem normalize_url_collapses_slashes (url : string) :
  double_slash (normalize_url url) = false
  /\ without_slashes (normalize_url url) = without_slashes url
  /\ normalize_url (normalize_url url) = normalize_url url
  /\ (double_slash url = false -> normalize_url url = url)
  /\ (String.length (normalize_url url) <= String.length url)%nat.
Proof.
  unfold normalize_url. split; [apply collapse_no_double_slash|].
  split; [apply collapse_without_slashes|].
  split; [apply collapse_idempotent|]. split; [apply collapse_fixed|].
  apply collapse_length.
Qed.

Lemma normalize_url_collapses_slashes_witness :
  double_slash "/api/entries/user_1" = false
  /\ normalize_url "/api/entries/user_1" = "/api/entries/user_1".
Proof.
  split; [reflexivity|].
  apply (normalize_url_collapses_slashes "/api/entries/user_1").
  reflexivity.
Defined.

(** ** The fee helper on whole-dollar fees *)

Lemma fees_exact_checked :
  all_from fees_exact 0 (Z.to_nat 100001) = true.
Proof. vm_compute. reflexivity. Qed.

(** X2.  For every whole-dollar fee from 0 to 100000 the binary
    arithmetic of [calculateFees] loses nothing: the surcharge is the
    least integer at least 4% of the fee, and the total is the fee plus
    that surcharge. *)
Theorem calculateFees_exact_on_dollars (n : Z) :
  0 <= n <= 100000 ->
  PrimFloat.eqb (fees_stripeFee (calculateFees (JS.JNumber (float_of_Z n))))
                (float_of_Z (exact_surcharge n)) = true
  /\ (exists total,
         fees_totalAmount (calculateFees (JS.JNumber (float_of_Z n)))
         = JS.JNumber total
         /\ PrimFloat.eqb total (float_of_Z (n + exact_surcharge n)) = true)
  /\ 100 * (exact_surcharge n - 1) < 4 * n <= 100 * exact_surcharge n.
Proof.
  intros Hn.
  assert (Hexact : fees_exact n = true).
  { apply (all_from_spec fees_exact _ 0 fees_exact_checked).
    rewrite Z2Nat.id by lia. lia. }
  unfold fees_exact in Hexact. apply andb_true_iff in Hexact.
  destruct Hexact as [Hfee Htotal]. split; [exact Hfee|]. split.
  - destruct (fees_totalAmount (calculateFees (JS.JNumber (float_of_Z n))))
      as [|total| | |]; try discriminate.
    exists total. split; [reflexivity|exact Htotal].
  - unfold exact_surcharge.
    pose proof (Z.div_mod (4 * n + 99) 100 ltac:(lia)).
    pose proof (Z.mod_pos_bound (4 * n + 99) 100 ltac:(lia)). lia.
Qed.

Lemma calculateFees_exact_on_dollars_witness :
  PrimFloat.eqb (fees_stripeFee (calculateFees (JS.JNumber (float_of_Z 1250))))
                (float_of_Z 50) = true.
Proof.
  exact (proj1 (calculateFees_exact_on_dollars 1250 ltac:(lia))).
Defined.

(** ** Invariants of the stored entries *)

Lemma includes_In (l : list string) (s : string) :
  Schema.includes l s = true -> In s l.
Proof.
  unfold Schema.includes. intros H. apply existsb_exists in H.
  destruct H as (x & Hin & Hx). apply String.eqb_eq in Hx. congruence.
Qed.

Lemma truthy_Some (v : option string) (s : string) :
  JS.truthy v = true -> v = Some s -> s <> "".
Proof.
  intros H ->. cbn in H. apply negb_true_iff in H.
  apply String.eqb_neq. exact H.
Qed.

Lemma valid_document_stored (id : N) (now : Z) (d : EntryData) (e : Entry) :
  Schema.valid d = true ->
  Schema.document id now d = Some e ->
  stored_valid e.
Proof.
  intros Hvalid Hdoc. unfold Schema.valid in Hvalid.
  repeat rewrite andb_true_iff in Hvalid.
  destruct Hvalid
    as [[[[[[[[[[[[[Huid Hcat1] Hcat2] Hty1] Hty2] Htt1] Htt2] Htt3] Hds]
              Htxt] Hfd] Hfu] Hvu] Hpi].
  destruct (document_fields id now d e Hdoc)
    as (_ & Htype & Hpid & _).
  destruct (document_more_fields id now d e Hdoc)
    as (Huser & Hcat & Htitle & Hdesc & Htext & Hvideo & _).
  unfold Schema.enum, Schema.minlength, Schema.maxlength in *.
  rewrite Hcat in Hcat2. rewrite Htype in Hty2. rewrite Htitle in Htt2, Htt3.
  cbv beta iota in Hcat2, Hty2, Htt2, Htt3.
  apply Nat.leb_le in Htt2. apply Nat.leb_le in Htt3.
  unfold stored_valid. repeat split.
  - exact (truthy_Some _ _ Huid Huser).
  - apply includes_In. exact Hcat2.
  - apply includes_In. exact Hty2.
  - exact Htt2.
  - exact Htt3.
  - intros x Hx. rewrite Hdesc in Hx. rewrite Hx in Hds.
    cbv beta iota in Hds. apply Nat.leb_le. exact Hds.
  - exact (truthy_Some _ _ Hpi Hpid).
  - rewrite Htext in H0. rewrite H0 in Htxt. cbn [Schema.when_set] in Htxt.
    unfold Schema.textContent_validator in Htxt. rewrite Htype, H in Htxt.
    cbn in Htxt. apply andb_true_iff in Htxt. apply Nat.leb_le. apply Htxt.
  - rewrite Htext in H0. rewrite H0 in Htxt. cbn [Schema.when_set] in Htxt.
    unfold Schema.textContent_validator in Htxt. rewrite Htype, H in Htxt.
    cbn in Htxt. apply andb_true_iff in Htxt. apply Nat.leb_le. apply Htxt.
  - rewrite Hvideo in H0. rewrite H0 in Hvu. cbn [Schema.when_set] in Hvu.
    unfold Schema.videoUrl_validator in Hvu. rewrite Htype, H in Hvu.
    cbn in Hvu. intros ->. cbn in Hvu. discriminate.
  - rewrite Hvideo in H0. rewrite H0 in Hvu. cbn [Schema.when_set] in Hvu.
    unfold Schema.videoUrl_validator in Hvu. rewrite Htype, H in Hvu.
    cbn in Hvu. destruct (url == ""); cbn in Hvu; [discriminate|exact Hvu].
Qed.



(** Whatever holds of the documents built from valid data and is kept by
    the webhook update holds of every stored entry. *)
Lemma documents_Forall (P : Entry -> Prop) (now : Z) :
  (forall id d e,
      data_ok d -> data_typed d -> Schema.valid d = true ->
      Schema.document id now d = Some e -> P e) ->
  forall ds, Forall data_ok ds -> Forall data_typed ds ->
  forall id es, Model.documents id now ds = Some es -> Forall P es.
Proof.
  intros HP ds Hok. induction Hok as [|d ds Hd Hds IH]; intros Htyped id es.
  - intros H. inversion H. constructor.
  - inversion Htyped as [|? ? Htd Htds]; subst.
    cbn [Model.documents]. destruct (Schema.valid d) eqn:Hvalid;
      [|discriminate].
    destruct (Schema.document id now d) as [e|] eqn:Hdoc; [|discriminate].
    destruct (Model.documents (id + 1) now ds) as [es'|] eqn:Hrest;
      [|discriminate].
    intros H. inversion H; subst. constructor.
    + exact (HP id d e Hd Htd Hvalid Hdoc).
    + exact (IH Htds _ _ Hrest).
Qed.

Lemma reachable_Forall (P : Entry -> Prop) :
  (forall id now d e,
      data_ok d -> data_typed d -> Schema.valid d = true ->
      Schema.document id now d = Some e -> P e) ->
  forall db, reachable db -> Forall P (docs db).
Proof.
  intros Hnew db Hreach. unfold reachable in Hreach.
  induction Hreach as [|db1 db2 Hsteps IH [env now r]]; [constructor|].
  destruct (handle_change_by env now db1 r)
    as [|now' ds es Hok Htyped Hdocs|id]; cbn [docs].
  - exact IH.
  - apply Forall_app. split; [exact IH|].
    apply (documents_Forall P now' (fun id d e => Hnew id now' d e)
                            ds Hok Htyped _ _ Hdocs).
  - apply Forall_filter_keep. exact IH.
Qed.

Lemma document_typed id now d e :
  data_ok d -> data_typed d ->
  Schema.document id now d = Some e -> content_typed e.
Proof.
  intros (_ & Hfile & _) (Htext & Hvideo & Hnofile & Hallfile) Hdoc.
  destruct (document_fields id now d e Hdoc)
    as (_ & Htype & _ & _ & _ & _ & Hdata & Hurl & _).
  destruct (document_more_fields id now d e Hdoc)
    as (_ & _ & _ & _ & Htxt & Hvid & Hname & Hty & Hsize & _).
  unfold content_typed.
  rewrite Htxt, Hvid, Hdata, Hname, Hty, Hsize, Hurl.
  split; [|split; [|split; [|split]]].
  - intros H. specialize (Htext H). congruence.
  - intros H. specialize (Hvideo H). congruence.
  - intros H. destruct (Hfile H) as [Hdeck _]. congruence.
  - exact Hnofile.
  - exact Hallfile.
Qed.

(** X3.  In every reachable collection each entry meets the constraints
    of the schema: an owner, a category and a type of the enumerations, a
    title of 5 to 100 characters, a description of at most 1000, a payment
    intent id; a text entry that has a body has 100 to 2000 words, and a
    video entry that has a URL has one that the pattern of the schema
    accepts.  The pattern looks at the start of the URL only, so the host
    need not be one of those it names: [https://youtube.com.evil.example/x]
    is accepted. *)
Theorem stored_entries_meet_schema (db : DB) :
  reachable db -> Forall stored_valid (docs db).
Proof.
  apply reachable_Forall.
  intros id now d e _ _ Hvalid Hdoc.
  exact (valid_document_stored id now d e Hvalid Hdoc).
Qed.

Lemma stored_entries_meet_schema_witness :
  Forall stored_valid (docs db_with_deck) /\ List.length (docs db_with_deck) = 2%nat.
Proof.
  split; [|reflexivity].
  exact (stored_entries_meet_schema db_with_deck db_with_deck_reachable).
Defined.

(** X4.  In every reachable collection the content of an entry goes with
    its type: a text body only on a text entry, a video URL only on a
    video entry, file data only on a pitch deck; and the file name, type
    and size are present exactly when the file data is. *)
Theorem stored_content_matches_type (db : DB) :
  reachable db -> Forall content_typed (docs db).
Proof.
  apply reachable_Forall.
  intros id now d e Hok Htyped _ Hdoc.
  exact (document_typed id now d e Hok Htyped Hdoc).
Qed.

Lemma stored_content_matches_type_witness :
  Forall content_typed (docs db_with_deck)
  /\ map entryType (docs db_with_deck) = ["video"; "pitch-deck"].
Proof.
  split; [|reflexivity].
  exact (stored_content_matches_type db_with_deck db_with_deck_reachable).
Defined.

(** ** Identifiers *)

Lemma documents_ids (now : Z) (ds : list EntryData) :
  forall id es,
    Model.documents id now ds = Some es ->
    NoDup (map _id es) /\ Forall (fun i => (id <= i)%N) (map _id es).
Proof.
  induction ds as [|d ds IH]; intros id es.
  - intros H. inversion H. split; constructor.
  - cbn [Model.documents]. destruct (Schema.valid d); [|discriminate].
    destruct (Schema.document id now d) as [e|] eqn:Hdoc; [|discriminate].
    destruct (Model.documents (id + 1) now ds) as [es'|] eqn:Hrest;
      [|discriminate].
    intros H. inversion H; subst.
    destruct (document_fields id now d e Hdoc) as [Hid _].
    destruct (IH _ _ Hrest) as [Hnodup Hlow]. cbn [map]. split.
    + constructor; [|exact Hnodup]. intros Hin.
      rewrite Forall_forall in Hlow. specialize (Hlow _ Hin). lia.
    + constructor; [lia|]. eapply Forall_impl; [|exact Hlow].
      cbn. intros; lia.
Qed.

Lemma NoDup_map_filter (p : Entry -> bool) (l : list Entry) :
  NoDup (map _id l) -> NoDup (map _id (filter p l)).
Proof.
  induction l as [|e l IH]; cbn [map filter]; [trivial|].
  intros H. inversion H as [|? ? Hnotin Hrest]; subst.
  destruct (p e); [|exact (IH Hrest)].
  cbn [map]. constructor; [|exact (IH Hrest)].
  intros Hin. apply Hnotin. apply in_map_iff in Hin.
  destruct Hin as (x & Hx & Hxin). apply filter_In in Hxin.
  apply in_map_iff. exists x. split; [exact Hx|apply Hxin].
Qed.


Lemma change_by_NoDup db db' :
  change_by db db' -> ids_issued db ->
  NoDup (map _id (docs db)) -> NoDup (map _id (docs db')).
Proof.
  intros [|now ds es _ _ Hdocs|id] Hissued Hnodup; cbn [docs].
  - exact Hnodup.
  - destruct (documents_ids now ds _ _ Hdocs) as [Hnew Hlow].
    rewrite map_app. apply NoDup_app; [exact Hnodup|exact Hnew|].
    intros i Hold Hin. unfold ids_issued in Hissued.
    rewrite Forall_forall in Hissued, Hlow.
    apply in_map_iff in Hold. destruct Hold as (e & <- & He).
    specialize (Hissued e He). specialize (Hlow _ Hin). lia.
  - apply NoDup_map_filter. exact Hnodup.
Qed.

Lemma same_id_same_entry (l : list Entry) (e e' : Entry) :
  NoDup (map _id l) -> In e l -> In e' l -> _id e = _id e' -> e = e'.
Proof.
  induction l as [|x l IH]; [contradiction|].
  cbn [map]. intros Hnodup He He' Hid.
  inversion Hnodup as [|? ? Hnotin Hrest]; subst.
  destruct He as [->|He], He' as [->|He'].
  - reflexivity.
  - contradiction Hnotin. rewrite Hid. apply in_map. exact He'.
  - contradiction Hnotin. rewrite <- Hid. apply in_map. exact He.
  - exact (IH Hrest He He' Hid).
Qed.

Lemma reachable_ids (db : DB) :
  reachable db ->
  NoDup (map _id (docs db))
  /\ Forall (fun e => (_id e < next_id db)%N) (docs db).
Proof.
  intros Hreach. unfold reachable in Hreach.
  induction Hreach as [|db1 db2 Hsteps IH [env now r]].
  - split; constructor.
  - destruct IH as [Hnodup Hissued].
    pose proof (handle_change_by env now db1 r) as Hby. split.
    + exact (change_by_NoDup _ _ Hby Hissued Hnodup).
    + exact (change_ids_issued _ _ (change_by_change _ _ Hby) Hissued).
Qed.

(** ** Round trips *)

Lemma findById_fresh (db : DB) (e : Entry) :
  ids_issued db -> _id e = next_id db ->
  find (fun x => (_id x =? _id e)%N) (docs db ++ [e]) = Some e.
Proof.
  intros Hissued Hid. rewrite find_app_none.
  - cbn [find]. rewrite N.eqb_refl. reflexivity.
  - destruct (find (fun x => (_id x =? _id e)%N) (docs db)) as [x|] eqn:Hx;
      [|reflexivity].
    apply find_some in Hx. destruct Hx as [Hin Heq].
    apply N.eqb_eq in Heq. unfold ids_issued in Hissued.
    rewrite Forall_forall in Hissued. specialize (Hissued x Hin). lia.
Qed.

(** X6.  A submission answered 201 can be read back: the entry id of the
    answer finds, in the new collection, an entry with the owner,
    category, type, title, description and payment intent of the request,
    the status [succeeded], the review status [submitted] and the time of
    the request; [GET /api/entry/:id] answers with that entry, field by
    field, but for the file data, which is left out, and for the file URL
    of a pitch deck with file data, which is the retrieval URL; and the
    entries stored before are still there, in front of it. *)
Theorem submitted_entry_is_read_back
        (env : Env) (now : Z) (db db' : DB) (req : EntryRequest) (id : N) :
  reachable db ->
  POST_entries env now db req = (status_json 201 (Submitted id), db') ->
  exists e listed,
    docs db' = (docs db ++ [e])%list
    /\ Model.findById id db' = Returned (Some e)
    /\ GET_entry env db' id = json (OneEntry listed)
    /\ listed_as e listed
    /\ r_userId req = Some (userId e)
    /\ r_category req = Some (category e)
    /\ r_entryType req = Some (entryType e)
    /\ r_title req = Some (title e)
    /\ r_description req = description e
    /\ r_paymentIntentId req = Some (paymentIntentId e)
    /\ paymentStatus e = succeeded
    /\ status e = submitted
    /\ createdAt e = now.
Proof.
  intros Hreach Hpost.
  destruct (reachable_invariants db Hreach) as [_ Hissued].
  destruct (POST_entries_created env now db req id db' Hpost)
    as (st & pid & file & paymentIntent & e
        & Hv & _ & Hval & Hret & Hsave & Hid).
  destruct Hv as (file' & _ & Hconn & _).
  pose proof (save_document _ _ _ _ _ Hsave) as Hdoc.
  destruct (save_change _ _ _ _ _ (entryData_ok _ _ _ _) Hsave)
    as (_ & Hdocs & _).
  destruct (document_ok _ _ _ _ (entryData_ok _ _ _ _) Hdoc)
    as (_ & Hsucc & Hnext).
  destruct (document_fields _ _ _ _ Hdoc) as (_ & Htype & Hpid & _).
  destruct (document_more_fields _ _ _ _ Hdoc)
    as (Huser & Hcat & Htitle & Hdesc & _ & _ & _ & _ & _
        & Hcreated & _ & _ & Hstatus).
  cbn in Huser, Hcat, Htitle, Hdesc, Htype, Hpid, Hstatus.
  assert (Hfound : Model.findById id db' = Returned (Some e)).
  { cbn [Model.findById]. unfold Model.find_id. rewrite Hdocs, <- Hid.
    f_equal. apply findById_fresh; assumption. }
  assert (Hpid' : r_paymentIntentId req = Some (paymentIntentId e)).
  { unfold validate_submission in Hval.
    destruct (r_paymentIntentId req) as [p|]; [|discriminate].
    repeat case_match_in Hval; inversion Hval; subst. congruence. }
  exists e, (transform e).
  split; [exact Hdocs|]. split; [exact Hfound|].
  split; [unfold GET_entry; rewrite Hconn, Hfound; reflexivity|].
  split; [apply transform_listed|].
  repeat split; try assumption; try congruence.
Qed.

Lemma submitted_entry_is_read_back_witness :
  exists e listed,
    Model.findById 0 db_submitted = Returned (Some e)
    /\ GET_entry sample_env db_submitted 0 = json (OneEntry listed)
    /\ listed_as e listed
    /\ userId e = "user_1" /\ title e = "A short film"
    /\ paymentStatus e = succeeded.
Proof.
  destruct (submitted_entry_is_read_back sample_env 1000 empty_db db_submitted
              (video_request "pi_paid") 0%N (steps_refl empty_db) eq_refl)
    as (e & listed & _ & Hfound & Hget & Hlisted & Huser & _ & _ & Htitle
        & _ & _ & Hsucc & _).
  exists e, listed. cbn in Huser, Htitle.
  split; [exact Hfound|]. split; [exact Hget|]. split; [exact Hlisted|].
  split; [congruence|]. split; [congruence|exact Hsucc].
Defined.

Lemma upload_returns env part file :
  upload env part = Returned file -> file = part.
Proof.
  unfold upload. destruct part as [f|]; [|intros H; inversion H; reflexivity].
  destruct (fileFilter f); [|discriminate].
  destruct (fileSize_limit env <=? size f); [discriminate|].
  intros H. inversion H. reflexivity.
Qed.

Lemma validate_submission_pid env req file pid :
  validate_submission env req file = inr pid ->
  r_paymentIntentId req = Some pid /\ pid <> "".
Proof.
  unfold validate_submission.
  destruct (r_paymentIntentId req) as [p|]; [|discriminate].
  destruct (p == "") eqn:Hp.
  - rewrite !orb_true_r. discriminate.
  - intros H. repeat case_match_in H; inversion H; subst.
    split; [reflexivity|]. apply String.eqb_neq. exact Hp.
Qed.

(** X7.  A pitch deck that was accepted can be downloaded: after a 201
    for a request with a non-empty file, and provided no older entry
    carries the same payment intent id, [GET /api/file/<id>] answers with
    the uploaded content under its declared type, name and size. *)
Theorem accepted_deck_is_served
        (env : Env) (now : Z) (db db' : DB) (req : EntryRequest) (id : N)
        (file : File) (pid : string) :
  POST_entries env now db req = (status_json 201 (Submitted id), db') ->
  r_entryType req = Some "pitch-deck" ->
  r_file req = Some file ->
  base64 file <> "" ->
  r_paymentIntentId req = Some pid ->
  Model.findOne pid db = None ->
  GET_file env db' pid
  = json (FileContent (Some (mimetype file)) (Some (originalname file))
                      (Some (size file)) (base64 file)).
Proof.
  intros Hpost Htype Hfile Hdata Hpid Hnone.
  destruct (POST_entries_created env now db req id db' Hpost)
    as (st & pid' & file' & paymentIntent & e
        & Hv & Hup & Hval & _ & Hsave & _).
  destruct Hv as (_ & _ & Hconn & _).
  apply upload_returns in Hup. rewrite Hfile in Hup. subst file'.
  destruct (validate_submission_pid _ _ _ _ Hval) as [Hpid' _].
  assert (pid' = pid) by congruence. subst pid'.
  pose proof (save_document _ _ _ _ _ Hsave) as Hdoc.
  destruct (save_change _ _ _ _ _ (entryData_ok _ _ _ _) Hsave)
    as (_ & Hdocs & _).
  destruct (document_fields _ _ _ _ Hdoc)
    as (_ & _ & Hp & _ & _ & _ & Hfd & _).
  destruct (document_more_fields _ _ _ _ Hdoc)
    as (_ & _ & _ & _ & _ & _ & Hname & Hty & Hsize & _).
  unfold entryData in Hfd, Hname, Hty, Hsize, Hp.
  cbn [d_fileData d_fileName d_fileType d_fileSize d_paymentIntentId]
    in Hfd, Hname, Hty, Hsize, Hp.
  rewrite Htype in Hfd, Hname, Hty, Hsize.
  cbn in Hfd, Hname, Hty, Hsize. injection Hp as Hp'.
  unfold GET_file, Model.findOne. rewrite Hconn, Hdocs. cbn [negb].
  unfold Model.findOne in Hnone. rewrite (find_app_none _ _ _ Hnone).
  cbn [find]. rewrite <- Hp', String.eqb_refl, Hfd, Hty, Hname, Hsize.
  rewrite (eqb_neq_false _ _ Hdata). reflexivity.
Qed.

Lemma accepted_deck_is_served_witness :
  GET_file sample_env
           (snd (POST_entries sample_env 1500 empty_db
                              (deck_request (Some pdf_file))))
           "pi_paid"
  = json (FileContent (Some "application/pdf") (Some "deck.pdf") (Some 10)
                      "JVBERi0xLjQ=").
Proof.
  apply (accepted_deck_is_served sample_env 1500 empty_db _
           (deck_request (Some pdf_file)) 0%N pdf_file "pi_paid");
    try reflexivity.
  cbn. discriminate.
Defined.

(** The precondition of X7 is needed: [findOne] serves the oldest entry
    of an intent, here the video entry that was paid with the same
    intent as the deck. *)
Example older_entry_hides_the_deck :
  map paymentIntentId (docs db_with_deck) = ["pi_paid"; "pi_paid"]
  /\ GET_file sample_env db_with_deck "pi_paid"
     = status_json 404 (Failure "File not found" None).
Proof. split; reflexivity. Qed.

(** ** Deletion and the other entries *)

Lemma filter_other_ids_length (id : N) (l : list Entry) :
  NoDup (map _id l) ->
  (List.length l
   <= List.length (filter (fun e => negb (_id e =? id)%N) l) + 1)%nat.
Proof.
  induction l as [|x l IH]; [cbn; lia|].
  cbn [map filter]. intros Hnodup.
  inversion Hnodup as [|? ? Hnotin Hrest]; subst.
  destruct (_id x =? id)%N eqn:Hx; cbn [negb List.length].
  - apply N.eqb_eq in Hx.
    assert (Hall : filter (fun e => negb (_id e =? id)%N) l = l).
    { apply forallb_filter_id. apply forallb_forall. intros y Hy.
      apply negb_true_iff. apply N.eqb_neq. intros Heq.
      apply Hnotin. rewrite Hx, <- Heq. apply in_map. exact Hy. }
    rewrite Hall. lia.
  - specialize (IH Hrest). lia.
Qed.

(** X8.  Whatever the delete request, also one whose [:id] is no
    ObjectId, in a reachable collection it removes at most one entry, adds
    none, and never removes an entry whose owner is not the [userId] of the
    request body. *)
Theorem delete_spares_other_owners
        (env : Env) (db : DB) (id : Id) (body_userId : option string) :
  reachable db ->
  (forall e, In e (docs (snd (DELETE_entries env db id body_userId))) ->
             In e (docs db))
  /\ (forall e, In e (docs db) -> body_userId <> Some (userId e) ->
                In e (docs (snd (DELETE_entries env db id body_userId))))
  /\ (forall e, In e (docs db) -> ObjectId (_id e) <> id ->
                In e (docs (snd (DELETE_entries env db id body_userId))))
  /\ (List.length (docs db)
      <= List.length (docs (snd (DELETE_entries env db id body_userId))) + 1)%nat
  /\ next_id (snd (DELETE_entries env db id body_userId)) = next_id db.
Proof.
  intros Hreach. destruct (reachable_ids db Hreach) as [Hnodup _].
  unfold DELETE_entries, delete_entry.
  destruct (connected env); cbn [negb snd];
    [|repeat split; auto; lia].
  destruct id as [n|]; cbn [Model.findById Model.findByIdAndDelete snd];
    [|repeat split; auto; lia].
  destruct (Model.find_id n db) as [entry|] eqn:Hfound;
    cbn [snd]; [|repeat split; auto; lia].
  destruct (strict_eq body_userId (userId entry)) eqn:Howner;
    cbn [negb snd]; [|repeat split; auto; lia].
  apply strict_eq_true in Howner.
  destruct (find_id_In _ _ _ Hfound) as [Hentry Hid].
  unfold Model.delete_id. cbn [docs next_id].
  split; [|split; [|split; [|split]]].
  - intros e He. apply filter_In in He. apply He.
  - intros e He Hother. apply filter_In. split; [exact He|].
    apply negb_true_iff. apply N.eqb_neq. intros Heq.
    assert (e = entry)
      by (apply (same_id_same_entry (docs db)); congruence).
    subst e. contradiction.
  - intros e He Hne. apply filter_In. split; [exact He|].
    apply negb_true_iff. apply N.eqb_neq. congruence.
  - apply filter_other_ids_length. exact Hnodup.
  - reflexivity.
Qed.

Lemma delete_spares_other_owners_witness :
  List.length (docs (snd (DELETE_entries sample_env db_with_deck 1
                                         (Some "user_1")))) = 1%nat
  /\ (List.length (docs db_with_deck)
      <= List.length (docs (snd (DELETE_entries sample_env db_with_deck 1
                                                (Some "user_1")))) + 1)%nat
  /\ snd (DELETE_entries sample_env db_with_deck NotObjectId (Some "user_1"))
     = db_with_deck.
Proof.
  split; [reflexivity|]. split; [|reflexivity].
  apply (delete_spares_other_owners sample_env db_with_deck 1 (Some "user_1")
           db_with_deck_reachable).
Defined.

(** ** Availability checks *)

(** X9.  While the database is not connected no route behind
    [checkMongoDBConnection] touches the collection: the read, delete and
    test-entry routes answer 503, a submission answers 503 or, when the
    upload itself was refused, 400; creating a payment intent does not use
    the collection at all.  (The webhook route is not behind the check.) *)
Theorem disconnected_database_is_not_touched
        (env : Env) (now : Z) (db : DB) (r : Request) :
  connected env = false ->
  match r with
  | Webhook _ _ => True
  | CreatePaymentIntent _ => snd (handle env now db r) = db
  | SubmitEntry _ =>
      snd (handle env now db r) = db
      /\ (code (fst (handle env now db r)) = 503
          \/ code (fst (handle env now db r)) = 400)
  | _ =>
      snd (handle env now db r) = db
      /\ code (fst (handle env now db r)) = 503
  end.
Proof.
  intros Hconn.
  destruct r as [req|req|user|user|pid|user|id|id body_userId|parsed sig];
    cbn [handle fst snd]; try exact I; try reflexivity.
  - unfold POST_entries. destruct (upload env (r_file req)); rewrite ?Hconn;
      cbn; auto.
  - unfold GET_create_test_entry. rewrite Hconn. cbn. auto.
  - unfold GET_create_test_entries. rewrite Hconn. cbn. auto.
  - unfold GET_file. rewrite Hconn. cbn. auto.
  - unfold GET_entries. rewrite Hconn. cbn. auto.
  - unfold GET_entry. rewrite Hconn. cbn. auto.
  - unfold DELETE_entries. rewrite Hconn. cbn. auto.
Qed.

Lemma disconnected_database_is_not_touched_witness :
  snd (handle offline_env 3000 db_with_deck (DeleteEntry 1 (Some "user_1")))
  = db_with_deck
  /\ code (fst (handle offline_env 3000 db_with_deck
                       (DeleteEntry 1 (Some "user_1")))) = 503.
Proof.
  exact (disconnected_database_is_not_touched offline_env 3000 db_with_deck
           (DeleteEntry 1 (Some "user_1")) eq_refl).
Defined.

(** X10.  Without an initialised gateway nothing is created: the
    payment-intent route answers 503 and calls nothing, a submission
    stores nothing and answers 503 (or 400 when the upload was refused, or
    503 for the database), and a webhook delivery changes nothing,
    whatever its signature, and is answered 400 when its body was parsed
    and 500 when it could not be. *)
Theorem uninitialised_gateway_creates_nothing
        (env : Env) (now : Z) (db : DB) :
  stripe env = None ->
  (forall req,
      POST_create_payment_intent env req
      = (unavailable "Service unavailable: Stripe not initialized", []))
  /\ (forall req,
         snd (POST_entries env now db req) = db
         /\ (code (fst (POST_entries env now db req)) = 503
             \/ code (fst (POST_entries env now db req)) = 400))
  /\ (forall parsed sig,
         snd (POST_webhook env now db parsed sig) = db
         /\ code (fst (POST_webhook env now db parsed sig))
            = match parsed with AnObject => 400 | NotParsed _ => 500 end).
Proof.
  intros Hst. split; [|split].
  - intros req. unfold POST_create_payment_intent. rewrite Hst. reflexivity.
  - intros req. unfold POST_entries. rewrite Hst.
    destruct (upload env (r_file req)); [|cbn; auto].
    destruct (connected env); cbn; auto.
  - intros [|message] sig; [|split; reflexivity].
    destruct (POST_webhook_object env now db sig) as [message ->].
    split; reflexivity.
Qed.

Lemma uninitialised_gateway_creates_nothing_witness :
  POST_create_payment_intent starting_env
    {| i_category := Some "business"; i_entryType := Some "text" |}
  = (unavailable "Service unavailable: Stripe not initialized", []).
Proof.
  apply (uninitialised_gateway_creates_nothing starting_env 0 empty_db
           eq_refl).
Defined.

(** ** Validation of a submission *)

(** X11.  A submission that lacks one of [userId], [category],
    [entryType], [title] and [paymentIntentId], or has it empty, stores
    nothing; once the upload and the availability checks let it through it
    is answered 400 [Missing required fields], before the file of a pitch
    deck is looked at and whatever the gateway would say. *)
Theorem missing_field_is_rejected_first
        (env : Env) (now : Z) (db : DB) (req : EntryRequest) :
  present (r_userId req) && present (r_category req)
  && present (r_entryType req) && present (r_title req)
  && present (r_paymentIntentId req) = false ->
  snd (POST_entries env now db req) = db
  /\ (code (fst (POST_entries env now db req)) = 400
      \/ code (fst (POST_entries env now db req)) = 503)
  /\ (forall st file,
         upload env (r_file req) = Returned file ->
         connected env = true ->
         stripe env = Some st ->
         POST_entries env now db req
         = (status_json 400 (Failure "Missing required fields" None), db)).
Proof.
  intros Hmissing.
  assert (Hval : forall file,
             validate_submission env req file
             = inl (status_json 400 (Failure "Missing required fields" None))).
  { intros file. unfold validate_submission.
    destruct (r_paymentIntentId req) as [p|] eqn:Hp; [|reflexivity].
    replace (p == "") with (negb (present (Some p)))
      by (cbn; rewrite negb_involutive; reflexivity).
    destruct (present (r_userId req)), (present (r_category req)),
      (present (r_entryType req)), (present (r_title req)),
      (present (Some p)); cbn in Hmissing |- *;
      try reflexivity; discriminate. }
  unfold POST_entries, submit_entry.
  destruct (upload env (r_file req)) as [file|] eqn:Hup.
  - destruct (connected env); cbn [negb].
    + destruct (stripe env) as [st|].
      * rewrite Hval. cbn. repeat split; auto.
      * cbn. repeat split; auto; discriminate.
    + cbn. repeat split; auto; discriminate.
  - cbn. repeat split; auto; discriminate.
Qed.

Lemma missing_field_is_rejected_first_witness :
  POST_entries sample_env 1000 empty_db
    {| r_userId := Some "user_1"; r_category := Some "business";
       r_entryType := Some "pitch-deck"; r_title := Some "";
       r_description := None; r_textContent := None; r_videoUrl := None;
       r_paymentIntentId := Some "pi_paid"; r_file := None |}
  = (status_json 400 (Failure "Missing required fields" None), empty_db).
Proof.
  eapply (missing_field_is_rejected_first sample_env 1000 empty_db);
    reflexivity.
Defined.

(** ** Uploads *)

(** X12.  An attached file larger than the limit of the deployment
    (4 MiB when serverless, 25 MiB otherwise) makes any submission fail
    with 400, whatever the entry type, and stores nothing. *)
Theorem oversized_upload_is_refused
        (env : Env) (now : Z) (db : DB) (req : EntryRequest) (file : File) :
  r_file req = Some file ->
  size file > (if isVercelServerless env then 4194304 else 26214400) ->
  snd (POST_entries env now db req) = db
  /\ code (fst (POST_entries env now db req)) = 400
  /\ (fileFilter file = true ->
      POST_entries env now db req
      = (status_json 400 (Failure "File too large" None), db)).
Proof.
  intros Hfile Hsize. unfold POST_entries, upload. rewrite Hfile.
  assert (Hlimit : (fileSize_limit env <=? size file) = true).
  { apply Z.leb_le. unfold fileSize_limit, MB.
    destruct (isVercelServerless env); lia. }
  rewrite Hlimit. destruct (fileFilter file); cbn; repeat split; auto.
  discriminate.
Qed.

Lemma oversized_upload_is_refused_witness :
  POST_entries sample_env 1000 empty_db (deck_request (Some huge_pdf))
  = (status_json 400 (Failure "File too large" None), empty_db).
Proof.
  apply (oversized_upload_is_refused sample_env 1000 empty_db
           (deck_request (Some huge_pdf)) huge_pdf eq_refl);
    reflexivity.
Defined.

(** The limit itself is refused as well: busboy stops reading a file once
    as many bytes as the limit have come. *)
Example file_of_the_limit_is_refused :
  size exact_pdf = fileSize_limit sample_env
  /\ POST_entries sample_env 1000 empty_db (deck_request (Some exact_pdf))
     = (status_json 400 (Failure "File too large" None), empty_db)
  /\ fst (Second.POST_entries true sample_env 1000 empty_db
                              (deck_request (Some exact_pdf)))
     = status_json 400
         (Failure "File too large. Maximum size is 25MB." None).
Proof. repeat split. Qed.

Lemma includes_own_property (m : string) :
  Schema.includes allowedTypes m = true ->
  exists ext, JS.own_property allowedTypes_of_filter m = Some ext
              /\ ext <> "".
Proof.
  unfold Schema.includes, allowedTypes. cbn [existsb].
  rewrite !orb_true_iff. intros [H|[H|[H|H]]]; try discriminate;
    apply String.eqb_eq in H; subst m; cbn; eexists; split;
    try reflexivity; discriminate.
Qed.

(** X13.  The two checks of a pitch-deck file agree on PDF, PPT and
    PPTX: a type of the handler's list always passes the upload filter,
    and a file shorter than the size limit whose type is on the list
    passes both; a type that passes the filter and is not on the list is a
    name that every object inherits, and the handler refuses it. *)
Theorem upload_filter_and_handler_list (env : Env) (file : File) :
  (Schema.includes allowedTypes (mimetype file) = true ->
   fileFilter file = true)
  /\ (Schema.includes allowedTypes (mimetype file) = true ->
      size file < fileSize_limit env ->
      upload env (Some file) = Returned (Some file)
      /\ pitch_deck_check env (Some file) = None)
  /\ (fileFilter file = true ->
      Schema.includes allowedTypes (mimetype file) = false ->
      JS.own_property allowedTypes_of_filter (mimetype file) = None
      /\ JS.is_true (JS.Object_prototype_get (mimetype file)) = true
      /\ pitch_deck_check env (Some file)
         = Some (status_json 400
                   (Failure "Invalid file type. Only PDF, PPT, PPTX allowed."
                            None))).
Proof.
  assert (Hpass : Schema.includes allowedTypes (mimetype file) = true ->
                  fileFilter file = true).
  { intros H. destruct (includes_own_property _ H) as (ext & Hown & Hext).
    unfold fileFilter, JS.has_truthy. rewrite Hown.
    apply negb_true_iff. apply String.eqb_neq. exact Hext. }
  split; [exact Hpass|]. split.
  - intros Hlisted Hsize.
    assert (Hle : (fileSize_limit env <=? size file) = false).
    { apply Z.leb_gt. exact Hsize. }
    assert (Hgt : (size file >? fileSize_limit env) = false).
    { rewrite Z.gtb_ltb. apply Z.ltb_ge. lia. }
    unfold upload, pitch_deck_check.
    rewrite (Hpass Hlisted), Hlisted, Hle, Hgt. split; reflexivity.
  - intros Hfilter Hnot. unfold fileFilter, JS.has_truthy in Hfilter.
    destruct (JS.own_property allowedTypes_of_filter (mimetype file))
      as [ext|] eqn:Hown.
    + exfalso. unfold allowedTypes_of_filter in Hown.
      cbn [JS.own_property] in Hown.
      unfold Schema.includes, allowedTypes in Hnot. cbn [existsb] in Hnot.
      rewrite !orb_false_iff in Hnot. destruct Hnot as (H1 & H2 & H3 & _).
      rewrite String.eqb_sym in H1, H2, H3.
      rewrite H1, H2, H3 in Hown. discriminate.
    + split; [reflexivity|]. split; [exact Hfilter|].
      unfold pitch_deck_check. rewrite Hnot. reflexivity.
Qed.

Lemma upload_filter_and_handler_list_witness :
  upload sample_env (Some pdf_file) = Returned (Some pdf_file)
  /\ pitch_deck_check sample_env (Some pdf_file) = None.
Proof.
  apply (upload_filter_and_handler_list sample_env pdf_file);
    [reflexivity|cbn; lia].
Defined.

(** ** Webhook deliveries and the collection *)

Lemma settled_update_first p now l :
  map settled (Model.update_first p (Model.set_failed now) l)
  = map settled l.
Proof.
  induction l as [|e l IH]; [reflexivity|].
  cbn [Model.update_first]. destruct (p e); cbn [map]; [reflexivity|].
  rewrite IH. reflexivity.
Qed.

(** X14.  A webhook delivery of any kind never adds, removes or reorders
    entries.  In the first application a delivery, be its body a JSON
    object or unreadable, changes nothing.  In the second it never changes a field other than
    the payment status and the update timestamp, whether the delivery is
    verified or not; and a verified [payment_failed] event for an intent
    that no entry carries is answered [{ received: true }] and changes
    nothing at all. *)
Theorem webhook_keeps_the_entries
        (db_ready : bool) (env : Env) (now : Z) (db : DB) (is_json : bool)
        (rawBody : string) (sig : option string) :
  (forall parsed, snd (POST_webhook env now db parsed sig) = db)
  /\ map settled
         (docs (snd (Second.POST_webhook db_ready env now db
                                         is_json rawBody sig)))
     = map settled (docs db)
  /\ next_id (snd (Second.POST_webhook db_ready env now db
                                       is_json rawBody sig))
     = next_id db
  /\ (forall event,
         read_raw is_json rawBody ->
         verified_event env rawBody sig event ->
         Model.findOne (ev_object_id event) db = None ->
         Second.POST_webhook true env now db is_json rawBody sig
         = (json Received, db)).
Proof.
  split; [|split; [|split]].
  - intros parsed. apply POST_webhook_refused.
  - unfold Second.POST_webhook, Second.webhook.
    destruct (Second.raw_first is_json rawBody) as [payload|];
      [|reflexivity].
    destruct db_ready; [|reflexivity]. cbn [negb].
    destruct (stripe env) as [st|]; [|reflexivity].
    destruct (STRIPE_WEBHOOK_SECRET env) as [secret|]; [|reflexivity].
    destruct (secret == ""); [reflexivity|].
    destruct (constructEvent st payload sig secret) as [event|];
      [|reflexivity].
    cbn [snd].
    destruct (ev_type event == "payment_intent.payment_failed");
      [|reflexivity].
    unfold Model.findOneAndUpdate_failed. cbn [docs].
    apply settled_update_first.
  - unfold Second.POST_webhook, Second.webhook.
    destruct (Second.raw_first is_json rawBody) as [payload|];
      [|reflexivity].
    destruct db_ready; [|reflexivity]. cbn [negb].
    destruct (stripe env) as [st|]; [|reflexivity].
    destruct (STRIPE_WEBHOOK_SECRET env) as [secret|]; [|reflexivity].
    destruct (secret == ""); [reflexivity|].
    destruct (constructEvent st payload sig secret) as [event|];
      [|reflexivity].
    cbn [snd].
    destruct (ev_type event == "payment_intent.payment_failed"); reflexivity.
  - intros event Hread Hverified Hnone.
    rewrite (second_webhook_verified env now db is_json rawBody sig event
               Hread Hverified).
    destruct (ev_type event == "payment_intent.payment_failed");
      [|reflexivity].
    unfold Model.findOneAndUpdate_failed. unfold Model.findOne in Hnone.
    rewrite (update_first_absent _ _ _ Hnone). destruct db; reflexivity.
Qed.

Lemma webhook_keeps_the_entries_witness :
  Second.POST_webhook true sample_env 2000 empty_db true
                      "payment_intent.payment_failed" (Some "whsec_1")
  = (json Received, empty_db)
  /\ map paymentStatus (docs second_submitted) = [succeeded]
  /\ map paymentStatus (docs second_notified) = [failed]
  /\ map settled (docs second_notified) = map settled (docs second_submitted).
Proof.
  split; [|repeat split].
  apply (proj2 (proj2 (proj2
           (webhook_keeps_the_entries true sample_env 2000 empty_db true
              "payment_intent.payment_failed" (Some "whsec_1"))))
           {| ev_type := "payment_intent.payment_failed";
              ev_object_id := "pi_paid" |}).
  - split; [reflexivity|cbn; lia].
  - apply sample_verified.
  - reflexivity.
Defined.

(** ** The video URL validator *)

Lemma lowercase_app (a b : string) :
  Schema.lowercase (a ++ b) = (Schema.lowercase a ++ Schema.lowercase b)%string.
Proof.
  induction a as [|c a IH]; [reflexivity|].
  cbn [Schema.lowercase String.append]. rewrite IH. reflexivity.
Qed.

Lemma substring_all (s : string) : substring 0 (String.length s) s = s.
Proof.
  induction s as [|c s IH]; [reflexivity|]. cbn. rewrite IH. reflexivity.
Qed.

Lemma strip_empty (x : string) : Schema.strip "" x = Some x.
Proof.
  unfold Schema.strip. cbn [prefix String.length].
  replace (prefix "" x) with true by (destruct x; reflexivity).
  rewrite Nat.sub_0_r, substring_all. reflexivity.
Qed.

Lemma strip_cons (a b : ascii) (p x : string) :
  Schema.strip (String a p) (String b x)
  = if ascii_dec a b then Schema.strip p x else None.
Proof.
  unfold Schema.strip. cbn [prefix String.length substring Nat.sub].
  destruct (ascii_dec a b); reflexivity.
Qed.

Lemma strip_app (p x r t : string) :
  Schema.strip p x = Some r -> Schema.strip p (x ++ t) = Some (r ++ t)%string.
Proof.
  revert x. induction p as [|a p IH]; intros x.
  - rewrite !strip_empty. intros H. inversion H. reflexivity.
  - destruct x as [|b x]; [unfold Schema.strip; cbn; discriminate|].
    cbn [String.append]. rewrite !strip_cons.
    destruct (ascii_dec a b); [apply IH|discriminate].
Qed.

Lemma prefix_app (p x t : string) :
  prefix p x = true -> prefix p (x ++ t) = true.
Proof.
  revert x. induction p as [|a p IH]; intros x.
  - intros _. destruct (x ++ t)%string; reflexivity.
  - destruct x as [|b x]; [discriminate|].
    cbn [prefix String.append]. destruct (ascii_dec a b); [apply IH|trivial].
Qed.

Lemma optional_app (ps : list string) (x r t : string) :
  In r (Schema.optional ps x) -> In (r ++ t)%string (Schema.optional ps (x ++ t)).
Proof.
  unfold Schema.optional. rewrite !in_app_iff. intros [H|H].
  - left. apply in_flat_map in H. destruct H as (p & Hp & Hr).
    apply in_flat_map. exists p. split; [exact Hp|].
    destruct (Schema.strip p x) as [r0|] eqn:Hs; [|contradiction].
    destruct Hr as [<-|[]]. rewrite (strip_app _ _ _ t Hs). left. reflexivity.
  - right. destruct H as [<-|[]]. left. reflexivity.
Qed.

Lemma lowercase_idempotent (s : string) :
  Schema.lowercase (Schema.lowercase s) = Schema.lowercase s.
Proof.
  induction s as [|c s IH]; [reflexivity|].
  cbn [Schema.lowercase]. rewrite IH. f_equal.
  unfold Schema.lower.
  destruct ((65 <=? N_of_ascii c)%N && (N_of_ascii c <=? 90)%N) eqn:Hup;
    [|rewrite Hup; reflexivity].
  apply andb_true_iff in Hup. destruct Hup as [Hlo Hhi].
  apply N.leb_le in Hlo. apply N.leb_le in Hhi.
  rewrite N_ascii_embedding by lia.
  replace ((65 <=? N_of_ascii c + 32)%N && (N_of_ascii c + 32 <=? 90)%N)
    with false; [reflexivity|].
  symmetry. apply andb_false_iff. right. apply N.leb_gt. lia.
Qed.

(** X15.  The pattern of the video URL is tied to the start of the
    string only and ignores case: a URL that it accepts is still accepted
    with anything appended, and a URL is accepted exactly when its
    lower-case form is. *)
Theorem video_pattern_checks_the_start (v suffix : string) :
  (Schema.urlPattern_test v = true ->
   Schema.urlPattern_test (v ++ suffix) = true)
  /\ Schema.urlPattern_test (Schema.lowercase v) = Schema.urlPattern_test v.
Proof.
  split.
  - unfold Schema.urlPattern_test. rewrite lowercase_app.
    intros H. apply existsb_exists in H. destruct H as (r & Hr & Hhost).
    apply in_flat_map in Hr. destruct Hr as (x & Hx & Hr).
    apply existsb_exists in Hhost. destruct Hhost as (h & Hh & Hpre).
    apply existsb_exists. exists (r ++ Schema.lowercase suffix)%string. split.
    + apply in_flat_map. exists (x ++ Schema.lowercase suffix)%string.
      split; apply optional_app; assumption.
    + apply existsb_exists. exists h. split; [exact Hh|].
      apply prefix_app. exact Hpre.
  - unfold Schema.urlPattern_test. rewrite lowercase_idempotent. reflexivity.
Qed.

Lemma video_pattern_checks_the_start_witness :
  Schema.urlPattern_test "https://youtube.com.example.org/x" = true.
Proof.
  apply (proj1 (video_pattern_checks_the_start "https://youtube.com"
                  ".example.org/x")).
  reflexivity.
Defined.

(** ** The test-entry routes of this revision *)

Lemma placeholder_text_is_refused (d : EntryData) :
  d_entryType d = Some "text" ->
  (d_textContent d
   = Some (JS.code_units
             (repeat_string "This is a comprehensive business strategy..." 2))
   \/ d_textContent d
      = Some (JS.code_units
                (repeat_string
                   "This business strategy focuses on digital transformation..."
                   3))) ->
  Schema.valid d = false.
Proof.
  intros Htype Htext. unfold Schema.valid.
  assert (Hv : Schema.when_set (Schema.textContent_validator d)
                               (d_textContent d) = false).
  { unfold Schema.textContent_validator.
    rewrite (proj2 (strict_eq_true _ _) Htype).
    destruct Htext as [-> | ->]; vm_compute; reflexivity. }
  rewrite Hv, andb_false_r. reflexivity.
Qed.

(** X16.  In this revision the two test-entry routes never store
    anything: the sample texts are placeholders of a dozen and of twenty
    words, the word-count validator refuses them, and the answer is 500
    (or 503 without the database), whatever the user id and the time. *)
Theorem placeholder_test_entries_are_never_stored
        (env : Env) (now : Z) (db : DB) (user : string) :
  snd (GET_create_test_entry env now db user) = db
  /\ snd (GET_create_test_entries env now db user) = db
  /\ (code (fst (GET_create_test_entry env now db user)) = 500
      \/ code (fst (GET_create_test_entry env now db user)) = 503)
  /\ (code (fst (GET_create_test_entries env now db user)) = 500
      \/ code (fst (GET_create_test_entries env now db user)) = 503).
Proof.
  assert (H1 : Model.save now db (sample_entry user now)
               = Thrown "Entry validation failed").
  { unfold Model.save. rewrite placeholder_text_is_refused; [reflexivity| |].
    - reflexivity.
    - left. reflexivity. }
  assert (H2 : Model.insertMany now db (testEntries user now)
               = Thrown "Entry validation failed").
  { unfold Model.insertMany, testEntries. cbn [Model.documents].
    rewrite placeholder_text_is_refused; [reflexivity| |].
    - reflexivity.
    - right. reflexivity. }
  unfold GET_create_test_entry, GET_create_test_entries. rewrite H1, H2.
  destruct (connected env); cbn; auto.
Qed.

(** ** Calls of the gateway when an intent is requested *)

(** X17.  [POST /api/create-payment-intent] calls
    [paymentIntents.create] at most once; it does not call it when it
    answers 400 or 503, in particular when [category] or [entryType] is
    missing or empty; and when it does call it, it asks for US dollars and
    answers 200 with the client secret of the gateway or 500 with the
    gateway's error. *)
Theorem payment_intent_is_created_at_most_once
        (env : Env) (req : IntentRequest) :
  (List.length (snd (POST_create_payment_intent env req)) <= 1)%nat
  /\ (code (fst (POST_create_payment_intent env req)) = 400
      \/ code (fst (POST_create_payment_intent env req)) = 503 ->
      snd (POST_create_payment_intent env req) = [])
  /\ (JS.truthy (i_category req) && JS.truthy (i_entryType req) = false ->
      stripe env <> None ->
      POST_create_payment_intent env req
      = (status_json 400 (Failure "Category and entryType are required" None),
         []))
  /\ (forall params,
         In params (snd (POST_create_payment_intent env req)) ->
         currency params = "usd"
         /\ i_category req = Some (cp_category params)
         /\ i_entryType req = Some (cp_entryType params)
         /\ exists st,
             stripe env = Some st
             /\ match paymentIntents_create st params with
                | Returned paymentIntent =>
                    code (fst (POST_create_payment_intent env req)) = 200
                    /\ exists fee sfee total,
                        body (fst (POST_create_payment_intent env req))
                        = ClientSecret (client_secret paymentIntent)
                                       fee sfee total
                | Thrown message =>
                    fst (POST_create_payment_intent env req)
                    = status_json 500
                        (Failure "Failed to create payment intent"
                                 (Some message))
                end).
Proof.
  unfold POST_create_payment_intent, create_payment_intent.
  destruct (stripe env) as [st|];
    [|cbn; repeat split; auto; try contradiction; congruence].
  destruct (i_category req) as [category|];
    [|cbn; repeat split; auto; contradiction].
  destruct (i_entryType req) as [entryType|];
    [|cbn; repeat split; auto; try contradiction;
      rewrite ?andb_false_r; auto].
  cbn [JS.truthy].
  destruct (category == ""); cbn [negb andb orb];
    [cbn; repeat split; auto; contradiction|].
  destruct (entryType == ""); cbn [negb andb orb];
    [cbn; repeat split; auto; contradiction|].
  destruct (negb (JS.is_true (JS.get baseFees category)));
    [cbn; repeat split; auto; try discriminate; contradiction|].
  match goal with
  | |- context [paymentIntents_create st ?p] =>
      remember p as params eqn:Hparams;
      destruct (paymentIntents_create st params) as [pi|message] eqn:Hcreate
  end; cbn [fst snd code body status_json json List.length In].
  - split; [lia|]. split; [intros [H|H]; discriminate|].
    split; [discriminate|]. intros p [<-|[]]. rewrite Hparams at 1 2 3.
    cbn. repeat split. exists st. split; [reflexivity|]. rewrite Hcreate.
    split; [reflexivity|]. eauto.
  - split; [lia|]. split; [intros [H|H]; discriminate|].
    split; [discriminate|]. intros p [<-|[]]. rewrite Hparams at 1 2 3.
    cbn. repeat split. exists st. split; [reflexivity|]. rewrite Hcreate.
    reflexivity.
Qed.

Lemma payment_intent_is_created_at_most_once_witness :
  POST_create_payment_intent sample_env
    {| i_category := Some "business"; i_entryType := Some "" |}
  = (status_json 400 (Failure "Category and entryType are required" None),
     []).
Proof.
  apply (payment_intent_is_created_at_most_once sample_env
           {| i_category := Some "business"; i_entryType := Some "" |});
    [reflexivity|discriminate].
Defined.

(** ** The listing after a deletion *)

Lemma insert_desc_front (e : Entry) (l : list Entry) :
  Forall (fun y => createdAt y <= createdAt e) l ->
  Model.insert_desc e l = e :: l.
Proof.
  intros Hall. destruct l as [|x l]; [reflexivity|].
  cbn [Model.insert_desc]. inversion Hall as [|? ? Hx _]; subst.
  apply Z.leb_le in Hx. rewrite Hx. reflexivity.
Qed.

Lemma filter_insert_desc (g : Entry -> bool) (e : Entry) (l : list Entry) :
  StronglySorted newer l ->
  filter g (Model.insert_desc e l)
  = if g e then Model.insert_desc e (filter g l) else filter g l.
Proof.
  induction 1 as [|x l Hl IH Hx]; [cbn; destruct (g e); reflexivity|].
  cbn [Model.insert_desc].
  destruct (createdAt x <=? createdAt e) eqn:Hle.
  - cbn [filter]. destruct (g e); [|reflexivity].
    symmetry. apply insert_desc_front.
    apply Z.leb_le in Hle. rewrite Forall_forall in *.
    assert (Hall : forall y, In y (x :: l) -> createdAt y <= createdAt e).
    { intros y [<-|Hy]; [exact Hle|].
      specialize (Hx y Hy). unfold newer in Hx. lia. }
    intros y Hy.
    change (if g x then x :: filter g l else filter g l)
      with (filter g (x :: l)) in Hy.
    apply filter_In in Hy. apply Hall. apply Hy.
  - cbn [filter]. rewrite IH.
    destruct (g x), (g e); cbn [Model.insert_desc]; rewrite ?Hle;
      reflexivity.
Qed.

Lemma filter_sort_desc (g : Entry -> bool) (l : list Entry) :
  filter g (Model.sort_desc l) = Model.sort_desc (filter g l).
Proof.
  induction l as [|x l IH]; [reflexivity|].
  unfold Model.sort_desc in *. cbn [fold_right filter].
  rewrite filter_insert_desc.
  - rewrite IH. destruct (g x); reflexivity.
  - apply Sorted_StronglySorted; [exact newer_trans|].
    apply (sort_desc_sorted l).
Qed.

Lemma filter_comm (f g : Entry -> bool) (l : list Entry) :
  filter f (filter g l) = filter g (filter f l).
Proof.
  induction l as [|x l IH]; [reflexivity|].
  cbn [filter]. destruct (f x) eqn:Hf, (g x) eqn:Hg; cbn [filter];
    rewrite ?Hf, ?Hg, IH; reflexivity.
Qed.

Lemma filter_map_transform (id : N) (l : list Entry) :
  filter (fun e => negb (_id e =? id)%N) (map transform l)
  = map transform (filter (fun e => negb (_id e =? id)%N) l).
Proof.
  induction l as [|x l IH]; [reflexivity|].
  cbn [map filter]. rewrite IH.
  assert (Hid : _id (transform x) = _id x).
  { unfold transform.
    destruct (_ && _); reflexivity. }
  rewrite Hid. destruct (negb (_id x =? id)%N); reflexivity.
Qed.

(** X18.  After the owner has deleted an entry, every user's listing is
    the listing of before with the entries of that id taken out: the other
    entries are listed as before and in the same order.  When the deletion
    is refused (unknown id, an id that is no ObjectId, other owner, no
    database) every listing is as before. *)
Theorem listing_after_delete
        (env : Env) (db : DB) (id : N) (body_userId : option string)
        (user : string) :
  connected env = true ->
  exists entries,
    GET_entries env db user = json (Entries entries)
    /\ (code (fst (DELETE_entries env db id body_userId)) = 200 ->
        GET_entries env (snd (DELETE_entries env db id body_userId)) user
        = json (Entries (filter (fun e => negb (_id e =? id)%N) entries)))
    /\ (code (fst (DELETE_entries env db id body_userId)) <> 200 ->
        GET_entries env (snd (DELETE_entries env db id body_userId)) user
        = json (Entries entries))
    /\ GET_entries env (snd (DELETE_entries env db NotObjectId body_userId))
                   user
       = json (Entries entries).
Proof.
  intros Hconn. exists (map transform (Model.find_sorted user db)).
  unfold GET_entries, DELETE_entries, delete_entry. rewrite Hconn.
  cbn [negb Model.findById Model.findByIdAndDelete].
  split; [reflexivity|]. split; [|split]; [| |reflexivity].
  - destruct (Model.find_id id db) as [entry|];
      [|cbn; discriminate].
    destruct (strict_eq body_userId (userId entry)); cbn [negb fst snd];
      [|cbn; discriminate].
    intros _. f_equal. f_equal.
    unfold Model.find_sorted, Model.delete_id. cbn [docs].
    rewrite filter_map_transform, filter_sort_desc. f_equal. f_equal.
    apply filter_comm.
  - destruct (Model.find_id id db) as [entry|];
      [|cbn; reflexivity].
    destruct (strict_eq body_userId (userId entry)); cbn [negb fst snd];
      [|cbn; reflexivity].
    intros H; exfalso; apply H; reflexivity.
Qed.

Lemma listing_after_delete_witness :
  exists entries,
    GET_entries sample_env db_with_deck "user_1" = json (Entries entries)
    /\ (code (fst (DELETE_entries sample_env db_with_deck 1
                                  (Some "user_1"))) = 200 ->
        GET_entries sample_env
                    (snd (DELETE_entries sample_env db_with_deck 1
                                         (Some "user_1"))) "user_1"
        = json (Entries (filter (fun e => negb (_id e =? 1)%N) entries)))
    /\ (code (fst (DELETE_entries sample_env db_with_deck 1
                                  (Some "user_1"))) <> 200 ->
        GET_entries sample_env
                    (snd (DELETE_entries sample_env db_with_deck 1
                                         (Some "user_1"))) "user_1"
        = json (Entries entries))
    /\ GET_entries sample_env
                   (snd (DELETE_entries sample_env db_with_deck NotObjectId
                                        (Some "user_1"))) "user_1"
       = json (Entries entries).
Proof.
  apply (listing_after_delete sample_env db_with_deck 1 (Some "user_1")
           "user_1").
  reflexivity.
Defined.

(** ** The listing of the second application on a sample collection *)

Lemma second_listing_witness :
  exists entries,
    Second.GET_entries true second_submitted "user_1"
    = json (Entries entries)
    /\ Permutation entries
         (filter (fun e => userId e == "user_1") (docs second_submitted))
    /\ StronglySorted newer entries
    /\ Forall (fun e => fileData e = None) entries.
Proof.
  apply (second_listing second_submitted "user_1").
  repeat constructor.
Defined.

(** ** Cross-origin requests *)

Lemma In_includes (l : list string) (s : string) :
  In s l -> Schema.includes l s = true.
Proof.
  intros H. unfold Schema.includes. apply existsb_exists.
  exists s. split; [exact H|apply String.eqb_refl].
Qed.

(** X19.  The CORS callback allows a request exactly when it carries no
    origin (or an empty one) or its origin is one of three: the two
    localhost origins, always, and one frontend, which is [FRONTEND_URL]
    when that is set and the default deployment otherwise, so that setting
    [FRONTEND_URL] to another address shuts the default deployment out.
    Every other origin gets the error [Not allowed by CORS]. *)
Theorem cors_allows_three_origins (FRONTEND_URL origin : option string) :
  (cors_origin FRONTEND_URL origin = Returned true
   <-> (JS.truthy origin = false
        \/ exists o, origin = Some o /\ In o (allowedOrigins FRONTEND_URL)))
  /\ (cors_origin FRONTEND_URL origin <> Returned true ->
      cors_origin FRONTEND_URL origin = Thrown "Not allowed by CORS")
  /\ cors_origin FRONTEND_URL (Some "http://localhost:3000") = Returned true
  /\ cors_origin FRONTEND_URL (Some "http://localhost:5173") = Returned true
  /\ (forall url, FRONTEND_URL = Some url -> url <> "" ->
                  cors_origin FRONTEND_URL (Some url) = Returned true
                  /\ (url <> default_frontend ->
                      cors_origin FRONTEND_URL (Some default_frontend)
                      = Thrown "Not allowed by CORS"))
  /\ (JS.truthy FRONTEND_URL = false ->
      cors_origin FRONTEND_URL (Some default_frontend) = Returned true).
Proof.
  assert (Hin : forall o, In o (allowedOrigins FRONTEND_URL) ->
                          cors_origin FRONTEND_URL (Some o) = Returned true).
  { intros o Ho. unfold cors_origin. rewrite (In_includes _ _ Ho).
    rewrite orb_true_r. reflexivity. }
  split; [|split; [|split; [|split; [|split]]]].
  - unfold cors_origin. destruct origin as [o|]; [|cbn; tauto].
    cbn [JS.truthy]. destruct (o == "") eqn:Hempty; cbn [orb negb].
    + tauto.
    + destruct (Schema.includes (allowedOrigins FRONTEND_URL) o) eqn:Hinc.
      * split; [|reflexivity]. intros _. right. exists o.
        split; [reflexivity|]. apply includes_In. exact Hinc.
      * split; [discriminate|]. intros [H|(o' & Ho & Hin')];
          [discriminate|]. injection Ho as <-.
        apply In_includes in Hin'. congruence.
  - unfold cors_origin.
    destruct origin as [o|]; [|intros H; exfalso; apply H; reflexivity].
    destruct (_ || _); [intros H; exfalso; apply H; reflexivity|].
    reflexivity.
  - apply Hin. left. reflexivity.
  - apply Hin. right. left. reflexivity.
  - intros url Hset Hne. pose proof (eqb_neq_false _ _ Hne) as Hne'.
    split.
    + apply Hin. subst FRONTEND_URL. unfold allowedOrigins. rewrite Hne'.
      right. right. left. reflexivity.
    + intros Hother. subst FRONTEND_URL.
      unfold cors_origin, allowedOrigins, Schema.includes. rewrite Hne'.
      cbn [existsb].
      assert (Hd : (default_frontend == url) = false)
        by (apply eqb_neq_false; congruence).
      rewrite Hd. reflexivity.
  - intros Hunset. apply Hin. unfold allowedOrigins.
    destruct FRONTEND_URL as [url|]; [|right; right; left; reflexivity].
    cbn in Hunset. apply negb_false_iff in Hunset. rewrite Hunset.
    right. right. left. reflexivity.
Qed.

Lemma cors_allows_three_origins_witness :
  cors_origin (Some "https://contest.example") (Some "https://contest.example")
  = Returned true
  /\ cors_origin (Some "https://contest.example") (Some default_frontend)
     = Thrown "Not allowed by CORS".
Proof.
  destruct (cors_allows_three_origins (Some "https://contest.example") None)
    as (_ & _ & _ & _ & Hset & _).
  destruct (Hset "https://contest.example" eq_refl) as [Hown Hdefault];
    [discriminate|].
  split; [exact Hown|]. apply Hdefault. discriminate.
Defined.

(** ** The health report *)

Lemma create_payment_intent_code (st : Stripe) (req : IntentRequest) :
  code (fst (create_payment_intent st req)) <> 503.
Proof.
  unfold create_payment_intent.
  destruct (i_category req) as [category|]; [|cbn; discriminate].
  destruct (i_entryType req) as [entryType|]; [|cbn; discriminate].
  destruct (_ || _); [cbn; discriminate|].
  destruct (negb _); [cbn; discriminate|].
  destruct (paymentIntents_create st _); cbn; discriminate.
Qed.

(** X20.  The health report agrees with the availability checks of the
    routes: it says [connected] exactly when the routes that read the
    collection are not answered 503, and [initialized] exactly when a
    request for a payment intent is not answered 503. *)
Theorem health_agrees_with_the_checks
        (env : Env) (db : DB) (user : string) (id : Id) (req : IntentRequest) :
  (h_mongodb (GET_health env) = "connected"
   <-> code (GET_entries env db user) <> 503)
  /\ (h_mongodb (GET_health env) = "connected"
      <-> code (GET_entry env db id) <> 503)
  /\ (h_stripe (GET_health env) = "initialized"
      <-> code (fst (POST_create_payment_intent env req)) <> 503)
  /\ (h_mongodb (GET_health env) = "connected"
      \/ h_mongodb (GET_health env) = "disconnected")
  /\ (h_stripe (GET_health env) = "initialized"
      \/ h_stripe (GET_health env) = "not initialized").
Proof.
  unfold GET_health, GET_entries, GET_entry, POST_create_payment_intent,
    connected.
  cbn [h_mongodb h_stripe].
  split; [|split; [|split; [|split]]].
  - destruct (readyState env =? 1); cbn.
    + split; [discriminate|reflexivity].
    + split; [discriminate|]. intros H. exfalso. apply H. reflexivity.
  - destruct (readyState env =? 1); cbn [negb].
    + split; [|reflexivity]. intros _.
      destruct (Model.findById id db) as [[entry|]|]; cbn; discriminate.
    + split; [discriminate|]. intros H. exfalso. apply H. reflexivity.
  - destruct (stripe env) as [st|].
    + split; [|reflexivity]. intros _. apply create_payment_intent_code.
    + split; [discriminate|]. intros H. exfalso. apply H. reflexivity.
  - destruct (readyState env =? 1); auto.
  - destruct (stripe env); auto.
Qed.

(** ** The second application: deleting an entry *)

(** X23.  The delete route of the second application checks before it
    asks the database: an id that is no ObjectId is answered 400, a request
    without a [userId] 400; then an unknown id is answered 404, the entry of
    another owner 403, and the owner's entry is removed and the answer is
    200, after which a get of the id is answered 404.  Nothing is removed
    in the other cases; without the database the answer is 503. *)
Theorem second_delete_checks_first
        (db : DB) (id : Id) (body_userId : option string) :
  Second.DELETE_entries false db id body_userId = (Second.not_connected, db)
  /\ (id = NotObjectId ->
      Second.DELETE_entries true db id body_userId
      = (status_json 400 (Failure "Invalid entry ID format" None), db))
  /\ (forall n,
         id = ObjectId n -> JS.truthy body_userId = false ->
         Second.DELETE_entries true db id body_userId
         = (status_json 400 (Failure "User ID required" None), db))
  /\ (forall n,
         id = ObjectId n -> JS.truthy body_userId = true ->
         Model.find_id n db = None ->
         Second.DELETE_entries true db id body_userId
         = (status_json 404 (Failure "Entry not found" None), db))
  /\ (forall n entry,
         id = ObjectId n -> JS.truthy body_userId = true ->
         Model.find_id n db = Some entry ->
         body_userId <> Some (userId entry) ->
         Second.DELETE_entries true db id body_userId
         = (status_json 403
              (Failure "Not authorized to delete this entry" None), db))
  /\ (forall n entry,
         id = ObjectId n -> JS.truthy body_userId = true ->
         Model.find_id n db = Some entry ->
         body_userId = Some (userId entry) ->
         Second.DELETE_entries true db id body_userId
         = (json (Message "Entry deleted successfully"), Model.delete_id n db)
         /\ Second.GET_entry true (Model.delete_id n db) id
            = status_json 404 (Failure "Entry not found" None)).
Proof.
  unfold Second.DELETE_entries, Second.GET_entry. cbn [negb].
  split; [reflexivity|]. split; [intros ->; reflexivity|].
  split; [intros n -> Huser; cbn; rewrite Huser; reflexivity|].
  split; [|split].
  - intros n -> Huser Hnone. cbn. rewrite Huser, Hnone. reflexivity.
  - intros n entry -> Huser Hfound Hother. cbn. rewrite Huser, Hfound.
    rewrite (proj2 (strict_eq_false _ _) Hother). reflexivity.
  - intros n entry -> Huser Hfound Hown.
    cbn [Second.isValid negb Model.findById Model.findByIdAndDelete].
    rewrite Huser, Hfound, (proj2 (strict_eq_true _ _) Hown), find_id_deleted.
    split; reflexivity.
Qed.

Lemma second_delete_checks_first_witness :
  Second.DELETE_entries true second_submitted 0 (Some "user_1")
  = (json (Message "Entry deleted successfully"),
     Model.delete_id 0 second_submitted)
  /\ docs (Model.delete_id 0 second_submitted) = []
  /\ Second.DELETE_entries true second_submitted 0 None
     = (status_json 400 (Failure "User ID required" None), second_submitted).
Proof.
  destruct (second_delete_checks_first second_submitted 0 (Some "user_1"))
    as (_ & _ & _ & _ & _ & Hown).
  destruct (second_delete_checks_first second_submitted 0 None)
    as (_ & _ & Hmissing & _).
  destruct (Model.find_id 0 second_submitted) as [entry|] eqn:Hfound;
    [|discriminate Hfound].
  split; [|split; [reflexivity|]].
  - apply (Hown 0%N entry eq_refl eq_refl Hfound).
    vm_compute in Hfound. inversion Hfound. reflexivity.
  - apply (Hmissing 0%N eq_refl eq_refl).
Defined.

(** ** The second application: the test-entry route *)

Lemma second_sample_valid (now : Z) (user : string) :
  user <> "" -> Second.valid (Second.sample_entry user now) = true.
Proof.
  intros Huser. unfold Second.valid, Second.sample_entry, test_entry.
  cbn [d_userId d_category d_entryType d_title d_description d_textContent
       d_fileUrl d_videoUrl d_paymentIntentId JS.truthy Schema.when_set
       option_map].
  rewrite (eqb_neq_false _ _ Huser). vm_compute. reflexivity.
Qed.

(** X24.  Outside production, and with the database, the test-entry route
    of the second application stores a text entry of 205 words for the user
    of the URL, paid 49 + 2 = 51 under a payment intent named after the
    time, and answers with its id and title; the entries stored before are
    kept.  In production the route does not exist and the answer is the
    404 of the last middleware; without the database it is 503. *)
Theorem second_test_entry_is_stored (now : Z) (db : DB) (user : string) :
  user <> "" ->
  Second.GET_create_test_entry false false now db user
  = (Second.not_connected, db)
  /\ Second.GET_create_test_entry true true now db user
     = (Second.not_found, db)
  /\ exists e db',
      Second.GET_create_test_entry true false now db user
      = (json (TestEntry (_id e) "Sample Business Strategy Entry"), db')
      /\ docs db' = (docs db ++ [e])%list
      /\ userId e = user
      /\ category e = "business"
      /\ entryType e = "text"
      /\ title e = "Sample Business Strategy Entry"
      /\ Schema.wordCount (textContent e) = 205%nat
      /\ entryFee e = 49%float /\ stripeFee e = 2%float
      /\ totalAmount e = 51%float
      /\ paymentIntentId e = ("pi_test_" ++ decimal now)%string
      /\ paymentStatus e = succeeded
      /\ status e = submitted
      /\ createdAt e = now
      /\ fileData e = None /\ fileUrl e = None /\ videoUrl e = None.
Proof.
  intros Huser. split; [reflexivity|]. split; [reflexivity|].
  unfold Second.GET_create_test_entry, Second.save. cbn [negb].
  rewrite (second_sample_valid now user Huser).
  destruct (Schema.document (next_id db) now
              (Second.paths (Second.sample_entry user now)))
    as [e|] eqn:Hdoc; [|discriminate Hdoc].
  destruct (document_fields _ _ _ _ Hdoc)
    as (_ & Htype & Hpid & Hfee & Hsfee & Htotal & Hdata & Hurl & Hps).
  destruct (document_more_fields _ _ _ _ Hdoc)
    as (Huid & Hcat & Htitle & _ & Htext & Hvideo & _ & _ & _
        & Hcreated & _ & _ & Hstatus).
  cbn in Htype, Hfee, Hsfee, Htotal, Hdata, Hurl, Hps, Huid, Hcat,
    Htitle, Hvideo, Hstatus.
  change (Some ("pi_test_" ++ decimal now)%string = Some (paymentIntentId e))
    in Hpid.
  inversion Htype as [Htype']. inversion Hpid as [Hpid'].
  inversion Hps as [Hps']. inversion Huid as [Huid'].
  inversion Hcat as [Hcat']. inversion Htitle as [Htitle'].
  inversion Hstatus as [Hstatus'].
  exists e. eexists. split; [reflexivity|]. split; [reflexivity|].
  repeat split; try assumption; try reflexivity; try congruence.
  rewrite Htext. vm_compute. reflexivity.
Qed.

Lemma second_test_entry_is_stored_witness :
  exists e db',
    Second.GET_create_test_entry true false 1000 empty_db "user_1"
    = (json (TestEntry (_id e) "Sample Business Strategy Entry"), db')
    /\ docs db' = [e]
    /\ Schema.wordCount (textContent e) = 205%nat.
Proof.
  destruct (second_test_entry_is_stored 1000 empty_db "user_1")
    as (_ & _ & e & db' & Hget & Hdocs & _ & _ & _ & _ & Hwords & _).
  - discriminate.
  - exists e, db'. split; [exact Hget|]. split; [exact Hdocs|exact Hwords].
Defined.

(** ** The second application: what a delivery meets before its signature *)

(** X25.  A delivery to the second application is answered before its
    signature is looked at when its body, of type [application/json], is
    longer than 100 kb (the 500 of the error middleware), when the
    database is not there (503), and when the gateway or the webhook
    secret is missing (500 [Webhook not configured]).  A delivery of
    another type is answered 400 once these checks are passed.  In none of
    these cases is the collection changed. *)
Theorem second_webhook_checks
        (env : Env) (now : Z) (db : DB) (rawBody : string)
        (sig : option string) :
  (102400 < Z.of_nat (String.length rawBody) ->
   forall db_ready,
     Second.POST_webhook db_ready env now db true rawBody sig
     = (Second.internal_server_error, db))
  /\ (forall is_json,
         (is_json = true -> Z.of_nat (String.length rawBody) <= 102400) ->
         Second.POST_webhook false env now db is_json rawBody sig
         = (Second.not_connected, db))
  /\ (forall is_json,
         (is_json = true -> Z.of_nat (String.length rawBody) <= 102400) ->
         ~ configured env ->
         Second.POST_webhook true env now db is_json rawBody sig
         = (status_json 500 (Failure "Webhook not configured" None), db))
  /\ (configured env ->
      snd (Second.POST_webhook true env now db false rawBody sig) = db
      /\ code (fst (Second.POST_webhook true env now db false rawBody sig))
         = 400).
Proof.
  assert (Hread : forall is_json,
             (is_json = true -> Z.of_nat (String.length rawBody) <= 102400) ->
             exists payload,
               Second.raw_first is_json rawBody = Returned payload).
  { intros [|] Hsize; unfold Second.raw_first; [|eauto].
    replace (102400 <? Z.of_nat (String.length rawBody)) with false
      by (symmetry; apply Z.ltb_ge; auto).
    eauto. }
  split; [|split; [|split]].
  - intros Hlong db_ready. unfold Second.POST_webhook, Second.raw_first.
    replace (102400 <? Z.of_nat (String.length rawBody)) with true
      by (symmetry; apply Z.ltb_lt; exact Hlong).
    reflexivity.
  - intros is_json Hsize. destruct (Hread is_json Hsize) as [payload Hraw].
    unfold Second.POST_webhook. rewrite Hraw. reflexivity.
  - intros is_json Hsize Hnot. destruct (Hread is_json Hsize) as [payload Hraw].
    unfold Second.POST_webhook, Second.webhook. rewrite Hraw. cbn [negb].
    destruct (stripe env) as [st|] eqn:Hst; [|reflexivity].
    destruct (STRIPE_WEBHOOK_SECRET env) as [secret|] eqn:Hsecret;
      [|reflexivity].
    destruct (secret == "") eqn:Hempty; [reflexivity|].
    exfalso. apply Hnot. exists st, secret.
    split; [exact Hst|]. split; [exact Hsecret|].
    apply String.eqb_neq. exact Hempty.
  - intros (st & secret & Hst & Hsecret & Hne).
    unfold Second.POST_webhook, Second.raw_first, Second.webhook.
    cbn [negb]. rewrite Hst, Hsecret, (eqb_neq_false _ _ Hne).
    split; reflexivity.
Qed.

Lemma second_webhook_checks_witness :
  Second.POST_webhook true starting_env 2000 second_submitted true
                      "payment_intent.payment_failed" (Some "whsec_1")
  = (status_json 500 (Failure "Webhook not configured" None),
     second_submitted).
Proof.
  apply (proj1 (proj2 (proj2
           (second_webhook_checks starting_env 2000 second_submitted
              "payment_intent.payment_failed" (Some "whsec_1")))) true).
  - intros _. cbn. lia.
  - intros (st & secret & Hst & _). discriminate Hst.
Defined.

(** ** The second application: what a submission stores *)

Lemma second_validate_submission_pid req file pid :
  Second.validate_submission req file = inr pid ->
  r_paymentIntentId req = Some pid
  /\ (r_entryType req = Some "pitch-deck" -> exists f, file = Some f).
Proof.
  unfold Second.validate_submission.
  destruct (r_paymentIntentId req) as [p|]; [|discriminate].
  destruct (_ || _); [discriminate|].
  destruct (strict_eq (r_entryType req) "pitch-deck") eqn:Hdeck.
  - destruct (Second.pitch_deck_check file) as [rejection|] eqn:Hcheck;
      [discriminate|].
    intros H. inversion H. split; [reflexivity|]. intros _.
    destruct file as [f|]; [eauto|discriminate Hcheck].
  - intros H. inversion H. split; [reflexivity|]. intros Htype.
    rewrite (proj2 (strict_eq_true _ _) Htype) in Hdeck. discriminate.
Qed.

(** X26.  In the second application a submission changes the collection
    only when the gateway returned its intent as [succeeded]; the answer
    is then 201 with the id of the entry, which is added behind the
    others.  The entry has the owner, category, type, title and payment
    intent of the request, the description of the request or the empty
    text, the amounts that [parseInt] reads from the metadata of the
    intent and their sum, the status [succeeded], no inline file, and, for
    a pitch deck, the URL [temp://] followed by the name of the file. *)
Theorem second_submission_is_verified
        (db_ready : bool) (env : Env) (now : Z) (db : DB)
        (req : EntryRequest) :
  snd (Second.POST_entries db_ready env now db req) <> db ->
  exists st pid file paymentIntent e,
    db_ready = true
    /\ stripe env = Some st
    /\ r_paymentIntentId req = Some pid
    /\ Second.upload (r_file req) = inr file
    /\ paymentIntents_retrieve st pid = Returned paymentIntent
    /\ pi_status paymentIntent = "succeeded"
    /\ fst (Second.POST_entries db_ready env now db req)
       = status_json 201 (Submitted (_id e))
    /\ docs (snd (Second.POST_entries db_ready env now db req))
       = (docs db ++ [e])%list
    /\ r_userId req = Some (userId e)
    /\ r_category req = Some (category e)
    /\ r_entryType req = Some (entryType e)
    /\ r_title req = Some (title e)
    /\ description e = Some (match r_description req with
                             | Some text => text
                             | None => ""
                             end)
    /\ paymentIntentId e = pid
    /\ entryFee e = JS.parseInt (m_entryFee (metadata paymentIntent))
    /\ stripeFee e = JS.parseInt (m_stripeFee (metadata paymentIntent))
    /\ totalAmount e = PrimFloat.add (entryFee e) (stripeFee e)
    /\ paymentStatus e = succeeded
    /\ createdAt e = now
    /\ fileData e = None
    /\ (entryType e = "pitch-deck" ->
        exists f, file = Some f
                  /\ fileUrl e = Some ("temp://" ++ originalname f)%string).
Proof.
  unfold Second.POST_entries, Second.submit_entry.
  destruct db_ready; [|cbn; congruence]. cbn [negb].
  destruct (Second.upload (r_file req)) as [refusal|file] eqn:Hup;
    [cbn; congruence|].
  destruct (Second.validate_submission req file) as [rejection|pid] eqn:Hval;
    [cbn; congruence|].
  destruct (stripe env) as [st|] eqn:Hst; [|cbn; congruence].
  destruct (paymentIntents_retrieve st pid) as [paymentIntent|] eqn:Hret;
    [|cbn; congruence].
  destruct (pi_status paymentIntent == "succeeded") eqn:Hstatus;
    [|cbn; congruence]. cbn [negb].
  destruct (Second.save now db (Second.entryData req file pid paymentIntent))
    as [[e db']|] eqn:Hsave; [|cbn; congruence].
  intros _. cbn [fst snd].
  destruct (second_validate_submission_pid _ _ _ Hval) as [Hpid Hdeck].
  unfold Second.save in Hsave.
  destruct (Second.valid _); [|discriminate].
  destruct (Schema.document (next_id db) now
              (Second.paths (Second.entryData req file pid paymentIntent)))
    as [e0|] eqn:Hdoc; [|discriminate].
  inversion Hsave; subst e0 db'. clear Hsave.
  destruct (document_fields _ _ _ _ Hdoc)
    as (_ & Htype & Hp & Hfee & Hsfee & Htotal & Hdata & Hurl & Hps).
  destruct (document_more_fields _ _ _ _ Hdoc)
    as (Huid & Hcat & Htitle & Hdesc & _ & _ & _ & _ & _
        & Hcreated & _ & _ & _).
  cbn in Htype, Hp, Hfee, Hsfee, Htotal, Hdata, Hps, Huid, Hcat, Htitle, Hdesc.
  unfold Second.paths, Second.entryData in Hurl. cbn [d_fileUrl] in Hurl.
  inversion Hp as [Hp']. inversion Hps as [Hps'].
  apply String.eqb_eq in Hstatus.
  exists st, pid, file, paymentIntent, e.
  repeat split; try assumption; try reflexivity; try congruence.
  intros Hty. assert (Hreq : r_entryType req = Some "pitch-deck")
    by congruence.
  destruct (Hdeck Hreq) as [f ->]. exists f. split; [reflexivity|].
  rewrite Hurl, Hreq. reflexivity.
Qed.

Lemma second_submission_is_verified_witness :
  exists e,
    docs second_submitted = [e]
    /\ paymentStatus e = succeeded
    /\ totalAmount e = PrimFloat.add (entryFee e) (stripeFee e)
    /\ fileData e = None.
Proof.
  destruct (second_submission_is_verified true sample_env 1000 empty_db
              (video_request "pi_paid"))
    as (st & pid & file & paymentIntent & e & H).
  - discriminate.
  - exists e. destruct H as (_ & _ & _ & _ & _ & _ & _ & Hdocs & _ & _ & _ & _
                            & _ & _ & _ & _ & Htotal & Hps & _ & Hdata & _).
    split; [exact Hdocs|]. split; [exact Hps|]. split; assumption.
Defined.
